(** * A shallow embedding of the arena-backed JSON decoder and encoder

    The development follows the C translation unit function by function.

    - [size_t] values are integers in [Z] with the 64-bit wrap-around
      written out ([size_t z = z mod 2^64]).
    - [double] values are IEEE 754 binary64 numbers ([spec_float] with
      [prec = 53] and [emax = 1024]); [*] and [+] are the correctly
      rounded operations of [SpecFloat].
    - [pow] (libm) and the [%g] conversion of [fprintf] (libc) are not part
      of the translation unit: the program is parameterised by them
      ([Class Libc]), and a reference instance is given for evaluation.
    - Pointers into arena memory are replaced by what they point to; the
      storage of a growable buffer is kept slot by slot, each slot
      recording which prefix of an element's bytes it holds, so that the
      byte count given to [memmove] is observable.
    - A call either returns, fails an [assert], touches memory outside
      the object it was given, or does not return within the fuel it was
      given ([Outcome]). *)

From Stdlib Require Import ZArith Bool Ascii String Lia.
From Stdlib Require Import Floats.SpecFloat.
From Stdlib Require Import List.
Import ListNotations.

#[local] Set Warnings "-register-all".

Local Open Scope Z_scope.

(** ** Outcomes of a call *)

Inductive Outcome (A : Type) : Type :=
| Done (a : A)      (* the call returned *)
| AssertFail        (* an [assert] failed: the process aborts *)
| Fault             (* access outside a memory object: undefined behaviour *)
| Torn              (* a partly copied element was read: its value depends on
                       the object representation, which is not modelled *)
| OutOfFuel.        (* no return within the given number of steps *)

Arguments Done {A} a.
Arguments AssertFail {A}.
Arguments Fault {A}.
Arguments Torn {A}.
Arguments OutOfFuel {A}.

Definition obind {A B : Type} (o : Outcome A) (k : A -> Outcome B) : Outcome B :=
  match o with
  | Done a => k a
  | AssertFail => AssertFail
  | Fault => Fault
  | Torn => Torn
  | OutOfFuel => OutOfFuel
  end.

(** ** Machine integers *)

Definition SIZE_MOD : Z := 2 ^ 64.
Definition size_t (z : Z) : Z := z mod SIZE_MOD.

Definition INT_MAX : Z := 2 ^ 31 - 1.

(** [(int) z] for a [size_t] value [z]: two's complement on 32 bits. *)
Definition int_of_size_t (z : Z) : Z :=
  let r := z mod 2 ^ 32 in
  if r <? 2 ^ 31 then r else r - 2 ^ 32.

(** ** Arena allocator *)

Definition ARENA_DEFAULT_CAP : Z := 1024.

(** A byte of a pool: as [malloc] left it, or set by [memset]. *)
Inductive poolbyte : Type :=
| Indeterminate
| ByteVal (b : Z).

Inductive Arena : Type := mkArena {
  arena_cap : Z;
  arena_used : Z;
  arena_pool : list poolbyte;
  arena_next : option Arena
}.

(** A pointer into the arena: the block of the chain (0 is the head) and the
    offset in that block's pool. *)
Definition ArenaPtr : Type := (nat * Z)%type.

Definition align (addr alignment : Z) : Z :=
  let rem := addr mod alignment in
  if rem =? 0 then addr
  else size_t (size_t (addr - rem) + alignment).

Definition arena_new (cap : Z) : Arena :=
  let cap := align cap 8 in
  mkArena cap 0 (repeat Indeterminate (Z.to_nat cap)) None.

Definition arena_default_new : Arena := arena_new ARENA_DEFAULT_CAP.

(** [memset(pool + off, 0, size)], for a range inside the pool. *)
Definition memset0 (pool : list poolbyte) (off size : Z) : list poolbyte :=
  firstn (Z.to_nat off) pool
    ++ repeat (ByteVal 0) (Z.to_nat size)
    ++ skipn (Z.to_nat (off + size)) pool.

Fixpoint arena_alloc (fuel : nat) (arena : Arena) (size : Z)
  : Outcome (ArenaPtr * Arena) :=
  match fuel with
  | O => OutOfFuel
  | S fuel' =>
    let size := align size 8 in
    if size_t (arena_used arena + size) <? arena_cap arena then
      (* memset(ptr, 0, size) must stay inside the pool *)
      if arena_used arena + size <=? Z.of_nat (length (arena_pool arena)) then
        Done ((O, arena_used arena),
              mkArena (arena_cap arena)
                      (size_t (arena_used arena + size))
                      (memset0 (arena_pool arena) (arena_used arena) size)
                      (arena_next arena))
      else Fault
    else
      let nxt := match arena_next arena with
                 | None => arena_new (arena_cap arena)
                 | Some n => n
                 end in
      obind (arena_alloc fuel' nxt size) (fun '((blk, off), nxt') =>
        Done ((S blk, off),
              mkArena (arena_cap arena) (arena_used arena)
                      (arena_pool arena) (Some nxt')))
  end.

(** The blocks of a chain, head first. *)
Fixpoint arena_blocks (a : Arena) : list Arena :=
  a :: match arena_next a with
       | None => []
       | Some n => arena_blocks n
       end.

(** The bytes of the allocation made at [p], of [size] bytes. *)
Definition arena_region (a : Arena) (p : ArenaPtr) (size : Z) : option (list poolbyte) :=
  match nth_error (arena_blocks a) (fst p) with
  | None => None
  | Some b =>
    if (0 <=? snd p) && (snd p + size <=? Z.of_nat (length (arena_pool b)))
    then Some (firstn (Z.to_nat size) (skipn (Z.to_nat (snd p)) (arena_pool b)))
    else None
  end.

(** ** Floating point *)

Definition double : Type := spec_float.

Definition double_of_int (z : Z) : double := binary_normalize 53 1024 z 0 false.
Definition dmul : double -> double -> double := SFmul 53 1024.
Definition dadd : double -> double -> double := SFadd 53 1024.
Definition ddiv : double -> double -> double := SFdiv 53 1024.

(** What the translation unit takes from libm and libc. *)
Class Libc : Type := {
  pow : double -> double -> double;        (* <math.h> *)
  printf_g : double -> list ascii          (* the "%g" conversion of fprintf *)
}.

(** ** Text *)

Definition text (s : string) : list ascii := list_ascii_of_string s.

Definition Z_of_char (c : ascii) : Z := Z.of_N (N_of_ascii c).

Definition char_eqb (a b : ascii) : bool := Ascii.eqb a b.

Definition NUL : ascii := "000"%char.
Definition DQUOTE : ascii := "034"%char.

(** Text written with ['] standing for the double quote. *)
Definition qtext (s : string) : list ascii :=
  map (fun c => if char_eqb c "'"%char then DQUOTE else c) (text s).

(** ** Growable buffers

    [Array(T)] is [{len; cap; ptr}].  The region behind [ptr] is kept as one
    slot per element of [sizeof(T)] bytes. *)

Inductive slot (T : Type) : Type :=
| Zero                      (* every byte of the slot is 0 *)
| Full (x : T)              (* the object representation of [x] *)
| Part (x : T) (k : Z).     (* the first [k] bytes of [x], then zeros; [0 < k < sizeof(T)] *)

Arguments Zero {T}.
Arguments Full {T} x.
Arguments Part {T} x k.

Record Array (T : Type) : Type := mkArray {
  len : Z;
  cap : Z;
  ptr : list (slot T)
}.

Arguments mkArray {T} len cap ptr.
Arguments len {T} a.
Arguments cap {T} a.
Arguments ptr {T} a.

(** A zero-initialised [Array(T)]: [len = 0], [cap = 0], [ptr = NULL]. *)
Definition array_zero {T : Type} : Array T := mkArray 0 0 [].

Definition ARRAY_INIT_CAP : Z := 10.

(** The first [k] bytes of a slot, followed by zeros. *)
Definition slot_prefix {T : Type} (esz k : Z) (s : slot T) : slot T :=
  if k <=? 0 then Zero
  else if esz <=? k then s
  else match s with
       | Zero => Zero
       | Full x => Part x k
       | Part x j => Part x (Z.min j k)
       end.

(** The slots that hold the first [n] bytes of [src], the last one cut. *)
Fixpoint copy_bytes {T : Type} (esz : Z) (src : list (slot T)) (n : Z) : list (slot T) :=
  match src with
  | [] => []
  | s :: src' =>
    if n <=? 0 then []
    else slot_prefix esz n s :: copy_bytes esz src' (n - esz)
  end.

(** [memmove(dst, src, n)] where [dst] is a region of slots and [src] has at
    least [n] bytes. *)
Definition memmove {T : Type} (esz : Z) (dst src : list (slot T)) (n : Z) : list (slot T) :=
  let moved := copy_bytes esz src n in
  moved ++ skipn (length moved) dst.

(** [ptr[i] = item]; [None] when slot [i] is outside the region. *)
Fixpoint store_slot {T : Type} (l : list (slot T)) (i : nat) (item : T)
  : option (list (slot T)) :=
  match l, i with
  | [], _ => None
  | _ :: l', O => Some (Full item :: l')
  | s :: l', S i' => option_map (cons s) (store_slot l' i' item)
  end.

(** ** JSON values *)

Inductive JsonType : Type :=
| JSON_NULL | JSON_TRUE | JSON_FALSE | JSON_NUMBER
| JSON_STRING | JSON_ARRAY | JSON_OBJECT.

Definition JsonString : Type := Array ascii.
Definition JsonNumber : Type := double.

(** [JsonValue] is [{type; value}]; the constructor gives [type] and carries
    what [value] points to. *)
Inductive JsonValue : Type :=
| VNull
| VTrue
| VFalse
| VNumber (value : JsonNumber)
| VString (value : JsonString)
| VArray (value : Array JsonValue)
| VObject (properties : Array (JsonString * JsonValue)).

Definition JsonArray : Type := Array JsonValue.
Definition JsonObjectProperty : Type := (JsonString * JsonValue)%type.

Definition json_type (v : JsonValue) : JsonType :=
  match v with
  | VNull => JSON_NULL
  | VTrue => JSON_TRUE
  | VFalse => JSON_FALSE
  | VNumber _ => JSON_NUMBER
  | VString _ => JSON_STRING
  | VArray _ => JSON_ARRAY
  | VObject _ => JSON_OBJECT
  end.

(** Sizes of the LP64 data model. *)
Definition sizeof_char : Z := 1.
Definition sizeof_JsonNumber : Z := 8.
Definition sizeof_String : Z := 24.
Definition sizeof_JsonValue : Z := 16.
Definition sizeof_JsonArray : Z := 24.
Definition sizeof_JsonObjectProperty : Z := 24.
Definition sizeof_JsonObject : Z := 24.

(** ** Program state

    [StringView] is [{len; ptr}]: [sv_ptr] is the memory from the pointer to
    the end of the object it points into, [sv_len] the length of the view.
    The only arithmetic on [len] is a decrement behind [assert(len > 0)], so
    it is kept as a natural number. *)

Record StringView : Type := mkStringView {
  sv_len : nat;
  sv_ptr : list ascii
}.

Definition sv_from_cstr (cstr : list ascii) (len : nat) : StringView :=
  mkStringView len cstr.

(** The view being parsed, the global [DEFAULT_ARENA], and a count of the
    reads of [*str->ptr] made while [str->len] was 0. *)
Record State : Type := mkState {
  str : StringView;
  DEFAULT_ARENA : Arena;
  oob_reads : nat
}.

Definition M (A : Type) : Type := State -> Outcome (A * State).

Definition ret {A : Type} (a : A) : M A := fun st => Done (a, st).

Definition bind {A B : Type} (m : M A) (k : A -> M B) : M B :=
  fun st => obind (m st) (fun '(a, st') => k a st').

Definition raise {A : Type} (o : Outcome (A * State)) : M A := fun _ => o.

Declare Scope prog_scope.
Delimit Scope prog_scope with prog.
Notation "x <- c ;; k" := (bind c (fun x => k))
  (at level 61, c at next level, right associativity) : prog_scope.
Notation "c ;; k" := (bind c (fun _ => k))
  (at level 61, right associativity) : prog_scope.
Local Open Scope prog_scope.

(** [str->len] *)
Definition str_len : M nat := fun st => Done (sv_len (str st), st).

(** [*str->ptr] *)
Definition str_peek : M ascii := fun st =>
  match sv_ptr (str st) with
  | [] => Fault
  | c :: _ =>
    Done (c, if Nat.eqb (sv_len (str st)) 0
             then mkState (str st) (DEFAULT_ARENA st) (S (oob_reads st))
             else st)
  end.

Definition consume_char : M unit := fun st =>
  match sv_len (str st) with
  | O => AssertFail
  | S n =>
    Done (tt, mkState (mkStringView n (tl (sv_ptr (str st))))
                      (DEFAULT_ARENA st) (oob_reads st))
  end.

(** [arena_alloc(DEFAULT_ARENA, size)]; the pointer is returned. *)
Definition arena_alloc_default (fuel : nat) (size : Z) : M ArenaPtr := fun st =>
  obind (arena_alloc fuel (DEFAULT_ARENA st) size) (fun '(p, a) =>
    Done (p, mkState (str st) a (oob_reads st))).

(** [new(T)] with [size = sizeof(T)]. *)
Definition new (fuel : nat) (size : Z) : M ArenaPtr := arena_alloc_default fuel size.

(** The region of slots behind a pointer just returned by [arena_alloc]:
    [size] zero bytes, seen as elements of [esz] bytes. *)
Definition fresh_region {T : Type} (esz size : Z) : list (slot T) :=
  repeat Zero (Z.to_nat (size / esz)).

Definition array_append {T : Type} (fuel : nat) (esz : Z) (arr : Array T) (item : T)
  : M (Array T) :=
  arr <- (if cap arr <? size_t (len arr + 1) then
            let cap' := if cap arr =? 0 then ARRAY_INIT_CAP
                        else size_t (cap arr * 2) in
            _ <- arena_alloc_default fuel (size_t (cap' * esz)) ;;
            let dst := fresh_region esz (size_t (cap' * esz)) in
            let dst := if 0 <? len arr
                       then memmove esz dst (ptr arr) (len arr)
                       else dst in
            ret (mkArray (len arr) cap' dst)
          else ret arr) ;;
  match store_slot (ptr arr) (Z.to_nat (len arr)) item with
  | None => raise Fault
  | Some p => ret (mkArray (size_t (len arr + 1)) (cap arr) p)
  end.

(** ** Encoder *)

(** The characters [%.*s] writes: at most [n], stopping at a NUL. *)
Fixpoint print_chars (n : nat) (l : list (slot ascii)) : Outcome (list ascii) :=
  match n with
  | O => Done []
  | S n' =>
    match l with
    | [] => Fault
    | Zero :: _ => Done []
    | Part _ _ :: _ => Torn
    | Full c :: l' =>
      if char_eqb c NUL then Done []
      else obind (print_chars n' l') (fun r => Done (c :: r))
    end
  end.

(** [fprintf(stream, "\"%.*s\"", (int)s->len, s->ptr)]: a negative precision
    is taken as if it were omitted. *)
Definition print_string (s : JsonString) : Outcome (list ascii) :=
  let precision := int_of_size_t (len s) in
  let n := if precision <? 0 then S (length (ptr s)) else Z.to_nat precision in
  obind (print_chars n (ptr s)) (fun r => Done (DQUOTE :: r ++ [DQUOTE])).

Section Program.

Context {libc : Libc}.

(** The element loop shared by arrays and objects:
    [for (i = 0; i < n; i++) { <element i>; if (i < n - 1) fprintf(","); }],
    where [l] is the region from element [i] on. *)
Fixpoint encode_items {T : Type} (element : slot T -> Outcome (list ascii))
    (n : Z) (l : list (slot T)) (i : Z) {struct l} : Outcome (list ascii) :=
  if i <? n then
    match l with
    | [] => Fault
    | s :: l' =>
      obind (element s) (fun e =>
      obind (encode_items element n l' (i + 1)) (fun rest =>
      Done (e ++ (if i <? size_t (n - 1) then text "," else []) ++ rest)))
    end
  else Done [].

Fixpoint encode_json (root : JsonValue) : Outcome (list ascii) :=
  match root with
  | VNull => Done (text "null")
  | VTrue => Done (text "true")
  | VFalse => Done (text "false")
  | VNumber value => Done (printf_g value)
  | VString value => print_string value
  | VArray value =>
    obind
      (encode_items
         (fun s => match s with
                   | Zero => Done (text "null")     (* type 0 is JSON_NULL *)
                   | Full x => encode_json x
                   | Part _ _ => Torn
                   end)
         (len value) (ptr value) 0)
      (fun body => Done (text "[ " ++ body ++ text "] "))
  | VObject properties =>
    obind
      (encode_items
         (fun s => match s with
                   | Zero => Fault                  (* prop.key is NULL *)
                   | Full (key, v) =>
                     obind (print_string key) (fun k =>
                     obind (encode_json v) (fun e =>
                     Done (k ++ text " : " ++ e)))
                   | Part _ _ => Torn
                   end)
         (len properties) (ptr properties) 0)
      (fun body => Done (text "{ " ++ body ++ text "} "))
  end.

(** ** Decoder *)

Definition is_whitespace (c : ascii) : bool :=
  char_eqb c "010"%char || char_eqb c " "%char
  || char_eqb c "009"%char || char_eqb c "013"%char.

Definition is_digit (c : ascii) : bool :=
  (Z_of_char "0"%char <=? Z_of_char c) && (Z_of_char c <=? Z_of_char "9"%char).

Fixpoint trim_left (fuel : nat) : M unit :=
  match fuel with
  | O => raise OutOfFuel
  | S fuel' =>
    n <- str_len ;;
    if Nat.ltb 0 n then
      c <- str_peek ;;
      if is_whitespace c then consume_char ;; trim_left fuel'
      else ret tt
    else ret tt
  end.

(** The [for] loop of [consume_literal], over [literal[0 .. literal_size)]. *)
Fixpoint consume_literal_loop (literal : list ascii) : M bool :=
  match literal with
  | [] => ret true
  | l :: literal' =>
    c <- str_peek ;;
    if negb (char_eqb c l) then ret false
    else consume_char ;; consume_literal_loop literal'
  end.

Definition consume_literal (literal : list ascii) (literal_size : nat) : M bool :=
  n <- str_len ;;
  if Nat.ltb n literal_size then ret false
  else consume_literal_loop (firstn literal_size literal).

Inductive JsonResult : Type :=
| ErrResult
| OkResult (val : JsonValue).

Definition decode_json_null : M JsonResult :=
  ok <- consume_literal (text "null") 4 ;;
  if negb ok then ret ErrResult
  else ret (OkResult VNull).

Definition decode_json_true : M JsonResult :=
  ok <- consume_literal (text "true") 4 ;;
  if negb ok then ret ErrResult
  else ret (OkResult VTrue).

Definition decode_json_false : M JsonResult :=
  ok <- consume_literal (text "false") 5 ;;
  if negb ok then ret ErrResult
  else ret (OkResult VFalse).

(** The [while] loop of [decode_json_number]; [None] is the [return ErrResult]
    inside the loop, [Some num] the value of [num] when the loop is left. *)
Fixpoint number_loop (fuel : nat) (num : double) (fraction_count : Z)
    (fraction_part : bool) : M (option double) :=
  match fuel with
  | O => raise OutOfFuel
  | S fuel' =>
    n <- str_len ;;
    if Nat.ltb 0 n then
      c <- str_peek ;;
      if char_eqb c ","%char || char_eqb c "]"%char || char_eqb c "}"%char
         || is_whitespace c
      then ret (Some num)
      else if is_digit c then
        let d := Z_of_char c - Z_of_char "0"%char in
        if fraction_part then
          let num := dadd num (dmul (pow (double_of_int 10)
                                          (double_of_int (- fraction_count)))
                                    (double_of_int d)) in
          (* fraction_count++ on an int *)
          if fraction_count =? INT_MAX then raise Fault
          else consume_char ;; number_loop fuel' num (fraction_count + 1) fraction_part
        else
          let num := dadd (dmul num (double_of_int 10)) (double_of_int d) in
          consume_char ;; number_loop fuel' num fraction_count fraction_part
      else if char_eqb c "."%char && negb fraction_part then
        consume_char ;; number_loop fuel' num fraction_count true
      else ret None
    else ret (Some num)
  end.

Definition decode_json_number (fuel : nat) : M JsonResult :=
  c <- str_peek ;;
  is_negative <- (if char_eqb c "-"%char then consume_char ;; ret true
                  else ret false) ;;
  r <- number_loop fuel (double_of_int 0) 1 false ;;
  match r with
  | None => ret ErrResult
  | Some num =>
    let num := if is_negative : bool then dmul num (double_of_int (-1)) else num in
    _ <- new fuel sizeof_JsonNumber ;;
    ret (OkResult (VNumber num))
  end.

(** The [while] loop of [decode_json_string]: [found_end] and the buffer. *)
Fixpoint string_loop (fuel : nat) (s : JsonString) : M (bool * JsonString) :=
  match fuel with
  | O => raise OutOfFuel
  | S fuel' =>
    n <- str_len ;;
    if Nat.ltb 0 n then
      c <- str_peek ;;
      if char_eqb c DQUOTE then consume_char ;; ret (true, s)
      else
        s <- array_append fuel sizeof_char s c ;;
        consume_char ;;
        string_loop fuel' s
    else ret (false, s)
  end.

Definition decode_json_string (fuel : nat) : M JsonResult :=
  c <- str_peek ;;
  if negb (char_eqb c DQUOTE) then ret ErrResult
  else
    consume_char ;;
    _ <- new fuel sizeof_String ;;
    r <- string_loop fuel array_zero ;;
    let '(found_end, s) := r in
    if negb found_end then ret ErrResult
    else ret (OkResult (VString s)).

(** [decode_json_value] and the two collection decoders call each other; the
    [while] loops of the collection decoders are [array_loop] and
    [object_loop], where [None] is the [return ErrResult] inside the loop. *)
Fixpoint decode_json_value (fuel : nat) : M JsonResult :=
  match fuel with
  | O => raise OutOfFuel
  | S fuel' =>
    trim_left fuel ;;
    (* [if (str->len == 0) ErrResult;] is an expression statement: nothing
       is returned, execution goes on to the [switch] *)
    c <- str_peek ;;
    if char_eqb c "n"%char then decode_json_null
    else if char_eqb c "t"%char then decode_json_true
    else if char_eqb c "f"%char then decode_json_false
    else if existsb (char_eqb c) (text "0123456789-") then decode_json_number fuel
    else if char_eqb c DQUOTE then decode_json_string fuel
    else if char_eqb c "["%char then decode_json_array fuel'
    else if char_eqb c "{"%char then decode_json_object fuel'
    else ret ErrResult
  end

with decode_json_array (fuel : nat) : M JsonResult :=
  match fuel with
  | O => raise OutOfFuel
  | S fuel' =>
    c <- str_peek ;;
    if negb (char_eqb c "["%char) then ret ErrResult
    else
      consume_char ;;
      _ <- new fuel sizeof_JsonArray ;;
      r <- array_loop fuel' array_zero ;;
      match r with
      | None => ret ErrResult
      | Some arr =>
        c <- str_peek ;;
        if negb (char_eqb c "]"%char) then ret ErrResult
        else consume_char ;; ret (OkResult (VArray arr))
      end
  end

with array_loop (fuel : nat) (arr : JsonArray) : M (option JsonArray) :=
  match fuel with
  | O => raise OutOfFuel
  | S fuel' =>
    n <- str_len ;;
    if Nat.ltb 0 n then
      trim_left fuel ;;
      c <- str_peek ;;
      if char_eqb c "]"%char then ret (Some arr)
      else
        res <- decode_json_value fuel' ;;
        match res with
        | ErrResult => ret None
        | OkResult v =>
          arr <- array_append fuel sizeof_JsonValue arr v ;;
          trim_left fuel ;;
          c <- str_peek ;;
          if negb (char_eqb c ","%char) then ret (Some arr)
          else consume_char ;; array_loop fuel' arr
        end
    else ret (Some arr)
  end

with decode_json_object (fuel : nat) : M JsonResult :=
  match fuel with
  | O => raise OutOfFuel
  | S fuel' =>
    c <- str_peek ;;
    if negb (char_eqb c "{"%char) then ret ErrResult
    else
      consume_char ;;
      _ <- new fuel sizeof_JsonObject ;;
      r <- object_loop fuel' array_zero ;;
      match r with
      | None => ret ErrResult
      | Some properties =>
        c <- str_peek ;;
        if negb (char_eqb c "}"%char) then ret ErrResult
        else consume_char ;; ret (OkResult (VObject properties))
      end
  end

with object_loop (fuel : nat) (properties : Array JsonObjectProperty)
  : M (option (Array JsonObjectProperty)) :=
  match fuel with
  | O => raise OutOfFuel
  | S fuel' =>
    n <- str_len ;;
    if Nat.ltb 0 n then
      trim_left fuel ;;
      c <- str_peek ;;
      if char_eqb c "}"%char then ret (Some properties)
      else
        res <- decode_json_string fuel ;;
        match res with
        | OkResult (VString key) =>
          c <- str_peek ;;
          if negb (char_eqb c ":"%char) then ret None
          else
            consume_char ;;
            trim_left fuel ;;
            res <- decode_json_value fuel' ;;
            match res with
            | ErrResult => ret None
            | OkResult v =>
              properties <- array_append fuel sizeof_JsonObjectProperty
                                         properties (key, v) ;;
              trim_left fuel ;;
              c <- str_peek ;;
              if negb (char_eqb c ","%char) then ret (Some properties)
              else consume_char ;; object_loop fuel' properties
            end
        | _ => ret None
        end
    else ret (Some properties)
  end.

(** [decode_json] takes the view by value: it becomes the [str] the decoders
    work on. *)
Definition decode_json (fuel : nat) (sv : StringView) : M JsonResult :=
  (fun st => Done (tt, mkState sv (DEFAULT_ARENA st) (oob_reads st))) ;;
  result <- decode_json_value fuel ;;
  n <- str_len ;;
  if negb (Nat.eqb n 0) then ret ErrResult
  else ret result.

(** [main]: the arena is created, the input decoded, and the result encoded
    to [stdout]; [None] is the [panic] on a decode failure. *)
Definition run (fuel : nat) (input tail : list ascii)
  : Outcome (option (list ascii)) :=
  let st := mkState (mkStringView 0 []) arena_default_new 0 in
  obind (decode_json fuel (sv_from_cstr (input ++ tail) (length input)) st)
    (fun '(result, _) =>
       match result with
       | ErrResult => Done None
       | OkResult v => obind (encode_json v) (fun out => Done (Some out))
       end).

End Program.

(** ** A reference libm and libc

    [ref_pow 10 z] is the correctly rounded power of ten for an integer [z]
    (the only use the program makes of [pow]); [ref_printf_g] is the [%g]
    conversion of the C standard with the default precision 6. *)

(** The integer a double is equal to, if any. *)
Definition int_of_double (x : double) : option Z :=
  match x with
  | S754_zero _ => Some 0
  | S754_finite s m e =>
    let v := if 0 <=? e then Some (Zpos m * 2 ^ e)
             else if (Zpos m) mod 2 ^ (- e) =? 0 then Some (Zpos m / 2 ^ (- e))
             else None in
    option_map (fun z => if s then - z else z) v
  | _ => None
  end.

(** The double nearest to [n / d], for positive [n] and [d]. *)
Definition double_of_ratio (n d : Z) : double :=
  let '(mz, ez, lz) := SFdiv_core_binary 53 1024 n 0 d 0 in
  binary_round_aux 53 1024 false mz ez lz.

Definition ref_pow (x y : double) : double :=
  match int_of_double x, int_of_double y with
  | Some 10, Some z =>
    if 0 <=? z then double_of_ratio (10 ^ z) 1
    else double_of_ratio 1 (10 ^ (- z))
  | _, _ => S754_nan
  end.

(** The decimal exponent of [n / d]: the [X] with [10^X <= n/d < 10^(X+1)]. *)
Fixpoint decimal_exponent (fuel : nat) (n d X : Z) : Z :=
  match fuel with
  | O => X
  | S fuel' =>
    if n <? d then decimal_exponent fuel' (10 * n) d (X - 1)
    else if 10 * d <=? n then decimal_exponent fuel' n (10 * d) (X + 1)
    else X
  end.

(** [n / d] rounded to the nearest integer, ties to even. *)
Definition round_ratio (n d : Z) : Z :=
  let q := n / d in
  let r := n mod d in
  match 2 * r ?= d with
  | Lt => q
  | Gt => q + 1
  | Eq => if Z.even q then q else q + 1
  end.

Definition digit_char (z : Z) : ascii :=
  ascii_of_N (Z.to_N (Z_of_char "0"%char + z)).

(** The [k] lowest decimal digits of [z], most significant first. *)
Fixpoint digits (k : nat) (z : Z) : list ascii :=
  match k with
  | O => []
  | S k' => digits k' (z / 10) ++ [digit_char (z mod 10)]
  end.

Fixpoint strip_zeros_rev (l : list ascii) : list ascii :=
  match l with
  | c :: l' => if char_eqb c "0"%char then strip_zeros_rev l' else l
  | [] => []
  end.

(** Trailing zeros of a fraction removed, and the point with them when
    nothing is left. *)
Definition fraction_text (frac : list ascii) : list ascii :=
  match rev (strip_zeros_rev (rev frac)) with
  | [] => []
  | f => text "." ++ f
  end.

Fixpoint decimal_length (fuel : nat) (z : Z) : nat :=
  match fuel with
  | O => 1%nat
  | S fuel' => if z <? 10 then 1%nat else S (decimal_length fuel' (z / 10))
  end.

Definition exponent_text (X : Z) : list ascii :=
  (if X <? 0 then text "-" else text "+")
    ++ digits (Nat.max 2 (decimal_length 4 (Z.abs X))) (Z.abs X).

(** [%g] of the positive rational [n / d]. *)
Definition print_g_ratio (n d : Z) : list ascii :=
  let X0 := decimal_exponent 700 n d 0 in
  let D0 := if X0 <=? 5 then round_ratio (n * 10 ^ (5 - X0)) d
            else round_ratio n (d * 10 ^ (X0 - 5)) in
  let '(D, X) := if D0 =? 1000000 then (100000, X0 + 1) else (D0, X0) in
  let ds := digits 6 D in
  if (X <? -4) || (6 <=? X) then
    firstn 1 ds ++ fraction_text (skipn 1 ds) ++ text "e" ++ exponent_text X
  else if X <? 0 then
    text "0" ++ fraction_text (repeat "0"%char (Z.to_nat (- X - 1)) ++ ds)
  else
    firstn (Z.to_nat (X + 1)) ds ++ fraction_text (skipn (Z.to_nat (X + 1)) ds).

Definition ref_printf_g (x : double) : list ascii :=
  match x with
  | S754_nan => text "nan"
  | S754_infinity s => (if s then text "-" else []) ++ text "inf"
  | S754_zero s => (if s then text "-" else []) ++ text "0"
  | S754_finite s m e =>
    (if s then text "-" else [])
      ++ (if 0 <=? e then print_g_ratio (Zpos m * 2 ^ e) 1
          else print_g_ratio (Zpos m) (2 ^ (- e)))
  end.

#[export] Instance ref_libc : Libc := {| pow := ref_pow; printf_g := ref_printf_g |}.


(** * Definitions used by the statements *)

(** ** Arena invariants *)

Definition block_ok (c : Z) (b : Arena) : Prop :=
  arena_cap b = c /\ 0 <= arena_used b <= c /\ arena_used b mod 8 = 0
  /\ Z.of_nat (length (arena_pool b)) = c.

(** Every block of the chain has capacity [c], and its bookkeeping is
    consistent. *)
Definition arena_wf (c : Z) (a : Arena) : Prop :=
  (0 <= c < 2 ^ 63 /\ c mod 8 = 0) /\ Forall (block_ok c) (arena_blocks a).

(** What a returned allocation of [s] bytes (a multiple of 8) looks like. *)
Definition alloc_post (c : Z) (a : Arena) (s : Z) (p : ArenaPtr) (a' : Arena) : Prop :=
  arena_wf c a'
  /\ (0 <= snd p /\ snd p mod 8 = 0 /\ snd p + s < c)
  /\ arena_region a' p s = Some (repeat (ByteVal 0) (Z.to_nat s))
  /\ (arena_used a + s < c ->
      p = (O, arena_used a) /\ length (arena_blocks a') = length (arena_blocks a))
  /\ (length (arena_blocks a) <= length (arena_blocks a')
      <= S (length (arena_blocks a)))%nat
  /\ (fst p < length (arena_blocks a'))%nat.



(** ** Runs of the decoder *)

(** The state in which [main] calls [decode_json]: a fresh default arena. *)
Definition init_state : State :=
  mkState (mkStringView 0 []) arena_default_new 0.

(** The view [main] builds: [input] followed in memory by [tail]. *)
Definition view_of (input tail : list ascii) : StringView :=
  sv_from_cstr (input ++ tail) (length input).

Definition returns {A : Type} (o : Outcome (A * State)) (a : A) : Prop :=
  exists st : State, o = Done (a, st).

(** ** Number literals, as the accumulation rule describes them *)

Definition digit_value (c : ascii) : Z := Z_of_char c - Z_of_char "0"%char.

(** The characters at which a number ends: [','], [']'], ['}'] and white
    space. *)
Definition is_number_end (c : ascii) : bool :=
  char_eqb c ","%char || char_eqb c "]"%char || char_eqb c "}"%char
  || is_whitespace c.

Section NumberSpec.

Context {libc : Libc}.

(** [value = value*10 + digit], over the digits of the integer part. *)
Definition spec_integer_part (ds : list ascii) : double :=
  fold_left (fun value c =>
               dadd (dmul value (double_of_int 10)) (double_of_int (digit_value c)))
            ds (double_of_int 0).

(** The digit at position [k] of the fraction adds [digit * 10^-k]. *)
Fixpoint spec_fraction_part (value : double) (k : Z) (ds : list ascii) : double :=
  match ds with
  | [] => value
  | c :: ds' =>
    spec_fraction_part
      (dadd value (dmul (pow (double_of_int 10) (double_of_int (- k)))
                        (double_of_int (digit_value c))))
      (k + 1) ds'
  end.

(** A leading ['-'] negates the final result. *)
Definition spec_number (negative : bool) (int_digits frac_digits : list ascii)
  : double :=
  let value := spec_fraction_part (spec_integer_part int_digits) 1 frac_digits in
  if negative then dmul value (double_of_int (-1)) else value.

End NumberSpec.

(** The text of a literal: sign, integer digits, and the fraction if there
    is a point. *)
Definition number_text (negative : bool) (int_digits : list ascii)
    (fraction : option (list ascii)) : list ascii :=
  (if negative then text "-" else [])
    ++ int_digits
    ++ match fraction with
       | None => []
       | Some frac_digits => text "." ++ frac_digits
       end.

Definition fraction_digits (fraction : option (list ascii)) : list ascii :=
  match fraction with
  | None => []
  | Some frac_digits => frac_digits
  end.

(** The double nearest to [n / d], with its sign. *)
Definition nearest_double (negative : bool) (n d : Z) : double :=
  if negative then SFopp (double_of_ratio n d) else double_of_ratio n d.

(** What [decode_json_number] does once its loop has returned. *)
Definition number_result (fuel : nat) (is_negative : bool)
    (r : Outcome (option double * State)) : Outcome (JsonResult * State) :=
  obind r (fun '(r, st) =>
    match r with
    | None => Done (ErrResult, st)
    | Some num =>
      obind (new fuel sizeof_JsonNumber st) (fun '(_, st') =>
        Done (OkResult (VNumber (if is_negative
                                 then dmul num (double_of_int (-1))
                                 else num)), st'))
    end).


(** ** Encoder templates *)

(** The texts [ts] joined by [sep], nothing around them. *)
Fixpoint join (sep : list ascii) (ts : list (list ascii)) : list ascii :=
  match ts with
  | [] => []
  | t :: ts' =>
    match ts' with
    | [] => t
    | _ :: _ => t ++ sep ++ join sep ts'
    end
  end.

(** The element printers of [encode_json], given the encoder of values. *)
Definition array_element (encode : JsonValue -> Outcome (list ascii))
    (s : slot JsonValue) : Outcome (list ascii) :=
  match s with
  | Zero => Done (text "null")
  | Full x => encode x
  | Part _ _ => Torn
  end.

Definition object_element (encode : JsonValue -> Outcome (list ascii))
    (s : slot JsonObjectProperty) : Outcome (list ascii) :=
  match s with
  | Zero => Fault
  | Full (key, v) =>
    obind (print_string key) (fun k =>
    obind (encode v) (fun e =>
    Done (k ++ text " : " ++ e)))
  | Part _ _ => Torn
  end.

(** ** Buffers without the arena

    [array_append] asks the arena for a region when the buffer is full
    ([growth_request]); what it then does to the buffer does not depend on
    the arena ([array_grow], then the store: [array_push]). *)

Definition grown_cap (c : Z) : Z :=
  if c =? 0 then ARRAY_INIT_CAP else size_t (c * 2).

Definition growth_request {T : Type} (esz : Z) (arr : Array T) : option Z :=
  if cap arr <? size_t (len arr + 1)
  then Some (size_t (grown_cap (cap arr) * esz))
  else None.

Definition array_grow {T : Type} (esz : Z) (arr : Array T) : Array T :=
  if cap arr <? size_t (len arr + 1) then
    let dst := fresh_region esz (size_t (grown_cap (cap arr) * esz)) in
    let dst := if 0 <? len arr
               then memmove esz dst (ptr arr) (len arr)
               else dst in
    mkArray (len arr) (grown_cap (cap arr)) dst
  else arr.

Definition array_push {T : Type} (esz : Z) (arr : Array T) (item : T)
  : option (Array T) :=
  let g := array_grow esz arr in
  match store_slot (ptr g) (Z.to_nat (len g)) item with
  | None => None
  | Some p => Some (mkArray (size_t (len g + 1)) (cap g) p)
  end.

(** The string buffer holds exactly the characters [cs], each in a whole
    slot, and zeros up to its capacity. *)
Definition holds_chars (s : JsonString) (cs : list ascii) : Prop :=
  len s = Z.of_nat (length cs)
  /\ len s <= cap s
  /\ ptr s = map Full cs ++ repeat Zero (Z.to_nat (cap s) - length cs).

(** The capacity of the buffer is 0 or one that an arena of capacity [c]
    can serve. *)
Definition buf_inv (c : Z) (s : JsonString) : Prop :=
  cap s = 0 \/ 10 <= cap s < c.

(** The buffer after the characters [cs] are appended one by one. *)
Fixpoint pushes (s : JsonString) (cs : list ascii) : JsonString :=
  match cs with
  | [] => s
  | ch :: cs' =>
    match array_push sizeof_char s ch with
    | None => s
    | Some s' => pushes s' cs'
    end
  end.

(** Every growth met while [cs] is appended to [s] asks for less than the
    capacity [c] of the arena blocks. *)
Fixpoint growths_ok (c : Z) (s : JsonString) (cs : list ascii) : Prop :=
  match cs with
  | [] => True
  | ch :: cs' =>
    match array_push sizeof_char s ch with
    | None => False
    | Some s' =>
      match growth_request sizeof_char s with
      | None => True
      | Some size => 0 <= size < 2 ^ 62 /\ align size 8 < c
      end
      /\ growths_ok c s' cs'
    end
  end.

(** The characters a string holds, as the encoder reads them. *)
Definition string_slots (s : JsonString) : list (slot ascii) :=
  firstn (Z.to_nat (len s)) (ptr s).

(** ** The dispatch of [decode_json_value]

    The [switch] on the lookahead character, for [decode_json_value (S fuel)]. *)

Section Dispatch.

Context {libc : Libc}.

Definition value_switch (fuel : nat) (c : ascii) : M JsonResult :=
  if char_eqb c "n"%char then decode_json_null
  else if char_eqb c "t"%char then decode_json_true
  else if char_eqb c "f"%char then decode_json_false
  else if existsb (char_eqb c) (text "0123456789-") then decode_json_number (S fuel)
  else if char_eqb c DQUOTE then decode_json_string (S fuel)
  else if char_eqb c "["%char then decode_json_array fuel
  else if char_eqb c "{"%char then decode_json_object fuel
  else ret ErrResult.

End Dispatch.

(** The type a value starting with the character [c] can have. *)
Definition type_of_lookahead (c : ascii) : option JsonType :=
  if char_eqb c "n"%char then Some JSON_NULL
  else if char_eqb c "t"%char then Some JSON_TRUE
  else if char_eqb c "f"%char then Some JSON_FALSE
  else if existsb (char_eqb c) (text "0123456789-") then Some JSON_NUMBER
  else if char_eqb c DQUOTE then Some JSON_STRING
  else if char_eqb c "["%char then Some JSON_ARRAY
  else if char_eqb c "{"%char then Some JSON_OBJECT
  else None.


Section RoundTrip.

Context {libc : Libc}.


End RoundTrip.

(** ** The rest of an object entry, once its value has been decoded *)

Section ObjectEntryRest.

Context {libc : Libc}.

Definition object_entry_finish (fuel : nat) (properties : Array JsonObjectProperty)
    (key : JsonString) (res : JsonResult) : M (option (Array JsonObjectProperty)) :=
  match res with
  | ErrResult => ret None
  | OkResult v =>
    properties <- array_append (S fuel) sizeof_JsonObjectProperty
                               properties (key, v) ;;
    trim_left (S fuel) ;;
    c <- str_peek ;;
    if negb (char_eqb c ","%char) then ret (Some properties)
    else consume_char ;; object_loop fuel properties
  end.

End ObjectEntryRest.

(** ** Literals *)

(** The longest common prefix of a literal and the text, as [consume_literal]
    walks it. *)
Fixpoint common_prefix (literal p : list ascii) : list ascii :=
  match literal, p with
  | l :: literal', c :: p' =>
    if char_eqb c l then c :: common_prefix literal' p' else []
  | _, _ => []
  end.

(** The text of the keyword a literal value is written with. *)
Definition keyword_of (v : JsonValue) : option (list ascii) :=
  match v with
  | VNull => Some (text "null")
  | VTrue => Some (text "true")
  | VFalse => Some (text "false")
  | _ => None
  end.

(** ** String capacities

    The capacities a string buffer goes through below 1024 bytes. *)
Definition cap_listed (s : JsonString) : Prop :=
  In (cap s) [0; 10; 20; 40; 80; 160; 320; 640].

(** Where the loop of [decode_json_string] stops on the text [p] of a view of
    length [n], having appended [cs]: after the closing quote when it found
    one, at the end of the view otherwise. *)
Definition string_loop_stop (found_end : bool) (n : nat) (p cs rest : list ascii)
    (n' : nat) : Prop :=
  if found_end
  then p = cs ++ DQUOTE :: rest /\ (length cs < n)%nat
       /\ n' = (n - length cs - 1)%nat
  else p = cs ++ rest /\ length cs = n /\ n' = 0%nat.

(** * Properties of the arena *)

Lemma arena_blocks_eq (a : Arena) :
  arena_blocks a = a :: match arena_next a with
                        | None => []
                        | Some n => arena_blocks n
                        end.
Proof. destruct a; reflexivity. Qed.

Lemma size_t_small (z : Z) : 0 <= z < 2 ^ 64 -> size_t z = z.
Proof. intros H. unfold size_t, SIZE_MOD. apply Z.mod_small. exact H. Qed.

Lemma align_multiple (z : Z) : z mod 8 = 0 -> align z 8 = z.
Proof. intros H. unfold align. rewrite H. reflexivity. Qed.

Lemma align_bounds (z : Z) :
  0 <= z < 2 ^ 63 ->
  z <= align z 8 < z + 8 /\ align z 8 mod 8 = 0.
Proof.
  intros H. unfold align.
  destruct (z mod 8 =? 0) eqn:E.
  - apply Z.eqb_eq in E. split; [lia | exact E].
  - apply Z.eqb_neq in E.
    pose proof (Z.mod_pos_bound z 8 ltac:(lia)) as Hb.
    pose proof (Z.div_mod z 8 ltac:(lia)) as Hd.
    assert (H63 : 2 ^ 63 < 2 ^ 64) by (vm_compute; reflexivity).
    rewrite (size_t_small (z - z mod 8)) by lia.
    rewrite size_t_small by lia.
    split; [lia|].
    replace (z - z mod 8 + 8) with ((z / 8 + 1) * 8) by lia.
    apply Z.mod_mul. lia.
Qed.

Lemma align_idempotent (z : Z) :
  0 <= z < 2 ^ 63 -> align (align z 8) 8 = align z 8.
Proof. intros H. apply align_multiple. apply align_bounds. exact H. Qed.

Lemma arena_new_wf (c : Z) :
  0 <= c < 2 ^ 63 -> c mod 8 = 0 -> arena_wf c (arena_new c).
Proof.
  intros Hc Hm. split; [split; assumption|].
  unfold arena_new. rewrite (align_multiple c Hm). simpl.
  constructor; [|constructor].
  unfold block_ok; simpl. rewrite repeat_length.
  repeat split; lia.
Qed.

Lemma arena_default_new_wf : arena_wf ARENA_DEFAULT_CAP arena_default_new.
Proof.
  apply arena_new_wf; [|reflexivity].
  unfold ARENA_DEFAULT_CAP. split; [lia | reflexivity].
Qed.

Lemma memset0_length (pool : list poolbyte) (off size : Z) :
  0 <= off -> 0 <= size -> off + size <= Z.of_nat (length pool) ->
  length (memset0 pool off size) = length pool.
Proof.
  intros Ho Hs Hl. unfold memset0.
  rewrite !length_app, repeat_length, length_firstn, length_skipn. lia.
Qed.

Lemma memset0_region (pool : list poolbyte) (off size : Z) :
  0 <= off -> 0 <= size -> off + size <= Z.of_nat (length pool) ->
  firstn (Z.to_nat size) (skipn (Z.to_nat off) (memset0 pool off size))
  = repeat (ByteVal 0) (Z.to_nat size).
Proof.
  intros Ho Hs Hl. unfold memset0.
  assert (Hf : length (firstn (Z.to_nat off) pool) = Z.to_nat off)
    by (rewrite length_firstn; lia).
  rewrite skipn_app, Hf, Nat.sub_diag. simpl skipn at 2.
  rewrite (skipn_all2 (firstn (Z.to_nat off) pool)) by lia. simpl.
  rewrite firstn_app, repeat_length, Nat.sub_diag. simpl firstn at 2.
  rewrite app_nil_r. apply firstn_all2. rewrite repeat_length. lia.
Qed.

Lemma arena_wf_next (c : Z) (a : Arena) :
  arena_wf c a ->
  arena_wf c (match arena_next a with
              | None => arena_new c
              | Some n => n
              end).
Proof.
  intros [Hc Hf]. destruct (arena_next a) as [n|] eqn:En.
  - split; [exact Hc|]. rewrite arena_blocks_eq, En in Hf.
    inversion Hf; assumption.
  - apply arena_new_wf; apply Hc.
Qed.

Lemma arena_wf_head (c : Z) (a : Arena) : arena_wf c a -> block_ok c a.
Proof.
  intros [_ Hf]. rewrite arena_blocks_eq in Hf. inversion Hf; assumption.
Qed.

(** The fit test of [arena_alloc], without the wrap-around. *)
Lemma fit_test (c : Z) (a : Arena) (s : Z) :
  arena_wf c a -> 0 <= s < 2 ^ 63 ->
  (size_t (arena_used a + s) <? arena_cap a) = (arena_used a + s <? c).
Proof.
  intros Hwf Hs. destruct (arena_wf_head _ _ Hwf) as (Hcap & Hu & _).
  destruct Hwf as [[Hc _] _].
  assert (H64 : 2 ^ 63 + 2 ^ 63 = 2 ^ 64) by (vm_compute; reflexivity).
  rewrite size_t_small by lia. rewrite Hcap. reflexivity.
Qed.

Lemma arena_alloc_aligned_ok (c s : Z) :
  0 <= s < c -> s mod 8 = 0 ->
  forall (fuel : nat) (a : Arena),
    arena_wf c a ->
    (arena_used a + s < c /\ (1 <= fuel)%nat)
    \/ (length (arena_blocks a) < fuel)%nat ->
    exists p a', arena_alloc fuel a s = Done (p, a') /\ alloc_post c a s p a'.
Proof.
  intros Hs Hm fuel. induction fuel as [|fuel IH]; intros a Hwf Hfuel.
  - exfalso. destruct Hfuel as [[_ H]|H]; lia.
  - pose proof (arena_wf_head _ _ Hwf) as (Hcap & Hu & Hum & Hlen).
    assert (Hc : 0 <= c < 2 ^ 63 /\ c mod 8 = 0) by apply Hwf.
    simpl arena_alloc. rewrite (align_multiple s Hm).
    rewrite (fit_test c) by (assumption || lia).
    destruct (arena_used a + s <? c) eqn:Efit.
    + apply Z.ltb_lt in Efit.
      assert (Hin : (arena_used a + s <=? Z.of_nat (length (arena_pool a))) = true)
        by (apply Z.leb_le; lia).
      rewrite Hin.
      assert (H64 : 2 ^ 63 < 2 ^ 64) by (vm_compute; reflexivity).
      rewrite size_t_small by lia.
      eexists; eexists; split; [reflexivity|].
      assert (Hum' : (arena_used a + s) mod 8 = 0).
      { rewrite Z.add_mod, Hum, Hm by lia. reflexivity. }
      assert (Hl' : length (memset0 (arena_pool a) (arena_used a) s)
                    = length (arena_pool a))
        by (apply memset0_length; lia).
      unfold alloc_post. rewrite (arena_blocks_eq (mkArena _ _ _ _)).
      rewrite (arena_blocks_eq a). simpl.
      repeat split; try lia.
      * destruct Hwf as [_ Hf]. rewrite arena_blocks_eq in Hf.
        inversion Hf as [|? ? _ Hrest]; subst.
        constructor; [|exact Hrest].
        unfold block_ok; simpl. rewrite Hl'. repeat split; lia.
      * unfold arena_region. rewrite (arena_blocks_eq (mkArena _ _ _ _)). simpl.
        rewrite Hl'.
        assert (Hb : ((0 <=? arena_used a)
                      && (arena_used a + s <=? Z.of_nat (length (arena_pool a))))
                     = true)
          by (apply andb_true_intro; split; apply Z.leb_le; lia).
        rewrite Hb. f_equal. apply memset0_region; lia.
    + apply Z.ltb_ge in Efit.
      pose proof (arena_wf_next _ _ Hwf) as Hwn.
      set (nxt := match arena_next a with
                  | None => arena_new (arena_cap a)
                  | Some n => n
                  end).
      assert (Hnx : nxt = match arena_next a with
                          | None => arena_new c
                          | Some n => n
                          end) by (subst nxt; rewrite Hcap; reflexivity).
      rewrite <- Hnx in Hwn.
      assert (Hfuel' : (arena_used nxt + s < c /\ (1 <= fuel)%nat)
                       \/ (length (arena_blocks nxt) < fuel)%nat).
      { destruct Hfuel as [[Hfit _]|Hlt]; [lia|].
        rewrite arena_blocks_eq in Hlt. rewrite Hnx.
        destruct (arena_next a) as [n|].
        - right. simpl in Hlt. lia.
        - left. simpl in Hlt. unfold arena_new.
          rewrite (align_multiple c) by apply Hc. simpl. lia. }
      destruct (IH nxt Hwn Hfuel') as ([blk off] & nxt' & Hrun & Hpost).
      rewrite Hrun. simpl.
      eexists; eexists; split; [reflexivity|].
      destruct Hpost as (Hwf' & Hoff & Hreg & Hhead & Hlens & Hblk).
      assert (Hl : length (arena_blocks a)
                   = S match arena_next a with
                       | None => 0%nat
                       | Some n => length (arena_blocks n)
                       end).
      { rewrite (arena_blocks_eq a). destruct (arena_next a); reflexivity. }
      assert (Hl' : (length (arena_blocks nxt')
                     <= S match arena_next a with
                          | None => 0%nat
                          | Some n => length (arena_blocks n)
                          end)%nat
                    /\ (match arena_next a with
                        | None => 0%nat
                        | Some n => length (arena_blocks n)
                        end <= length (arena_blocks nxt'))%nat).
      { destruct (arena_next a) as [n|].
        - subst nxt. lia.
        - assert (Hn0 : arena_used nxt + s < c).
          { rewrite Hnx. unfold arena_new.
            rewrite (align_multiple c) by apply Hc. simpl. lia. }
          destruct (Hhead Hn0) as [_ Hsame]. rewrite Hsame, Hnx. simpl. lia. }
      unfold alloc_post. rewrite (arena_blocks_eq (mkArena _ _ _ _)).
      cbn [arena_next arena_used fst snd length].
      split; [|split; [|split; [|split; [|split]]]].
      * split; [exact Hc|].
        rewrite (arena_blocks_eq (mkArena _ _ _ _)). cbn [arena_next].
        constructor; [|apply Hwf'].
        unfold block_ok; simpl. repeat split; lia.
      * exact Hoff.
      * unfold arena_region in *.
        rewrite (arena_blocks_eq (mkArena _ _ _ _)). exact Hreg.
      * intros Hfit. lia.
      * lia.
      * cbn [fst] in Hblk. lia.
Qed.


Lemma arena_alloc_realigns (fuel : nat) (a : Arena) (size : Z) :
  0 <= size < 2 ^ 63 ->
  arena_alloc fuel a size = arena_alloc fuel a (align size 8).
Proof.
  intros Hs. destruct fuel as [|fuel]; [reflexivity|].
  simpl. rewrite (align_idempotent size Hs). reflexivity.
Qed.

(** More fuel does not change a result. *)
Lemma arena_alloc_mono (fuel : nat) :
  forall (a : Arena) (size : Z) (r : ArenaPtr * Arena) (fuel' : nat),
    arena_alloc fuel a size = Done r -> (fuel <= fuel')%nat ->
    arena_alloc fuel' a size = Done r.
Proof.
  induction fuel as [|fuel IH]; intros a size r fuel' Hrun Hle; [discriminate|].
  destruct fuel' as [|fuel']; [lia|].
  simpl in *.
  destruct (size_t (arena_used a + align size 8) <? arena_cap a); [exact Hrun|].
  match type of Hrun with
  | obind (arena_alloc fuel ?n ?s) _ = _ =>
    destruct (arena_alloc fuel n s) as [r0| | | |] eqn:E; try discriminate;
    rewrite (IH n s r0 fuel' E) by lia
  end.
  exact Hrun.
Qed.

(** A request that returned was smaller than the capacity of the blocks. *)
Lemma arena_alloc_done_fits (c s : Z) :
  0 <= s < 2 ^ 63 -> s mod 8 = 0 ->
  forall (fuel : nat) (a : Arena) (r : ArenaPtr * Arena),
    arena_wf c a -> arena_alloc fuel a s = Done r -> s < c.
Proof.
  intros Hs Hm fuel. induction fuel as [|fuel IH]; intros a r Hwf Hrun;
    [discriminate|].
  simpl in Hrun. rewrite (align_multiple s Hm) in Hrun.
  rewrite (fit_test c) in Hrun by assumption.
  pose proof (arena_wf_head _ _ Hwf) as (Hcap & Hu & _).
  destruct (arena_used a + s <? c) eqn:Efit.
  - apply Z.ltb_lt in Efit. lia.
  - rewrite Hcap in Hrun.
    destruct (arena_alloc fuel _ s) as [r0| | | |] eqn:E; try discriminate.
    exact (IH _ r0 (arena_wf_next _ _ Hwf) E).
Qed.

(** A request of at least the capacity of the blocks never returns. *)
Lemma arena_alloc_too_large (c s : Z) :
  c <= s < 2 ^ 63 -> s mod 8 = 0 ->
  forall (fuel : nat) (a : Arena),
    arena_wf c a -> arena_alloc fuel a s = OutOfFuel.
Proof.
  intros Hs Hm fuel. induction fuel as [|fuel IH]; intros a Hwf; [reflexivity|].
  simpl. rewrite (align_multiple s Hm).
  pose proof (arena_wf_head _ _ Hwf) as (Hcap & Hu & _).
  assert (Hc : 0 <= c < 2 ^ 63) by apply Hwf.
  rewrite (fit_test c) by (assumption || lia).
  assert (Efit : (arena_used a + s <? c) = false) by (apply Z.ltb_ge; lia).
  rewrite Efit, Hcap, (IH _ (arena_wf_next _ _ Hwf)). reflexivity.
Qed.

(** A request that fits a block: how [arena_alloc] serves it. *)
Lemma arena_alloc_returns (c : Z) (a : Arena) (size : Z) :
  arena_wf c a -> 0 <= size < 2 ^ 63 -> align size 8 < c ->
  exists (p : ArenaPtr) (a' : Arena),
    arena_alloc (S (length (arena_blocks a))) a size = Done (p, a')
    /\ size <= align size 8
    /\ arena_region a' p (align size 8)
       = Some (repeat (ByteVal 0) (Z.to_nat (align size 8)))
    /\ (0 <= snd p /\ snd p mod 8 = 0 /\ snd p + align size 8 < c)
    /\ (arena_used a + align size 8 < c -> p = (O, arena_used a))
    /\ arena_wf c a'
    /\ (length (arena_blocks a) <= length (arena_blocks a')
        <= S (length (arena_blocks a)))%nat
    /\ (fst p < length (arena_blocks a'))%nat.
Proof.
  intros Hwf Hs Hfit.
  destruct (align_bounds size Hs) as [Hb Hm].
  rewrite (arena_alloc_realigns _ a size Hs).
  destruct (arena_alloc_aligned_ok c (align size 8) ltac:(lia) Hm
              (S (length (arena_blocks a))) a Hwf ltac:(right; lia))
    as (p & a' & Hrun & Hpost).
  destruct Hpost as (Hwf' & Hoff & Hreg & Hhead & Hlens & Hblk).
  exists p, a'.
  split; [exact Hrun|]. split; [lia|]. split; [exact Hreg|].
  split; [exact Hoff|]. split; [intros H; apply Hhead; exact H|].
  split; [exact Hwf'|]. split; [exact Hlens | exact Hblk].
Qed.

(** ** The allocation contract *)




(** C8.  A request larger than the capacity of the blocks never returns:
    whatever the number of steps, [arena_alloc] is still appending blocks of
    the original capacity. *)
Theorem arena_alloc_oversize_diverges :
  forall fuel : nat, arena_alloc fuel arena_default_new 2000 = OutOfFuel.
Proof.
  intros fuel.
  apply (arena_alloc_too_large ARENA_DEFAULT_CAP 2000).
  - unfold ARENA_DEFAULT_CAP. split; [lia | reflexivity].
  - reflexivity.
  - exact arena_default_new_wf.
Qed.

(** The same happens for a request of exactly the capacity: the fit test is
    strict. *)
Lemma arena_alloc_exact_capacity_diverges :
  forall fuel : nat,
    arena_alloc fuel arena_default_new ARENA_DEFAULT_CAP = OutOfFuel.
Proof.
  intros fuel.
  apply (arena_alloc_too_large ARENA_DEFAULT_CAP ARENA_DEFAULT_CAP).
  - unfold ARENA_DEFAULT_CAP. split; [lia | reflexivity].
  - reflexivity.
  - exact arena_default_new_wf.
Qed.

(** * The decoder on particular inputs *)

Section Decoder.

Context {libc : Libc}.

Lemma returns_intro {A : Type} (o : Outcome (A * State)) (a : A) (st : State) :
  o = Done (a, st) -> returns o a.
Proof. intros H. exists st. exact H. Qed.

(** C10.  The input ["-"] decodes to the number negative zero, whatever
    follows the view in memory: no digit is required after the sign, the
    accumulator stays [0] and is then multiplied by [-1]. *)
Theorem decode_lone_minus (tail : list ascii) :
  returns (decode_json 3 (view_of (text "-") tail) init_state)
          (OkResult (VNumber (S754_zero true)))
  /\ returns (decode_json_value 3
                (mkState (view_of (text "-") tail) arena_default_new 0))
             (OkResult (VNumber (S754_zero true))).
Proof.
  split; eapply returns_intro; vm_compute; reflexivity.
Qed.

(** C4.  On an empty view the lookahead is not stopped by the length test:
    [decode_json_value] goes on to read [*str->ptr], the byte after the view.
    When that byte is a digit the decoder returns a number instead of a
    failure, having read outside the view twice; when it is the NUL that
    ends a C string the result is a failure, but the byte was read all the
    same.  A view of white space only behaves alike once it is trimmed. *)
Theorem decode_empty_reads_outside_view :
  (exists st : State,
     decode_json_value 3 (mkState (view_of [] (text "7")) arena_default_new 0)
     = Done (OkResult (VNumber (S754_zero false)), st)
     /\ oob_reads st = 2%nat)
  /\ (exists st : State,
       decode_json 3 (view_of [] (text "7")) init_state
       = Done (OkResult (VNumber (S754_zero false)), st))
  /\ (exists st : State,
       decode_json_value 3 (mkState (view_of [] [NUL]) arena_default_new 0)
       = Done (ErrResult, st)
       /\ oob_reads st = 1%nat)
  /\ (exists st : State,
       decode_json_value 3 (mkState (view_of (text "  ") (text "7"))
                                    arena_default_new 0)
       = Done (OkResult (VNumber (S754_zero false)), st)
       /\ oob_reads st = 2%nat).
Proof.
  repeat split; eexists; split; vm_compute; reflexivity.
Qed.

(** C3.  Eleven numbers are appended to an array buffer of 16-byte elements;
    the eleventh append grows the buffer from 10 to 20 elements and moves
    [len = 10] bytes, not 10 elements.  Afterwards the first element is cut
    after 10 bytes and the nine that followed it are all zeros; only the
    element just appended is whole.  The encoder can no longer print the
    array. *)
Theorem array_growth_moves_too_few_bytes (tail : list ascii) :
  exists (a : JsonArray) (st : State),
    decode_json 30 (view_of (text "[1,2,3,4,5,6,7,8,9,10,11]") tail) init_state
    = Done (OkResult (VArray a), st)
    /\ len a = 11 /\ cap a = 20
    /\ firstn 11 (ptr a)
       = Part (VNumber (double_of_int 1)) 10
         :: repeat Zero 9 ++ [Full (VNumber (double_of_int 11))]
    /\ nth_error (ptr a) 1 <> Some (Full (VNumber (double_of_int 2)))
    /\ encode_json (VArray a) = Torn.
Proof.
  eexists. eexists.
  split; [vm_compute; reflexivity|].
  split; [reflexivity|]. split; [reflexivity|].
  split; [vm_compute; reflexivity|].
  split; [vm_compute; discriminate | vm_compute; reflexivity].
Qed.

(** [decode_json] in one step: the value decoder runs on the view, then the
    length left over is tested. *)
Lemma decode_json_unfold (fuel : nat) (sv : StringView) (st : State) :
  decode_json fuel sv st
  = obind (decode_json_value fuel (mkState sv (DEFAULT_ARENA st) (oob_reads st)))
      (fun '(result, st') =>
         if negb (Nat.eqb (sv_len (str st')) 0) then Done (ErrResult, st')
         else Done (result, st')).
Proof.
  unfold decode_json, bind, ret, str_len. simpl.
  destruct (decode_json_value fuel _) as [[r st']| | | |]; try reflexivity.
  simpl. destruct (Nat.eqb (sv_len (str st')) 0); reflexivity.
Qed.

(** C1.  [decode_json] returns a value only when [decode_json_value] returned
    it and left a view of length 0; whenever the value decoder leaves one
    byte or more, whatever that byte is, [decode_json] returns the failure
    result.  In particular ["{} "] is rejected. *)
Theorem decode_json_needs_empty_rest :
  (forall (fuel : nat) (sv : StringView) (st : State) (v : JsonValue) (st' : State),
      decode_json fuel sv st = Done (OkResult v, st') ->
      decode_json_value fuel (mkState sv (DEFAULT_ARENA st) (oob_reads st))
      = Done (OkResult v, st')
      /\ sv_len (str st') = 0%nat)
  /\ (forall (fuel : nat) (sv : StringView) (st : State) (r : JsonResult)
             (st' : State),
        decode_json_value fuel (mkState sv (DEFAULT_ARENA st) (oob_reads st))
        = Done (r, st') ->
        sv_len (str st') <> 0%nat ->
        decode_json fuel sv st = Done (ErrResult, st'))
  /\ (forall tail : list ascii,
        returns (decode_json 4 (view_of (text "{} ") tail) init_state) ErrResult).
Proof.
  split; [|split].
  - intros fuel sv st v st' H. rewrite decode_json_unfold in H.
    destruct (decode_json_value fuel _) as [[r st1]| | | |]; try discriminate.
    simpl in H. destruct (Nat.eqb (sv_len (str st1)) 0) eqn:E; simpl in H.
    + inversion H; subst. split; [reflexivity|]. apply Nat.eqb_eq. exact E.
    + discriminate.
  - intros fuel sv st r st' H Hn. rewrite decode_json_unfold, H. simpl.
    apply Nat.eqb_neq in Hn. rewrite Hn. reflexivity.
  - intros tail. eapply returns_intro. vm_compute. reflexivity.
Qed.

End Decoder.

Lemma decode_json_needs_empty_rest_witness :
  (exists st' : State,
      decode_json 3 (view_of (text "null") []) init_state
      = Done (OkResult VNull, st')
      /\ decode_json_value 3 (mkState (view_of (text "null") [])
                                      (DEFAULT_ARENA init_state)
                                      (oob_reads init_state))
         = Done (OkResult VNull, st')
      /\ sv_len (str st') = 0%nat)
  /\ (exists (r : JsonResult) (st' : State),
        decode_json_value 4 (mkState (view_of (text "{} ") [])
                                     (DEFAULT_ARENA init_state)
                                     (oob_reads init_state))
        = Done (r, st')
        /\ sv_len (str st') <> 0%nat
        /\ decode_json 4 (view_of (text "{} ") []) init_state
           = Done (ErrResult, st')).
Proof.
  destruct (@decode_json_needs_empty_rest ref_libc) as (Hok & Herr & _).
  split.
  - eexists. split; [vm_compute; reflexivity|].
    apply (Hok 3%nat (view_of (text "null") []) init_state VNull).
    vm_compute. reflexivity.
  - eexists. eexists.
    assert (Hrun : decode_json_value 4 (mkState (view_of (text "{} ") [])
                                     (DEFAULT_ARENA init_state)
                                     (oob_reads init_state))
                   = Done (OkResult (VObject array_zero),
                           mkState (mkStringView 1 (text " "))
                                   (snd (match arena_alloc 4 arena_default_new
                                                 sizeof_JsonObject with
                                         | Done r => r
                                         | _ => ((O, 0), arena_default_new)
                                         end)) 0))
      by (vm_compute; reflexivity).
    split; [exact Hrun|].
    split; [simpl; discriminate|].
    apply (Herr 4%nat (view_of (text "{} ") []) init_state _ _ Hrun).
    simpl. discriminate.
Defined.

(** * The number decoder *)

Lemma bind_Done {A B : Type} (m : M A) (k : A -> M B) (st st' : State) (a : A) :
  m st = Done (a, st') -> bind m k st = k a st'.
Proof. intros H. unfold bind. rewrite H. reflexivity. Qed.

Lemma digit_not_special (c : ascii) :
  is_digit c = true ->
  is_number_end c = false /\ char_eqb c "."%char = false
  /\ char_eqb c "-"%char = false /\ is_whitespace c = false
  /\ char_eqb c DQUOTE = false.
Proof.
  destruct c as [[] [] [] [] [] [] [] []]; vm_compute; intros H;
    try discriminate H; repeat split.
Qed.

Lemma number_end_not_digit (c : ascii) :
  is_number_end c = true -> is_digit c = false.
Proof.
  destruct c as [[] [] [] [] [] [] [] []]; vm_compute; intros H;
    try discriminate H; reflexivity.
Qed.

Section NumberLoop.

Context {libc : Libc}.

#[local] Arguments char_eqb : simpl never.
#[local] Arguments is_whitespace : simpl never.
#[local] Arguments is_digit : simpl never.
#[local] Arguments dadd : simpl never.
#[local] Arguments dmul : simpl never.
#[local] Arguments double_of_int : simpl never.
#[local] Arguments Z_of_char : simpl never.

Lemma number_loop_exhausted (fuel : nat) (num : double) (fc : Z) (fp : bool)
    (p : list ascii) (a : Arena) (o : nat) :
  number_loop (S fuel) num fc fp (mkState (mkStringView 0 p) a o)
  = Done (Some num, mkState (mkStringView 0 p) a o).
Proof. reflexivity. Qed.

Lemma number_loop_end (fuel : nat) (num : double) (fc : Z) (fp : bool)
    (n : nat) (c : ascii) (p : list ascii) (a : Arena) (o : nat) :
  is_number_end c = true ->
  number_loop (S fuel) num fc fp (mkState (mkStringView (S n) (c :: p)) a o)
  = Done (Some num, mkState (mkStringView (S n) (c :: p)) a o).
Proof.
  intros H. unfold is_number_end in H.
  simpl. unfold bind, str_len, str_peek. simpl. rewrite H. reflexivity.
Qed.

Lemma number_loop_int_digit (fuel : nat) (num : double) (fc : Z)
    (n : nat) (c : ascii) (p : list ascii) (a : Arena) (o : nat) :
  is_digit c = true ->
  number_loop (S fuel) num fc false (mkState (mkStringView (S n) (c :: p)) a o)
  = number_loop fuel
      (dadd (dmul num (double_of_int 10)) (double_of_int (digit_value c)))
      fc false (mkState (mkStringView n p) a o).
Proof.
  intros H. destruct (digit_not_special c H) as (He & _).
  unfold is_number_end in He.
  simpl. unfold bind, str_len, str_peek. simpl. rewrite He, H. reflexivity.
Qed.

Lemma number_loop_frac_digit (fuel : nat) (num : double) (fc : Z)
    (n : nat) (c : ascii) (p : list ascii) (a : Arena) (o : nat) :
  is_digit c = true -> fc <> INT_MAX ->
  number_loop (S fuel) num fc true (mkState (mkStringView (S n) (c :: p)) a o)
  = number_loop fuel
      (dadd num (dmul (pow (double_of_int 10) (double_of_int (- fc)))
                      (double_of_int (digit_value c))))
      (fc + 1) true (mkState (mkStringView n p) a o).
Proof.
  intros H Hfc. destruct (digit_not_special c H) as (He & _).
  unfold is_number_end in He. apply Z.eqb_neq in Hfc.
  simpl. unfold bind, str_len, str_peek. simpl. rewrite He, H, Hfc. reflexivity.
Qed.

Lemma number_loop_point (fuel : nat) (num : double) (fc : Z)
    (n : nat) (p : list ascii) (a : Arena) (o : nat) :
  number_loop (S fuel) num fc false
    (mkState (mkStringView (S n) ("."%char :: p)) a o)
  = number_loop fuel num fc true (mkState (mkStringView n p) a o).
Proof. reflexivity. Qed.

(** Any other character makes the loop return the failure result, the view
    still at that character. *)
Lemma number_loop_other (fuel : nat) (num : double) (fc : Z) (fp : bool)
    (n : nat) (c : ascii) (p : list ascii) (a : Arena) (o : nat) :
  is_number_end c = false -> is_digit c = false ->
  (char_eqb c "."%char = true -> fp = true) ->
  number_loop (S fuel) num fc fp (mkState (mkStringView (S n) (c :: p)) a o)
  = Done (None, mkState (mkStringView (S n) (c :: p)) a o).
Proof.
  intros He Hd Hp. unfold is_number_end in He.
  simpl. unfold bind, str_len, str_peek. simpl. rewrite He, Hd.
  destruct (char_eqb c "."%char) eqn:E; [|reflexivity].
  rewrite (Hp eq_refl). reflexivity.
Qed.

Lemma number_loop_int_digits (ds : list ascii) :
  Forall (fun c => is_digit c = true) ds ->
  forall (fuel : nat) (num : double) (fc : Z) (n : nat) (p : list ascii)
         (a : Arena) (o : nat),
    number_loop (length ds + fuel) num fc false
      (mkState (mkStringView (length ds + n) (ds ++ p)) a o)
    = number_loop fuel
        (fold_left (fun value c =>
                      dadd (dmul value (double_of_int 10))
                           (double_of_int (digit_value c))) ds num)
        fc false (mkState (mkStringView n p) a o).
Proof.
  induction 1 as [|c ds Hc Hds IH]; intros fuel num fc n p a o; [reflexivity|].
  cbn [length Nat.add app fold_left].
  rewrite (number_loop_int_digit _ _ _ _ _ _ _ _ Hc). apply IH.
Qed.

Lemma number_loop_frac_digits (ds : list ascii) :
  Forall (fun c => is_digit c = true) ds ->
  forall (fuel : nat) (num : double) (fc : Z) (n : nat) (p : list ascii)
         (a : Arena) (o : nat),
    0 <= fc -> fc + Z.of_nat (length ds) <= INT_MAX ->
    number_loop (length ds + fuel) num fc true
      (mkState (mkStringView (length ds + n) (ds ++ p)) a o)
    = number_loop fuel (spec_fraction_part num fc ds)
        (fc + Z.of_nat (length ds)) true (mkState (mkStringView n p) a o).
Proof.
  induction 1 as [|c ds Hc Hds IH]; intros fuel num fc n p a o H0 Hmax.
  - cbn [length Nat.add app spec_fraction_part]. rewrite Z.add_0_r. reflexivity.
  - cbn [length Nat.add app spec_fraction_part].
    cbn [length] in Hmax.
    rewrite (number_loop_frac_digit _ _ _ _ _ _ _ _ Hc) by lia.
    rewrite IH by lia. f_equal. lia.
Qed.

End NumberLoop.

(** [new(T)] returns whenever [sizeof(T)], aligned, is below the capacity. *)
Lemma new_returns (c : Z) (a : Arena) (size : Z) :
  arena_wf c a -> 0 <= size < 2 ^ 63 -> align size 8 < c ->
  exists (p : ArenaPtr) (a' : Arena),
    arena_wf c a'
    /\ forall (fuel : nat) (sv : StringView) (o : nat),
        (length (arena_blocks a) < fuel)%nat ->
        new fuel size (mkState sv a o) = Done (p, mkState sv a' o).
Proof.
  intros Hwf Hs Hfit.
  destruct (arena_alloc_returns c a size Hwf Hs Hfit)
    as (p & a' & Hrun & _ & _ & _ & _ & Hwf' & _).
  exists p, a'. split; [exact Hwf'|].
  intros fuel sv o Hfuel. unfold new, arena_alloc_default. simpl.
  rewrite (arena_alloc_mono _ _ _ _ fuel Hrun) by lia. reflexivity.
Qed.

Section NumberTheorem.

Context {libc : Libc}.

Lemma number_loop_exit (fuel : nat) (num : double) (fc : Z) (fp : bool)
    (m : nat) (rest : list ascii) (a : Arena) (o : nat) :
  m = 0%nat
  \/ (exists (ch : ascii) (rest' : list ascii),
         rest = ch :: rest' /\ is_number_end ch = true) ->
  number_loop (S fuel) num fc fp (mkState (mkStringView m rest) a o)
  = Done (Some num, mkState (mkStringView m rest) a o).
Proof.
  intros H. destruct m as [|m]; [apply number_loop_exhausted|].
  destruct H as [H|(ch & rest' & -> & He)]; [discriminate H|].
  apply number_loop_end. exact He.
Qed.

(** The loop over the text of an unsigned literal. *)
Lemma number_loop_literal (int_digits : list ascii) (fraction : option (list ascii))
    (m : nat) (rest : list ascii) (a : Arena) (o : nat) (fuel : nat) :
  Forall (fun ch => is_digit ch = true) int_digits ->
  Forall (fun ch => is_digit ch = true) (fraction_digits fraction) ->
  Z.of_nat (length (fraction_digits fraction)) < INT_MAX ->
  m = 0%nat
  \/ (exists (ch : ascii) (rest' : list ascii),
         rest = ch :: rest' /\ is_number_end ch = true) ->
  (length (number_text false int_digits fraction) < fuel)%nat ->
  number_loop fuel (double_of_int 0) 1 false
    (mkState (mkStringView (length (number_text false int_digits fraction) + m)
                           (number_text false int_digits fraction ++ rest)) a o)
  = Done (Some (spec_fraction_part (spec_integer_part int_digits) 1
                                   (fraction_digits fraction)),
          mkState (mkStringView m rest) a o).
Proof.
  intros Hi Hf Hmax Hend Hfuel.
  unfold number_text in *. change (text ".") with ["."%char] in *.
  cbn [app] in *.
  rewrite length_app in *. rewrite <- app_assoc, <- Nat.add_assoc.
  replace fuel with (length int_digits + (fuel - length int_digits))%nat by lia.
  rewrite (number_loop_int_digits int_digits Hi).
  fold (spec_integer_part int_digits).
  destruct fraction as [fd|]; cbn [fraction_digits length app Nat.add] in *.
  - destruct (fuel - length int_digits)%nat as [|f1] eqn:Ef; [lia|].
    rewrite number_loop_point.
    replace f1 with (length fd + (f1 - length fd))%nat by lia.
    rewrite (number_loop_frac_digits fd Hf) by (unfold INT_MAX in *; lia).
    destruct (f1 - length fd)%nat as [|f2] eqn:Ef2; [lia|].
    apply number_loop_exit. exact Hend.
  - destruct (fuel - length int_digits)%nat as [|f1] eqn:Ef; [lia|].
    apply number_loop_exit. exact Hend.
Qed.

(** The loop up to a character that no literal can contain. *)
Lemma number_loop_rejects (int_digits : list ascii) (fraction : option (list ascii))
    (ch : ascii) (m : nat) (rest : list ascii) (a : Arena) (o : nat) (fuel : nat) :
  Forall (fun c => is_digit c = true) int_digits ->
  Forall (fun c => is_digit c = true) (fraction_digits fraction) ->
  Z.of_nat (length (fraction_digits fraction)) < INT_MAX ->
  is_digit ch = false -> is_number_end ch = false ->
  (char_eqb ch "."%char = true -> fraction <> None) ->
  (length (number_text false int_digits fraction) < fuel)%nat ->
  number_loop fuel (double_of_int 0) 1 false
    (mkState (mkStringView (length (number_text false int_digits fraction) + S m)
                           (number_text false int_digits fraction ++ ch :: rest))
             a o)
  = Done (None, mkState (mkStringView (S m) (ch :: rest)) a o).
Proof.
  intros Hi Hf Hmax Hd He Hp Hfuel.
  unfold number_text in *. change (text ".") with ["."%char] in *.
  cbn [app] in *.
  rewrite length_app in *. rewrite <- app_assoc, <- Nat.add_assoc.
  replace fuel with (length int_digits + (fuel - length int_digits))%nat by lia.
  rewrite (number_loop_int_digits int_digits Hi).
  destruct fraction as [fd|]; cbn [fraction_digits length app Nat.add] in *.
  - destruct (fuel - length int_digits)%nat as [|f1] eqn:Ef; [lia|].
    rewrite number_loop_point.
    replace f1 with (length fd + (f1 - length fd))%nat by lia.
    rewrite (number_loop_frac_digits fd Hf) by (unfold INT_MAX in *; lia).
    destruct (f1 - length fd)%nat as [|f2] eqn:Ef2; [lia|].
    apply number_loop_other; auto.
  - destruct (fuel - length int_digits)%nat as [|f1] eqn:Ef; [lia|].
    apply number_loop_other; auto.
    intros Hdot. exfalso. apply (Hp Hdot). reflexivity.
Qed.

Lemma decode_json_number_signed (fuel : nat) (n : nat) (p : list ascii)
    (a : Arena) (o : nat) :
  decode_json_number fuel (mkState (mkStringView (S n) ("-"%char :: p)) a o)
  = number_result fuel true
      (number_loop fuel (double_of_int 0) 1 false
                   (mkState (mkStringView n p) a o)).
Proof.
  unfold decode_json_number, number_result, bind, str_peek, ret. simpl.
  destruct (number_loop fuel _ _ _ _) as [[[num|] st]| | | |]; try reflexivity.
  all: simpl; destruct (new fuel sizeof_JsonNumber st) as [[q st']| | | |];
    reflexivity.
Qed.

Lemma decode_json_number_unsigned (fuel : nat) (n : nat) (c : ascii)
    (p : list ascii) (a : Arena) (o : nat) :
  char_eqb c "-"%char = false ->
  decode_json_number fuel (mkState (mkStringView (S n) (c :: p)) a o)
  = number_result fuel false
      (number_loop fuel (double_of_int 0) 1 false
                   (mkState (mkStringView (S n) (c :: p)) a o)).
Proof.
  intros Hc.
  unfold decode_json_number, number_result, bind, str_peek, ret. simpl.
  rewrite Hc. simpl.
  destruct (number_loop fuel _ _ _ _) as [[[num|] st]| | | |]; try reflexivity.
  all: simpl; destruct (new fuel sizeof_JsonNumber st) as [[q st']| | | |];
    reflexivity.
Qed.

(** The first character of an unsigned literal, or a character that ends or
    breaks one, is not taken for a sign. *)
Lemma literal_head_not_minus (int_digits : list ascii)
    (fraction : option (list ascii)) (c : ascii) (l rest : list ascii) :
  Forall (fun ch => is_digit ch = true) int_digits ->
  number_text false int_digits fraction ++ rest = c :: l ->
  number_text false int_digits fraction <> [] ->
  char_eqb c "-"%char = false.
Proof.
  intros Hi Heq Hne. unfold number_text in *. cbn [app] in *.
  destruct int_digits as [|d ds].
  - destruct fraction as [fd|]; [|exfalso; apply Hne; reflexivity].
    cbn in Heq. inversion Heq; subst. reflexivity.
  - cbn in Heq. inversion Heq; subst. inversion Hi; subst.
    apply digit_not_special. assumption.
Qed.

(** The decoder on a well-formed literal. *)
Lemma decode_json_number_literal (negative : bool) (int_digits : list ascii)
    (fraction : option (list ascii)) (m : nat) (rest : list ascii)
    (c : Z) (a : Arena) (o : nat) :
  Forall (fun ch => is_digit ch = true) int_digits ->
  Forall (fun ch => is_digit ch = true) (fraction_digits fraction) ->
  Z.of_nat (length (fraction_digits fraction)) < INT_MAX ->
  number_text negative int_digits fraction <> [] ->
  m = 0%nat
  \/ (exists (ch : ascii) (rest' : list ascii),
         rest = ch :: rest' /\ is_number_end ch = true) ->
  arena_wf c a -> 8 < c ->
  exists a' : Arena,
    forall fuel : nat,
      (length (number_text negative int_digits fraction) < fuel)%nat ->
      (length (arena_blocks a) < fuel)%nat ->
      decode_json_number fuel
        (mkState (mkStringView
                    (length (number_text negative int_digits fraction) + m)
                    (number_text negative int_digits fraction ++ rest)) a o)
      = Done (OkResult (VNumber (spec_number negative int_digits
                                             (fraction_digits fraction))),
              mkState (mkStringView m rest) a' o).
Proof.
  intros Hi Hf Hmax Hne Hend Hwf Hc.
  destruct (new_returns c a sizeof_JsonNumber Hwf)
    as (q & a' & _ & Hnew).
  { unfold sizeof_JsonNumber. split; [lia | reflexivity]. }
  { exact Hc. }
  exists a'. intros fuel Hfuel Hblocks.
  destruct negative.
  + change (number_text true int_digits fraction)
      with ("-"%char :: number_text false int_digits fraction) in *.
    cbn [length app Nat.add] in *.
    rewrite decode_json_number_signed.
    rewrite (number_loop_literal int_digits fraction m rest a o fuel)
      by (assumption || lia).
    unfold number_result. cbn [obind].
    rewrite (Hnew fuel _ o Hblocks). reflexivity.
  + destruct (number_text false int_digits fraction ++ rest) as [|c0 l] eqn:El.
    { exfalso. apply Hne. destruct (number_text false int_digits fraction);
        [reflexivity | discriminate El]. }
    assert (Hlen : exists n,
               (length (number_text false int_digits fraction) + m)%nat = S n).
    { destruct (number_text false int_digits fraction) as [|x xs];
        [exfalso; apply Hne; reflexivity|]. eexists. reflexivity. }
    destruct Hlen as [n Hn].
    pose proof (literal_head_not_minus int_digits fraction c0 l rest Hi El Hne)
      as Hminus.
    rewrite Hn, (decode_json_number_unsigned fuel n c0 l a o Hminus).
    rewrite <- Hn, <- El.
    rewrite (number_loop_literal int_digits fraction m rest a o fuel)
      by (assumption || lia).
    unfold number_result, spec_number. cbn [obind].
    rewrite (Hnew fuel _ o Hblocks). reflexivity.
Qed.

(** The decoder on a literal followed by a character it does not accept. *)
Lemma decode_json_number_rejects (negative : bool) (int_digits : list ascii)
    (fraction : option (list ascii)) (ch : ascii) (m : nat)
    (rest : list ascii) (a : Arena) (o : nat) (fuel : nat) :
  Forall (fun c => is_digit c = true) int_digits ->
  Forall (fun c => is_digit c = true) (fraction_digits fraction) ->
  Z.of_nat (length (fraction_digits fraction)) < INT_MAX ->
  is_digit ch = false -> is_number_end ch = false ->
  (char_eqb ch "."%char = true -> fraction <> None) ->
  (number_text negative int_digits fraction = [] ->
   char_eqb ch "-"%char = false) ->
  (length (number_text negative int_digits fraction) < fuel)%nat ->
  decode_json_number fuel
    (mkState (mkStringView
                (length (number_text negative int_digits fraction) + S m)
                (number_text negative int_digits fraction ++ ch :: rest))
             a o)
  = Done (ErrResult, mkState (mkStringView (S m) (ch :: rest)) a o).
Proof.
  intros Hi Hf Hmax Hd He Hp Hminus Hfuel.
  destruct negative.
  + change (number_text true int_digits fraction)
      with ("-"%char :: number_text false int_digits fraction) in *.
    cbn [length app Nat.add] in *.
    rewrite decode_json_number_signed.
    rewrite (number_loop_rejects int_digits fraction ch m rest a o fuel)
      by (assumption || lia).
    reflexivity.
  + destruct (number_text false int_digits fraction ++ ch :: rest)
      as [|c0 l] eqn:El.
    { destruct (number_text false int_digits fraction); discriminate El. }
    assert (Hc0 : char_eqb c0 "-"%char = false).
    { destruct (number_text false int_digits fraction) as [|x xs] eqn:Et.
      - cbn in El. inversion El; subst. apply Hminus. reflexivity.
      - apply (literal_head_not_minus int_digits fraction c0 l (ch :: rest) Hi).
        + rewrite Et. exact El.
        + rewrite Et. discriminate. }
    assert (Hlen : exists n,
               (length (number_text false int_digits fraction) + S m)%nat = S n).
    { rewrite Nat.add_succ_r. eexists. reflexivity. }
    destruct Hlen as [n Hn].
    rewrite Hn, (decode_json_number_unsigned fuel n c0 l a o Hc0).
    rewrite <- Hn, <- El.
    rewrite (number_loop_rejects int_digits fraction ch m rest a o fuel)
      by (assumption || lia).
    reflexivity.
Qed.

End NumberTheorem.

(** * The encoder *)

Lemma join_cons (sep t : list ascii) (ts : list (list ascii)) :
  join sep (t :: ts)
  = t ++ (if Nat.ltb 0 (length ts) then sep else []) ++ join sep ts.
Proof.
  destruct ts as [|t' ts]; cbn [join length Nat.ltb Nat.leb].
  - rewrite app_nil_r. reflexivity.
  - reflexivity.
Qed.

(** The element loop over [n - i] whole elements writes their texts joined by
    commas. *)
Lemma encode_items_full {T : Type} (element : slot T -> Outcome (list ascii))
    (n : Z) (xs : list T) (ts : list (list ascii)) :
  Forall2 (fun x t => element (Full x) = Done t) xs ts ->
  forall (rest : list (slot T)) (i : Z),
    0 <= i -> i + Z.of_nat (length xs) = n -> n < 2 ^ 64 ->
    encode_items element n (map Full xs ++ rest) i = Done (join (text ",") ts).
Proof.
  induction 1 as [|x t xs ts Hx Hxs IH]; intros rest i Hi Hn Hmax.
  - cbn [length map app] in *.
    assert (E : (i <? n) = false) by (apply Z.ltb_ge; lia).
    destruct rest; cbn [encode_items]; rewrite E; reflexivity.
  - cbn [length map app] in *. cbn [encode_items].
    assert (E : (i <? n) = true) by (apply Z.ltb_lt; lia).
    rewrite E, Hx. cbn [obind].
    rewrite (IH rest (i + 1)) by lia. cbn [obind].
    rewrite join_cons. rewrite size_t_small by lia.
    rewrite <- (Forall2_length Hxs).
    destruct xs as [|x' xs]; cbn [length Nat.ltb Nat.leb].
    + assert (E' : (i <? n - 1) = false) by (apply Z.ltb_ge; cbn in Hn; lia).
      rewrite E'. reflexivity.
    + assert (E' : (i <? n - 1) = true)
        by (apply Z.ltb_lt; cbn [length] in Hn; lia).
      rewrite E'. reflexivity.
Qed.

Section Encoder.

Context {libc : Libc}.

Lemma encode_json_array (value : JsonArray) :
  encode_json (VArray value)
  = obind (encode_items (array_element encode_json) (len value) (ptr value) 0)
      (fun body => Done (text "[ " ++ body ++ text "] ")).
Proof. reflexivity. Qed.

Lemma encode_json_object (properties : Array JsonObjectProperty) :
  encode_json (VObject properties)
  = obind (encode_items (object_element encode_json) (len properties)
                        (ptr properties) 0)
      (fun body => Done (text "{ " ++ body ++ text "} ")).
Proof. reflexivity. Qed.

(** C6.  An array whose [len] elements are whole is written as ["[ "], the
    texts of the elements joined by [","], then ["] "]; an object as ["{ "],
    the entries joined by [","], then ["} "], an entry being the key between
    double quotes, [" : "], and the text of the value.  Empty collections
    give ["[ ] "] and ["{ } "].  With [%g] writing 1, 2 and 3 as ["1"], ["2"]
    and ["3"], the value decoded from ["[1,2,3]"] is written
    ["[ 1,2,3] "]. *)
Theorem encode_json_templates :
  (forall (value : JsonArray) (xs : list JsonValue) (ts : list (list ascii)),
      len value = Z.of_nat (length xs) -> len value < 2 ^ 64 ->
      firstn (length xs) (ptr value) = map Full xs ->
      Forall2 (fun x t => encode_json x = Done t) xs ts ->
      encode_json (VArray value)
      = Done (text "[ " ++ join (text ",") ts ++ text "] "))
  /\ (forall (properties : Array JsonObjectProperty)
             (ps : list JsonObjectProperty) (es : list (list ascii)),
        len properties = Z.of_nat (length ps) -> len properties < 2 ^ 64 ->
        firstn (length ps) (ptr properties) = map Full ps ->
        Forall2 (fun p e =>
                   exists (chars t : list ascii),
                     print_string (fst p) = Done (DQUOTE :: chars ++ [DQUOTE])
                     /\ encode_json (snd p) = Done t
                     /\ e = (DQUOTE :: chars ++ [DQUOTE]) ++ text " : " ++ t)
                ps es ->
        encode_json (VObject properties)
        = Done (text "{ " ++ join (text ",") es ++ text "} "))
  /\ (forall (c : Z) (p : list (slot JsonValue)),
        encode_json (VArray (mkArray 0 c p)) = Done (text "[ ] "))
  /\ (forall (c : Z) (p : list (slot JsonObjectProperty)),
        encode_json (VObject (mkArray 0 c p)) = Done (text "{ } "))
  /\ (printf_g (double_of_int 1) = text "1" ->
      printf_g (double_of_int 2) = text "2" ->
      printf_g (double_of_int 3) = text "3" ->
      forall tail : list ascii,
      exists (v : JsonValue) (st : State),
        decode_json 10 (view_of (text "[1,2,3]") tail) init_state
        = Done (OkResult v, st)
        /\ encode_json v = Done (text "[ 1,2,3] ")).
Proof.
  split; [|split; [|split; [|split]]].
  - intros value xs ts Hlen Hmax Hptr Hts.
    rewrite encode_json_array.
    rewrite <- (firstn_skipn (length xs) (ptr value)), Hptr.
    rewrite (encode_items_full _ (len value) xs ts); try lia; [reflexivity|].
    exact Hts.
  - intros properties ps es Hlen Hmax Hptr Hes.
    rewrite encode_json_object.
    rewrite <- (firstn_skipn (length ps) (ptr properties)), Hptr.
    rewrite (encode_items_full _ (len properties) ps es); try lia; [reflexivity|].
    clear - Hes. induction Hes as [|[key v] e ps es Hp Hps IH]; constructor.
    + destruct Hp as (chars & t & Hk & Hv & ->). cbn [fst snd] in *.
      cbn [object_element]. rewrite Hk, Hv. reflexivity.
    + exact IH.
  - intros c p. rewrite encode_json_array. destruct p; reflexivity.
  - intros c p. rewrite encode_json_object. destruct p; reflexivity.
  - intros H1 H2 H3 tail. eexists. eexists.
    split; [vm_compute; reflexivity|].
    vm_compute. vm_compute in H1, H2, H3. rewrite H1, H2, H3. reflexivity.
Qed.

End Encoder.

Lemma encode_json_templates_witness :
  encode_json (VArray (mkArray 2 10 (map Full [VTrue; VNull] ++ repeat Zero 8)))
  = Done (text "[ " ++ join (text ",") [text "true"; text "null"] ++ text "] ")
  /\ encode_json
       (VObject (mkArray 1 10
                   (map Full [(mkArray 1 10 (Full "k"%char :: repeat Zero 9), VFalse)]
                      ++ repeat Zero 9)))
     = Done (text "{ " ++ join (text ",") [qtext "'k' : false"] ++ text "} ")
  /\ (printf_g (double_of_int 1) = text "1"
      /\ printf_g (double_of_int 2) = text "2"
      /\ printf_g (double_of_int 3) = text "3")
  /\ (forall tail : list ascii,
      exists (v : JsonValue) (st : State),
        decode_json 10 (view_of (text "[1,2,3]") tail) init_state
        = Done (OkResult v, st)
        /\ encode_json v = Done (text "[ 1,2,3] ")).
Proof.
  destruct (@encode_json_templates ref_libc) as (Harr & Hobj & _ & _ & Hex).
  split; [|split; [|split]].
  - apply (Harr _ [VTrue; VNull]).
    + reflexivity.
    + reflexivity.
    + reflexivity.
    + repeat constructor.
  - apply (Hobj _ [(mkArray 1 10 (Full "k"%char :: repeat Zero 9), VFalse)]).
    + reflexivity.
    + reflexivity.
    + reflexivity.
    + constructor; [|constructor].
      exists (text "k"), (text "false"). repeat split.
  - repeat split.
  - apply Hex; reflexivity.
Defined.

(** * Growable buffers *)

Lemma array_append_eq {T : Type} (fuel : nat) (esz : Z) (arr : Array T)
    (item : T) (st : State) :
  array_append fuel esz arr item st
  = obind (match growth_request esz arr with
           | None => Done (tt, st)
           | Some size =>
             obind (arena_alloc_default fuel size st)
                   (fun '(_, st') => Done (tt, st'))
           end)
      (fun '(_, st') =>
         match array_push esz arr item with
         | None => Fault
         | Some arr' => Done (arr', st')
         end).
Proof.
  unfold array_append, growth_request, array_push, array_grow, grown_cap, bind, ret.
  destruct (cap arr <? size_t (len arr + 1)); cbn [obind].
  - destruct (arena_alloc_default fuel _ st) as [[q st']| | | |];
      cbn [obind]; try reflexivity.
    cbn [len cap ptr].
    destruct (store_slot _ _ item); reflexivity.
  - destruct (store_slot _ _ item); reflexivity.
Qed.

Lemma store_slot_app {T : Type} (l1 : list (slot T)) (s : slot T)
    (l2 : list (slot T)) (item : T) :
  store_slot (l1 ++ s :: l2) (length l1) item = Some (l1 ++ Full item :: l2).
Proof.
  induction l1 as [|x l1 IH]; cbn [app length store_slot]; [reflexivity|].
  rewrite IH. reflexivity.
Qed.

(** With one-byte elements [memmove] of [len] bytes moves [len] elements. *)
Lemma copy_bytes_chars (cs : list ascii) (rest : list (slot ascii)) :
  copy_bytes sizeof_char (map Full cs ++ rest) (Z.of_nat (length cs))
  = map Full cs.
Proof.
  induction cs as [|ch cs IH]; cbn [map app length].
  - destruct rest; reflexivity.
  - cbn [copy_bytes].
    assert (E : (Z.of_nat (S (length cs)) <=? 0) = false)
      by (apply Z.leb_gt; lia).
    rewrite E. unfold slot_prefix. rewrite E.
    assert (E1 : (sizeof_char <=? Z.of_nat (S (length cs))) = true)
      by (apply Z.leb_le; unfold sizeof_char; lia).
    rewrite E1. f_equal.
    replace (Z.of_nat (S (length cs)) - sizeof_char) with (Z.of_nat (length cs))
      by (unfold sizeof_char; lia).
    exact IH.
Qed.

Lemma repeat_S_app {A : Type} (x : A) (n : nat) :
  repeat x (S n) = x :: repeat x n.
Proof. reflexivity. Qed.

Lemma skipn_repeat {A : Type} (x : A) (k n : nat) :
  skipn k (repeat x n) = repeat x (n - k).
Proof.
  revert n. induction k as [|k IH]; intros n.
  - rewrite Nat.sub_0_r. reflexivity.
  - destruct n as [|n]; [reflexivity|]. cbn [repeat skipn]. apply IH.
Qed.

(** Appending to a string buffer keeps every character it holds. *)
Lemma array_push_chars (s : JsonString) (cs : list ascii) (ch : ascii) :
  holds_chars s cs -> cap s < 2 ^ 62 -> cap s = 0 \/ 10 <= cap s ->
  exists s' : JsonString,
    array_push sizeof_char s ch = Some s'
    /\ holds_chars s' (cs ++ [ch])
    /\ cap s <= cap s' /\ 10 <= cap s'
    /\ match growth_request sizeof_char s with
       | None => cap s' = cap s
       | Some size => size = cap s' /\ 10 <= cap s'
       end.
Proof.
  intros (Hlen & Hle & Hptr) Hcap Hten.
  assert (H64 : 2 ^ 62 + 2 ^ 62 < 2 ^ 64) by (vm_compute; reflexivity).
  assert (Hl0 : 0 <= len s) by lia.
  unfold array_push, array_grow, growth_request.
  rewrite (size_t_small (len s + 1)) by lia.
  destruct (cap s <? len s + 1) eqn:Egrow.
  - apply Z.ltb_lt in Egrow.
    assert (Hfull : cap s = len s) by lia.
    assert (Hg : 10 <= grown_cap (cap s) < 2 ^ 63
                 /\ len s < grown_cap (cap s)).
    { unfold grown_cap, ARRAY_INIT_CAP.
      destruct (cap s =? 0) eqn:E0.
      - apply Z.eqb_eq in E0. lia.
      - apply Z.eqb_neq in E0. rewrite size_t_small by lia. lia. }
    assert (Hsz : size_t (grown_cap (cap s) * sizeof_char) = grown_cap (cap s)).
    { unfold sizeof_char. rewrite Z.mul_1_r. apply size_t_small. lia. }
    rewrite Hsz. cbn [len cap ptr].
    assert (Hdst : (if 0 <? len s
                    then memmove sizeof_char
                           (fresh_region sizeof_char (grown_cap (cap s)))
                           (ptr s) (len s)
                    else fresh_region sizeof_char (grown_cap (cap s)))
                   = map Full cs
                     ++ Zero :: repeat Zero (Z.to_nat (grown_cap (cap s))
                                             - S (length cs))).
    { unfold fresh_region, sizeof_char. rewrite Z.div_1_r.
      destruct (0 <? len s) eqn:Epos.
      - unfold memmove. rewrite Hptr, Hlen.
        change 1 with sizeof_char. rewrite copy_bytes_chars.
        rewrite length_map, skipn_repeat.
        replace (Z.to_nat (grown_cap (cap s)) - length cs)%nat
          with (S (Z.to_nat (grown_cap (cap s)) - S (length cs))) by lia.
        reflexivity.
      - apply Z.ltb_ge in Epos.
        assert (Hnil : cs = []) by (destruct cs; [reflexivity | cbn in Hlen; lia]).
        subst cs. cbn [map app length].
        replace (Z.to_nat (grown_cap (cap s)))
          with (S (Z.to_nat (grown_cap (cap s)) - 1)) at 1 by lia.
        reflexivity. }
    rewrite Hdst.
    replace (Z.to_nat (len s)) with (length (map (@Full ascii) cs))
      by (rewrite length_map; lia).
    rewrite store_slot_app.
    eexists. split; [reflexivity|]. cbn [len cap ptr].
    split; [|split; [lia | split; [lia | split; [reflexivity | lia]]]].
    unfold holds_chars. cbn [len cap ptr].
    rewrite size_t_small by lia.
    rewrite length_app, map_app. cbn [length map].
    split; [lia|]. split; [lia|].
    rewrite <- app_assoc. cbn [app].
    replace (Z.to_nat (grown_cap (cap s)) - (length cs + 1))%nat
      with (Z.to_nat (grown_cap (cap s)) - S (length cs))%nat by lia.
    reflexivity.
  - apply Z.ltb_ge in Egrow.
    rewrite Hptr.
    replace (Z.to_nat (cap s) - length cs)%nat
      with (S (Z.to_nat (cap s) - S (length cs))) by lia.
    rewrite repeat_S_app.
    replace (Z.to_nat (len s)) with (length (map (@Full ascii) cs))
      by (rewrite length_map; lia).
    rewrite store_slot_app.
    eexists. split; [reflexivity|]. cbn [len cap ptr].
    split; [|split; [lia | split; [lia | reflexivity]]].
    unfold holds_chars. cbn [len cap ptr].
    rewrite size_t_small by lia.
    rewrite length_app, map_app. cbn [length map].
    split; [lia|]. split; [lia|].
    rewrite <- app_assoc. cbn [app].
    replace (Z.to_nat (cap s) - (length cs + 1))%nat
      with (Z.to_nat (cap s) - S (length cs))%nat by lia.
    reflexivity.
Qed.

(** * The string decoder *)

Ltac splits := repeat match goal with |- _ /\ _ => split end.

Lemma align_mono (x y : Z) :
  0 <= x <= y -> y < 2 ^ 63 -> align x 8 <= align y 8.
Proof.
  intros Hxy Hy.
  destruct (align_bounds x ltac:(lia)) as [Hx Hxm].
  destruct (align_bounds y ltac:(lia)) as [Hy' Hym].
  apply Z.mod_divide in Hxm; [|lia]. apply Z.mod_divide in Hym; [|lia].
  destruct Hxm as [kx Hkx]. destruct Hym as [ky Hky]. lia.
Qed.

(** A request that returned was below the capacity, and left a well-formed
    arena. *)
Lemma arena_alloc_done (c : Z) (fuel : nat) (a : Arena) (size : Z)
    (p : ArenaPtr) (a' : Arena) :
  arena_wf c a -> 0 <= size < 2 ^ 62 ->
  arena_alloc fuel a size = Done (p, a') ->
  align size 8 < c /\ arena_wf c a'.
Proof.
  intros Hwf Hs Hrun.
  assert (H62 : 2 ^ 62 + 8 < 2 ^ 63) by (vm_compute; reflexivity).
  assert (Hs' : 0 <= size < 2 ^ 63) by lia.
  destruct (align_bounds size Hs') as [Hb Hm].
  assert (Hfit : align size 8 < c).
  { rewrite arena_alloc_realigns in Hrun by exact Hs'.
    exact (arena_alloc_done_fits c (align size 8) ltac:(lia) Hm fuel a _ Hwf Hrun). }
  split; [exact Hfit|].
  destruct (arena_alloc_returns c a size Hwf Hs' Hfit)
    as (p2 & a2 & Hrun2 & _ & _ & _ & _ & Hwf2 & _).
  pose proof (arena_alloc_mono _ _ _ _ (Nat.max fuel (S (length (arena_blocks a))))
                Hrun ltac:(lia)) as H1.
  pose proof (arena_alloc_mono _ _ _ _ (Nat.max fuel (S (length (arena_blocks a))))
                Hrun2 ltac:(lia)) as H2.
  rewrite H1 in H2. inversion H2; subst. exact Hwf2.
Qed.

Lemma arena_alloc_default_done (fuel : nat) (size : Z) (sv : StringView)
    (a : Arena) (o : nat) (p : ArenaPtr) (st' : State) :
  arena_alloc_default fuel size (mkState sv a o) = Done (p, st') ->
  exists a' : Arena,
    st' = mkState sv a' o /\ arena_alloc fuel a size = Done (p, a').
Proof.
  unfold arena_alloc_default. cbn [DEFAULT_ARENA str oob_reads].
  destruct (arena_alloc fuel a size) as [[q a']| | | |]; try discriminate.
  cbn [obind]. intros H. inversion H; subst. exists a'. split; reflexivity.
Qed.

(** A returned [array_append] changed the arena only, and only when the
    buffer was full. *)
Lemma array_append_done {T : Type} (fuel : nat) (esz : Z) (arr arr' : Array T)
    (item : T) (sv : StringView) (a : Arena) (o : nat) (st' : State) :
  array_append fuel esz arr item (mkState sv a o) = Done (arr', st') ->
  exists a' : Arena,
    st' = mkState sv a' o
    /\ array_push esz arr item = Some arr'
    /\ match growth_request esz arr with
       | None => a' = a
       | Some size => exists p : ArenaPtr, arena_alloc fuel a size = Done (p, a')
       end.
Proof.
  rewrite array_append_eq.
  destruct (growth_request esz arr) as [size|].
  - destruct (arena_alloc_default fuel size _) as [[q st1]| | | |] eqn:E;
      try discriminate.
    apply arena_alloc_default_done in E. destruct E as (a' & -> & Ha).
    cbn [obind]. destruct (array_push esz arr item) as [x|]; [|discriminate].
    intros H. inversion H; subst. exists a'.
    split; [reflexivity|]. split; [reflexivity|]. exists q. exact Ha.
  - cbn [obind]. destruct (array_push esz arr item) as [x|]; [|discriminate].
    intros H. inversion H; subst. exists a. repeat split.
Qed.

Lemma array_append_run {T : Type} (fuel : nat) (esz : Z) (arr arr' : Array T)
    (item : T) (sv : StringView) (a a' : Arena) (o : nat) :
  array_push esz arr item = Some arr' ->
  match growth_request esz arr with
  | None => a' = a
  | Some size => exists p : ArenaPtr, arena_alloc fuel a size = Done (p, a')
  end ->
  array_append fuel esz arr item (mkState sv a o) = Done (arr', mkState sv a' o).
Proof.
  intros Hpush Hreq. rewrite array_append_eq, Hpush.
  destruct (growth_request esz arr) as [size|].
  - destruct Hreq as [p Hp]. unfold arena_alloc_default.
    cbn [DEFAULT_ARENA str oob_reads]. rewrite Hp. reflexivity.
  - subst a'. reflexivity.
Qed.

Lemma string_loop_step (fuel : nat) (s : JsonString) (n : nat) (ch : ascii)
    (p : list ascii) (a : Arena) (o : nat) :
  string_loop (S fuel) s (mkState (mkStringView (S n) (ch :: p)) a o)
  = if char_eqb ch DQUOTE
    then Done ((true, s), mkState (mkStringView n p) a o)
    else obind (array_append (S fuel) sizeof_char s ch
                  (mkState (mkStringView (S n) (ch :: p)) a o))
           (fun '(s1, st1) =>
              obind (consume_char st1) (fun '(_, st2) => string_loop fuel s1 st2)).
Proof.
  cbn [string_loop]. unfold bind at 1. unfold str_len at 1. cbn [obind str sv_len].
  cbn [Nat.ltb Nat.leb]. unfold bind at 1. unfold str_peek at 1.
  cbn [str sv_ptr sv_len Nat.eqb obind].
  destruct (char_eqb ch DQUOTE); [reflexivity|].
  unfold bind.
  destruct (array_append _ _ _ _ _) as [[s1 st1]| | | |]; reflexivity.
Qed.

Lemma buf_inv_bounds (c : Z) (s : JsonString) :
  c <= 2 ^ 31 -> buf_inv c s ->
  cap s < 2 ^ 62 /\ (cap s = 0 \/ 10 <= cap s) /\ cap s < 2 ^ 31.
Proof.
  intros Hc [H|H]; assert (H31 : 2 ^ 31 < 2 ^ 62) by (vm_compute; reflexivity);
    repeat split; try lia.
Qed.

(** A growth request of a string buffer is its new capacity, below [2^32]. *)
Lemma string_growth_request (c : Z) (s : JsonString) (cs : list ascii) (size : Z) :
  c <= 2 ^ 31 -> buf_inv c s -> holds_chars s cs ->
  growth_request sizeof_char s = Some size ->
  0 <= size < 2 ^ 62.
Proof.
  intros Hc Hinv (Hlen & Hle & _) Hreq.
  destruct (buf_inv_bounds c s Hc Hinv) as (_ & Hten & H31).
  assert (H32 : 2 * 2 ^ 31 < 2 ^ 62 /\ 2 ^ 62 < 2 ^ 64) by (vm_compute; split; reflexivity).
  unfold growth_request in Hreq.
  destruct (cap s <? size_t (len s + 1)); [|discriminate].
  inversion Hreq; subst. unfold sizeof_char, grown_cap, ARRAY_INIT_CAP.
  rewrite Z.mul_1_r.
  destruct (cap s =? 0).
  - rewrite size_t_small by lia. lia.
  - rewrite (size_t_small (cap s * 2)) by lia. rewrite size_t_small by lia. lia.
Qed.

(** What a run of the loop that found the closing quote has done. *)
Lemma string_loop_inv (c : Z) :
  c <= 2 ^ 31 ->
  forall (fuel : nat) (s : JsonString) (cs0 : list ascii) (n : nat)
         (p : list ascii) (a : Arena) (o : nat) (s' : JsonString) (st' : State),
    holds_chars s cs0 -> buf_inv c s -> arena_wf c a ->
    string_loop fuel s (mkState (mkStringView n p) a o) = Done ((true, s'), st') ->
    exists (cs rest : list ascii) (a' : Arena),
      p = cs ++ DQUOTE :: rest
      /\ (length cs < n)%nat
      /\ Forall (fun ch => char_eqb ch DQUOTE = false) cs
      /\ s' = pushes s cs
      /\ holds_chars s' (cs0 ++ cs)
      /\ buf_inv c s'
      /\ growths_ok c s cs
      /\ st' = mkState (mkStringView (n - length cs - 1) rest) a' o
      /\ arena_wf c a'.
Proof.
  intros Hc fuel. induction fuel as [|fuel IH];
    intros s cs0 n p a o s' st' Hholds Hinv Hwf Hrun; [discriminate|].
  destruct n as [|n]; [discriminate|].
  destruct p as [|ch p]; [discriminate|].
  rewrite string_loop_step in Hrun.
  destruct (char_eqb ch DQUOTE) eqn:Eq.
  - inversion Hrun; subst.
    assert (Hch : ch = DQUOTE) by (apply Ascii.eqb_eq; exact Eq). subst ch.
    exists [], p, a. cbn [app length pushes growths_ok].
    rewrite app_nil_r, Nat.sub_0_r.
    replace (S n - 1)%nat with n by lia.
    splits; try assumption; try lia; try reflexivity. constructor.
  - destruct (array_append _ _ _ _ _) as [[s1 st1]| | | |] eqn:Eapp;
      try discriminate.
    apply array_append_done in Eapp.
    destruct Eapp as (a1 & -> & Hpush & Hreq).
    cbn [obind consume_char str sv_len sv_ptr tl DEFAULT_ARENA oob_reads] in Hrun.
    destruct (buf_inv_bounds c s Hc Hinv) as (H62 & Hten & _).
    destruct (array_push_chars s cs0 ch Hholds H62 Hten)
      as (s1' & Hpush' & Hholds1 & Hmono & Hten1 & Hgrow).
    rewrite Hpush in Hpush'. inversion Hpush'; subst s1'.
    assert (Hstep : match growth_request sizeof_char s with
                    | None => True
                    | Some size => 0 <= size < 2 ^ 62 /\ align size 8 < c
                    end /\ buf_inv c s1 /\ arena_wf c a1).
    { destruct (growth_request sizeof_char s) as [size|] eqn:Ereq.
      - destruct Hreq as [q Hq]. destruct Hgrow as [Hsz _].
        pose proof (string_growth_request c s cs0 size Hc Hinv Hholds Ereq) as Hb.
        destruct (arena_alloc_done c _ a size q a1 Hwf Hb Hq) as [Hfit Hwf1].
        split; [split; assumption|]. split; [|exact Hwf1].
        right. assert (H63 : 2 ^ 62 < 2 ^ 63) by (vm_compute; reflexivity).
        destruct (align_bounds size ltac:(lia)) as [Hal _]. lia.
      - subst a1. split; [exact I|]. split; [|exact Hwf].
        destruct Hinv as [H0|H]; [|right; lia].
        exfalso. destruct Hholds as (Hl & Hle & _).
        unfold growth_request in Ereq. rewrite H0 in Ereq.
        assert (H64 : 2 ^ 62 < 2 ^ 64) by (vm_compute; reflexivity).
        rewrite size_t_small in Ereq by lia.
        assert (E : (0 <? len s + 1) = true) by (apply Z.ltb_lt; lia).
        rewrite E in Ereq. discriminate. }
    destruct Hstep as (Hreq_ok & Hinv1 & Hwf1).
    destruct (IH s1 (cs0 ++ [ch]) n p a1 o s' st' Hholds1 Hinv1 Hwf1 Hrun)
      as (cs & rest & a' & -> & Hlen & Hq & -> & Hholds' & Hinv' & Hg & -> & Hwf').
    exists (ch :: cs), rest, a'.
    cbn [app length pushes growths_ok]. rewrite Hpush.
    rewrite <- app_assoc in Hholds'. cbn [app] in Hholds'.
    replace (S n - S (length cs) - 1)%nat with (n - length cs - 1)%nat by lia.
    splits; try assumption; try lia; try reflexivity.
    constructor; assumption.
Qed.

(** The loop on a text that has its closing quote, in any arena that can
    serve the growths. *)
Lemma string_loop_run (c : Z) :
  c <= 2 ^ 31 ->
  forall (cs : list ascii) (s : JsonString) (cs0 : list ascii) (n : nat)
         (rest : list ascii) (a : Arena) (o : nat),
    holds_chars s cs0 -> buf_inv c s -> arena_wf c a ->
    growths_ok c s cs ->
    Forall (fun ch => char_eqb ch DQUOTE = false) cs ->
    (length cs < n)%nat ->
    exists (a' : Arena) (fuel0 : nat),
      arena_wf c a'
      /\ forall fuel : nat,
          (fuel0 <= fuel)%nat ->
          string_loop fuel s (mkState (mkStringView n (cs ++ DQUOTE :: rest)) a o)
          = Done ((true, pushes s cs),
                  mkState (mkStringView (n - length cs - 1) rest) a' o).
Proof.
  intros Hc cs. induction cs as [|ch cs IH];
    intros s cs0 n rest a o Hholds Hinv Hwf Hg Hq Hlen.
  - exists a, 1%nat. split; [exact Hwf|]. intros fuel Hfuel.
    destruct fuel as [|fuel]; [lia|]. destruct n as [|n]; [cbn in Hlen; lia|].
    cbn [app length pushes]. rewrite string_loop_step.
    change (char_eqb DQUOTE DQUOTE) with true. cbn beta iota.
    replace (S n - 0 - 1)%nat with n by lia. reflexivity.
  - cbn [growths_ok] in Hg.
    destruct (array_push sizeof_char s ch) as [s1|] eqn:Hpush; [|contradiction].
    destruct Hg as [Hreq Hg1].
    inversion Hq as [|? ? Hch Hq1]; subst.
    destruct n as [|n]; [cbn in Hlen; lia|]. cbn [length] in Hlen.
    destruct (buf_inv_bounds c s Hc Hinv) as (H62 & Hten & _).
    destruct (array_push_chars s cs0 ch Hholds H62 Hten)
      as (s1' & Hpush' & Hholds1 & Hmono & Hten1 & Hgrow).
    rewrite Hpush in Hpush'. inversion Hpush'; subst s1'.
    assert (Hstep : exists (a1 : Arena) (f1 : nat),
               arena_wf c a1 /\ buf_inv c s1
               /\ forall fuel : nat, (f1 <= fuel)%nat ->
                  match growth_request sizeof_char s with
                  | None => a1 = a
                  | Some size =>
                    exists p : ArenaPtr, arena_alloc fuel a size = Done (p, a1)
                  end).
    { destruct (growth_request sizeof_char s) as [size|] eqn:Ereq.
      - destruct Hreq as [Hb Hfit]. destruct Hgrow as [Hsz _].
        assert (H63 : 2 ^ 62 < 2 ^ 63) by (vm_compute; reflexivity).
        destruct (arena_alloc_returns c a size Hwf ltac:(lia) Hfit)
          as (p & a1 & Hrun & Hal & _ & _ & _ & Hwf1 & _).
        exists a1, (S (length (arena_blocks a))).
        split; [exact Hwf1|]. split; [right; lia|].
        intros fuel Hfuel. exists p.
        exact (arena_alloc_mono _ _ _ _ fuel Hrun Hfuel).
      - exists a, 0%nat. split; [exact Hwf|]. split; [|intros; reflexivity].
        destruct Hinv as [H0|H]; [|right; lia].
        exfalso. destruct Hholds as (Hl & Hle & _).
        unfold growth_request in Ereq. rewrite H0 in Ereq.
        assert (H64 : 2 ^ 62 < 2 ^ 64) by (vm_compute; reflexivity).
        rewrite size_t_small in Ereq by lia.
        assert (E : (0 <? len s + 1) = true) by (apply Z.ltb_lt; lia).
        rewrite E in Ereq. discriminate. }
    destruct Hstep as (a1 & f1 & Hwf1 & Hinv1 & Halloc).
    destruct (IH s1 (cs0 ++ [ch]) n rest a1 o Hholds1 Hinv1 Hwf1 Hg1 Hq1
                 ltac:(lia)) as (a' & f2 & Hwf' & Hrun).
    exists a', (S (Nat.max f1 f2)). split; [exact Hwf'|].
    intros fuel Hfuel. destruct fuel as [|fuel]; [lia|].
    cbn [app length pushes]. rewrite Hpush, string_loop_step, Hch.
    rewrite (array_append_run (S fuel) sizeof_char s s1 ch _ a a1 o Hpush)
      by (apply Halloc; lia).
    cbn [obind consume_char str sv_len sv_ptr tl DEFAULT_ARENA oob_reads].
    rewrite Hrun by lia.
    replace (S n - S (length cs) - 1)%nat with (n - length cs - 1)%nat by lia.
    reflexivity.
Qed.



(** * The value decoder *)

Lemma trim_left_empty (fuel : nat) (p : list ascii) (a : Arena) (o : nat) :
  trim_left (S fuel) (mkState (mkStringView 0 p) a o)
  = Done (tt, mkState (mkStringView 0 p) a o).
Proof. reflexivity. Qed.

Lemma trim_left_stop (fuel : nat) (n : nat) (c : ascii) (p : list ascii)
    (a : Arena) (o : nat) :
  is_whitespace c = false ->
  trim_left (S fuel) (mkState (mkStringView (S n) (c :: p)) a o)
  = Done (tt, mkState (mkStringView (S n) (c :: p)) a o).
Proof.
  intros H. cbn [trim_left]. unfold bind, str_len, str_peek.
  cbn [obind str sv_len sv_ptr Nat.ltb Nat.leb Nat.eqb]. rewrite H. reflexivity.
Qed.

Lemma trim_left_space (fuel : nat) (n : nat) (c : ascii) (p : list ascii)
    (a : Arena) (o : nat) :
  is_whitespace c = true ->
  trim_left (S fuel) (mkState (mkStringView (S n) (c :: p)) a o)
  = trim_left fuel (mkState (mkStringView n p) a o).
Proof.
  intros H. cbn [trim_left]. unfold bind, str_len, str_peek.
  cbn [obind str sv_len sv_ptr Nat.ltb Nat.leb Nat.eqb]. rewrite H. reflexivity.
Qed.

(** [trim_left] removes white space from the front of the view and nothing
    else; it stops at the end of the view or at the first other character. *)
Lemma trim_left_inv (fuel : nat) :
  forall (n : nat) (p : list ascii) (a : Arena) (o : nat) (st' : State),
    trim_left fuel (mkState (mkStringView n p) a o) = Done (tt, st') ->
    exists (ws rest : list ascii),
      p = ws ++ rest
      /\ Forall (fun c => is_whitespace c = true) ws
      /\ (length ws <= n)%nat
      /\ st' = mkState (mkStringView (n - length ws) rest) a o
      /\ ((n - length ws)%nat = 0%nat
          \/ exists (c : ascii) (r : list ascii),
               rest = c :: r /\ is_whitespace c = false).
Proof.
  induction fuel as [|fuel IH]; intros n p a o st' H; [discriminate|].
  destruct n as [|n].
  - rewrite trim_left_empty in H. inversion H; subst.
    exists [], p. cbn [app length Nat.sub].
    splits; try reflexivity; try lia; try (constructor; fail).
  - destruct p as [|c p]; [discriminate|].
    destruct (is_whitespace c) eqn:E.
    + rewrite (trim_left_space _ _ _ _ _ _ E) in H.
      destruct (IH _ _ _ _ _ H) as (ws & rest & -> & Hws & Hlen & -> & Hend).
      exists (c :: ws), rest. cbn [app length Nat.sub].
      splits; try reflexivity; try lia; try exact Hend.
      constructor; assumption.
    + rewrite (trim_left_stop _ _ _ _ _ _ E) in H. inversion H; subst.
      exists [], (c :: p). cbn [app length Nat.sub].
      splits; try reflexivity; try lia; try (constructor; fail).
      right. exists c, p. split; [reflexivity | exact E].
Qed.

Lemma trim_left_run (ws : list ascii) :
  Forall (fun c => is_whitespace c = true) ws ->
  forall (fuel m : nat) (rest : list ascii) (a : Arena) (o : nat),
    m = 0%nat
    \/ (exists (c : ascii) (r : list ascii),
           rest = c :: r /\ is_whitespace c = false) ->
    (length ws < fuel)%nat ->
    trim_left fuel (mkState (mkStringView (length ws + m) (ws ++ rest)) a o)
    = Done (tt, mkState (mkStringView m rest) a o).
Proof.
  induction 1 as [|c ws Hc Hws IH]; intros fuel m rest a o Hend Hfuel.
  - destruct fuel as [|fuel]; [cbn in Hfuel; lia|]. cbn [length app Nat.add].
    destruct m as [|m]; [apply trim_left_empty|].
    destruct Hend as [H|(c & r & -> & Hc)]; [discriminate|].
    apply trim_left_stop. exact Hc.
  - destruct fuel as [|fuel]; [cbn in Hfuel; lia|]. cbn [length app Nat.add].
    rewrite (trim_left_space _ _ _ _ _ _ Hc). apply IH; [exact Hend|].
    cbn [length] in Hfuel. lia.
Qed.

Lemma consume_literal_loop_state (literal : list ascii) :
  forall (st : State) (b : bool) (st' : State),
    consume_literal_loop literal st = Done (b, st') ->
    DEFAULT_ARENA st' = DEFAULT_ARENA st.
Proof.
  induction literal as [|l literal IH]; intros st b st' H.
  - inversion H; subst. reflexivity.
  - cbn [consume_literal_loop] in H. unfold bind at 1 in H.
    unfold str_peek in H. destruct (sv_ptr (str st)) as [|c p]; [discriminate|].
    cbn [obind] in H. destruct (negb (char_eqb c l)).
    + inversion H; subst. destruct (Nat.eqb _ 0); reflexivity.
    + unfold bind at 1 in H. unfold consume_char at 1 in H.
      destruct (Nat.eqb (sv_len (str st)) 0) eqn:E.
      * apply Nat.eqb_eq in E. cbn [str sv_len] in H. rewrite E in H. discriminate.
      * destruct (sv_len (str st)) as [|n]; [discriminate|].
        cbn [obind] in H. apply IH in H. exact H.
Qed.

Section Kinds.

Context {libc : Libc}.

Lemma decode_json_value_unfold (fuel : nat) :
  decode_json_value (S fuel)
  = bind (trim_left (S fuel)) (fun _ =>
      bind str_peek (fun c => value_switch fuel c)).
Proof. reflexivity. Qed.

Lemma literal_kind (literal : list ascii) (size : nat) (v0 : JsonValue)
    (st : State) (v : JsonValue) (st' : State) :
  bind (consume_literal literal size)
       (fun ok => if negb ok then ret ErrResult else ret (OkResult v0)) st
  = Done (OkResult v, st') ->
  v = v0.
Proof.
  unfold bind. destruct (consume_literal literal size st) as [[[] st1]| | | |];
    cbn; intros H; inversion H; reflexivity.
Qed.

Lemma decode_json_number_kind (fuel : nat) (st : State) (v : JsonValue)
    (st' : State) :
  decode_json_number fuel st = Done (OkResult v, st') ->
  exists d : JsonNumber, v = VNumber d.
Proof.
  unfold decode_json_number, bind, ret.
  destruct (str_peek st) as [[c st1]| | | |]; try discriminate. cbn [obind].
  destruct (if char_eqb c "-"%char then _ else _) as [[neg st2]| | | |];
    try discriminate. cbn [obind].
  destruct (number_loop fuel _ _ _ st2) as [[[num|] st3]| | | |];
    try discriminate; cbn [obind].
  destruct (new fuel sizeof_JsonNumber st3) as [[q st4]| | | |];
    try discriminate. cbn [obind]. intros H. inversion H. eexists. reflexivity.
Qed.

Lemma decode_json_string_kind (fuel : nat) (st : State) (v : JsonValue)
    (st' : State) :
  decode_json_string fuel st = Done (OkResult v, st') ->
  exists s : JsonString, v = VString s.
Proof.
  unfold decode_json_string, bind, ret.
  destruct (str_peek st) as [[c st1]| | | |]; try discriminate. cbn [obind].
  destruct (negb (char_eqb c DQUOTE)); [discriminate|].
  destruct (consume_char st1) as [[u st2]| | | |]; try discriminate. cbn [obind].
  destruct (new fuel sizeof_String st2) as [[q st3]| | | |]; try discriminate.
  cbn [obind].
  destruct (string_loop fuel array_zero st3) as [[[[] s] st4]| | | |];
    try discriminate; cbn [obind negb]; intros H; inversion H.
  eexists. reflexivity.
Qed.

Lemma decode_json_array_kind (fuel : nat) (st : State) (v : JsonValue)
    (st' : State) :
  decode_json_array fuel st = Done (OkResult v, st') ->
  exists a : JsonArray, v = VArray a.
Proof.
  destruct fuel as [|fuel]; [discriminate|].
  cbn [decode_json_array]. unfold bind, ret.
  destruct (str_peek st) as [[c st1]| | | |]; try discriminate. cbn [obind].
  destruct (negb (char_eqb c "["%char)); [discriminate|].
  destruct (consume_char st1) as [[u st2]| | | |]; try discriminate. cbn [obind].
  destruct (new (S fuel) sizeof_JsonArray st2) as [[q st3]| | | |];
    try discriminate. cbn [obind].
  destruct (array_loop fuel array_zero st3) as [[[arr|] st4]| | | |];
    try discriminate; cbn [obind].
  destruct (str_peek st4) as [[c' st5]| | | |]; try discriminate. cbn [obind].
  destruct (negb (char_eqb c' "]"%char)); [discriminate|].
  destruct (consume_char st5) as [[u' st6]| | | |]; try discriminate.
  cbn [obind]. intros H. inversion H. eexists. reflexivity.
Qed.

Lemma decode_json_object_kind (fuel : nat) (st : State) (v : JsonValue)
    (st' : State) :
  decode_json_object fuel st = Done (OkResult v, st') ->
  exists o : Array JsonObjectProperty, v = VObject o.
Proof.
  destruct fuel as [|fuel]; [discriminate|].
  cbn [decode_json_object]. unfold bind, ret.
  destruct (str_peek st) as [[c st1]| | | |]; try discriminate. cbn [obind].
  destruct (negb (char_eqb c "{"%char)); [discriminate|].
  destruct (consume_char st1) as [[u st2]| | | |]; try discriminate. cbn [obind].
  destruct (new (S fuel) sizeof_JsonObject st2) as [[q st3]| | | |];
    try discriminate. cbn [obind].
  destruct (object_loop fuel array_zero st3) as [[[arr|] st4]| | | |];
    try discriminate; cbn [obind].
  destruct (str_peek st4) as [[c' st5]| | | |]; try discriminate. cbn [obind].
  destruct (negb (char_eqb c' "}"%char)); [discriminate|].
  destruct (consume_char st5) as [[u' st6]| | | |]; try discriminate.
  cbn [obind]. intros H. inversion H. eexists. reflexivity.
Qed.

(** The lookahead character fixes the type of the value that is returned. *)
Lemma value_switch_kind (fuel : nat) (c : ascii) (st : State) (v : JsonValue)
    (st' : State) :
  value_switch fuel c st = Done (OkResult v, st') ->
  type_of_lookahead c = Some (json_type v).
Proof.
  unfold value_switch, type_of_lookahead.
  destruct (char_eqb c "n"%char).
  { intros H. apply literal_kind in H. subst. reflexivity. }
  destruct (char_eqb c "t"%char).
  { intros H. apply literal_kind in H. subst. reflexivity. }
  destruct (char_eqb c "f"%char).
  { intros H. apply literal_kind in H. subst. reflexivity. }
  destruct (existsb (char_eqb c) (text "0123456789-")).
  { intros H. apply decode_json_number_kind in H. destruct H as [d ->].
    reflexivity. }
  destruct (char_eqb c DQUOTE).
  { intros H. apply decode_json_string_kind in H. destruct H as [s ->].
    reflexivity. }
  destruct (char_eqb c "["%char).
  { intros H. apply decode_json_array_kind in H. destruct H as [a ->].
    reflexivity. }
  destruct (char_eqb c "{"%char).
  { intros H. apply decode_json_object_kind in H. destruct H as [o ->].
    reflexivity. }
  discriminate.
Qed.

End Kinds.

(** * The number decoder: the accumulation rule *)

Section NumberClaim.

Context {libc : Libc}.

(** A text that is one unsigned literal with a fraction, decoded by [main]'s
    call: the result is the number of the accumulation rule. *)
Lemma decode_json_fraction_text (negative : bool) (d1 d2 : ascii) (tail : list ascii) :
  is_digit d1 = true -> is_digit d2 = true ->
  returns (decode_json 5
             (view_of (number_text negative [d1] (Some [d2])) tail) init_state)
          (OkResult (VNumber (spec_number negative [d1] [d2]))).
Proof.
  intros H1 H2.
  destruct (decode_json_number_literal negative [d1] (Some [d2]) 0 tail
              ARENA_DEFAULT_CAP arena_default_new 0) as (a' & Hrun).
  { repeat constructor; assumption. }
  { repeat constructor; assumption. }
  { reflexivity. }
  { destruct negative; discriminate. }
  { left; reflexivity. }
  { exact arena_default_new_wf. }
  { reflexivity. }
  assert (Hl : (length (number_text negative [d1] (Some [d2])) < 5)%nat)
    by (destruct negative; cbn; lia).
  specialize (Hrun 5%nat Hl ltac:(cbn; lia)).
  eapply returns_intro.
  rewrite decode_json_unfold. unfold view_of, sv_from_cstr, init_state.
  cbn [DEFAULT_ARENA oob_reads].
  rewrite decode_json_value_unfold. unfold bind at 1.
  rewrite Nat.add_0_r in Hrun.
  destruct (digit_not_special d1 H1) as (_ & _ & _ & Hws1 & _).
  destruct negative.
  - change (number_text true [d1] (Some [d2]))
      with ("-"%char :: d1 :: "."%char :: [d2]) in *.
    cbn [length app] in *.
    rewrite trim_left_stop by reflexivity. cbn [obind].
    unfold bind at 1. unfold str_peek at 1.
    cbn [str sv_ptr sv_len Nat.eqb obind].
    change (value_switch 4 "-"%char) with (decode_json_number 5).
    rewrite Hrun. reflexivity.
  - change (number_text false [d1] (Some [d2]))
      with (d1 :: "."%char :: [d2]) in *.
    cbn [length app] in *.
    rewrite trim_left_stop by exact Hws1. cbn [obind].
    unfold bind at 1. unfold str_peek at 1.
    cbn [str sv_ptr sv_len Nat.eqb obind].
    assert (Hsw : value_switch 4 d1 = decode_json_number 5).
    { clear - H1. unfold value_switch.
      destruct d1 as [[] [] [] [] [] [] [] []]; try discriminate H1; reflexivity. }
    rewrite Hsw, Hrun. reflexivity.
Qed.

(** C5.  [decode_json_number] on a literal (an optional ['-'], digits, and at
    most one ['.'] followed by digits) that ends with the view or before
    [','], [']'], ['}'] or white space returns the number that the
    accumulation rule gives: [value = value*10 + digit] over the integer
    part, [digit * pow(10, -k)] added for the digit at position [k] of the
    fraction, the result multiplied by [-1] after a leading ['-'].  Any other
    character makes it return the failure result at that character.  With
    [pow(10, -1)] the double nearest to 0.1, ["1.2"] decodes to the double
    nearest to 1.2 and ["-0.5"] to -0.5. *)
Theorem decode_json_number_accumulates :
  (forall (negative : bool) (int_digits : list ascii)
          (fraction : option (list ascii)) (m : nat) (rest : list ascii)
          (c : Z) (a : Arena) (o : nat),
      Forall (fun ch => is_digit ch = true) int_digits ->
      Forall (fun ch => is_digit ch = true) (fraction_digits fraction) ->
      Z.of_nat (length (fraction_digits fraction)) < INT_MAX ->
      number_text negative int_digits fraction <> [] ->
      m = 0%nat
      \/ (exists (ch : ascii) (rest' : list ascii),
             rest = ch :: rest' /\ is_number_end ch = true) ->
      arena_wf c a -> 8 < c ->
      exists a' : Arena,
        forall fuel : nat,
          (length (number_text negative int_digits fraction) < fuel)%nat ->
          (length (arena_blocks a) < fuel)%nat ->
          decode_json_number fuel
            (mkState (mkStringView
                        (length (number_text negative int_digits fraction) + m)
                        (number_text negative int_digits fraction ++ rest)) a o)
          = Done (OkResult (VNumber (spec_number negative int_digits
                                                 (fraction_digits fraction))),
                  mkState (mkStringView m rest) a' o))
  /\ (forall (negative : bool) (int_digits : list ascii)
             (fraction : option (list ascii)) (ch : ascii) (m : nat)
             (rest : list ascii) (a : Arena) (o : nat) (fuel : nat),
        Forall (fun c => is_digit c = true) int_digits ->
        Forall (fun c => is_digit c = true) (fraction_digits fraction) ->
        Z.of_nat (length (fraction_digits fraction)) < INT_MAX ->
        is_digit ch = false -> is_number_end ch = false ->
        (char_eqb ch "."%char = true -> fraction <> None) ->
        (number_text negative int_digits fraction = [] ->
         char_eqb ch "-"%char = false) ->
        (length (number_text negative int_digits fraction) < fuel)%nat ->
        decode_json_number fuel
          (mkState (mkStringView
                      (length (number_text negative int_digits fraction) + S m)
                      (number_text negative int_digits fraction ++ ch :: rest))
                   a o)
        = Done (ErrResult, mkState (mkStringView (S m) (ch :: rest)) a o))
  /\ (pow (double_of_int 10) (double_of_int (-1)) = nearest_double false 1 10 ->
      forall tail : list ascii,
        returns (decode_json 5 (view_of (text "1.2") tail) init_state)
                (OkResult (VNumber (nearest_double false 12 10)))
        /\ returns (decode_json 5 (view_of (text "-0.5") tail) init_state)
                   (OkResult (VNumber (nearest_double true 1 2)))).
Proof.
  split; [|split].
  - intros negative int_digits fraction m rest c a o.
    apply decode_json_number_literal.
  - intros negative int_digits fraction ch m rest a o fuel.
    apply decode_json_number_rejects.
  - intros Hpow tail. split.
    + assert (Hv : spec_number false ["1"%char] ["2"%char]
                   = nearest_double false 12 10).
      { unfold spec_number, spec_integer_part.
        cbn [fold_left spec_fraction_part Z.opp]. rewrite Hpow.
        vm_compute. reflexivity. }
      rewrite <- Hv.
      exact (decode_json_fraction_text false "1"%char "2"%char tail eq_refl eq_refl).
    + assert (Hv : spec_number true ["0"%char] ["5"%char]
                   = nearest_double true 1 2).
      { unfold spec_number, spec_integer_part.
        cbn [fold_left spec_fraction_part Z.opp]. rewrite Hpow.
        vm_compute. reflexivity. }
      rewrite <- Hv.
      exact (decode_json_fraction_text true "0"%char "5"%char tail eq_refl eq_refl).
Qed.

End NumberClaim.

Lemma decode_json_number_accumulates_witness :
  (exists a' : Arena,
      forall fuel : nat,
        (length (number_text true (text "12") (Some (text "5"))) < fuel)%nat ->
        (length (arena_blocks arena_default_new) < fuel)%nat ->
        decode_json_number fuel
          (mkState (mkStringView
                      (length (number_text true (text "12") (Some (text "5"))) + 1)
                      (number_text true (text "12") (Some (text "5")) ++ text ","))
                   arena_default_new 0)
        = Done (OkResult (VNumber (spec_number true (text "12") (text "5"))),
                mkState (mkStringView 1 (text ",")) a' 0))
  /\ decode_json_number 3
       (mkState (mkStringView (length (number_text false (text "1") None) + 1)
                              (number_text false (text "1") None ++ text "a"))
                arena_default_new 0)
     = Done (ErrResult, mkState (mkStringView 1 (text "a")) arena_default_new 0)
  /\ pow (double_of_int 10) (double_of_int (-1)) = nearest_double false 1 10
  /\ (forall tail : list ascii,
        returns (decode_json 5 (view_of (text "1.2") tail) init_state)
                (OkResult (VNumber (nearest_double false 12 10)))
        /\ returns (decode_json 5 (view_of (text "-0.5") tail) init_state)
                   (OkResult (VNumber (nearest_double true 1 2)))).
Proof.
  destruct (@decode_json_number_accumulates ref_libc) as (Hok & Herr & Hex).
  split; [|split; [|split]].
  - apply (Hok true (text "12") (Some (text "5")) 1%nat (text ",")
               ARENA_DEFAULT_CAP arena_default_new 0%nat).
    + repeat constructor.
    + repeat constructor.
    + reflexivity.
    + discriminate.
    + right. exists ","%char, []. split; reflexivity.
    + exact arena_default_new_wf.
    + reflexivity.
  - apply (Herr false (text "1") None "a"%char 0%nat [] arena_default_new 0%nat
                3%nat).
    + repeat constructor.
    + constructor.
    + reflexivity.
    + reflexivity.
    + reflexivity.
    + discriminate.
    + discriminate.
    + simpl. lia.
  - vm_compute. reflexivity.
  - apply Hex. vm_compute. reflexivity.
Defined.

(** * Encoding and decoding again *)

Lemma decode_json_string_quote (fuel : nat) (n : nat) (p : list ascii)
    (a : Arena) (o : nat) :
  decode_json_string fuel (mkState (mkStringView (S n) (DQUOTE :: p)) a o)
  = obind (new fuel sizeof_String (mkState (mkStringView n p) a o))
      (fun '(_, st1) =>
         obind (string_loop fuel array_zero st1)
           (fun '(found_end, s, st2) =>
              if negb found_end then Done (ErrResult, st2)
              else Done (OkResult (VString s), st2))).
Proof.
  unfold decode_json_string, bind, ret, str_peek.
  cbn [str sv_ptr sv_len Nat.eqb obind].
  change (char_eqb DQUOTE DQUOTE) with true. cbn [negb consume_char str sv_len obind].
  cbn [sv_ptr tl DEFAULT_ARENA oob_reads].
  destruct (new fuel sizeof_String _) as [[q st1]| | | |]; try reflexivity.
  cbn [obind].
  destruct (string_loop fuel array_zero st1) as [[[[] s] st2]| | | |]; reflexivity.
Qed.


Lemma holds_chars_zero : holds_chars array_zero [].
Proof. unfold holds_chars, array_zero. cbn. splits; try reflexivity; lia. Qed.

Lemma holds_chars_slots (s : JsonString) (cs : list ascii) :
  holds_chars s cs -> string_slots s = map Full cs.
Proof.
  intros (Hlen & _ & Hptr). unfold string_slots.
  rewrite Hptr, Hlen, Nat2Z.id.
  rewrite <- (length_map (@Full ascii) cs) at 1.
  rewrite firstn_app, Nat.sub_diag, firstn_all. cbn [firstn].
  apply app_nil_r.
Qed.


Section RoundTripProof.

Context {libc : Libc}.



End RoundTripProof.

Section RoundTripTheorem.

Context {libc : Libc}.



End RoundTripTheorem.



(** * Object entries *)

Section ObjectEntry.

Context {libc : Libc}.

(** The entry rule, wherever the object is: the key has been decoded and the
    next character is not [':']. *)
Lemma object_loop_no_colon (fuel : nat) (properties : Array JsonObjectProperty)
    (st st1 : State) (c0 : ascii) (st2 : State) (key : JsonString)
    (st3 : State) (c : ascii) (st4 : State) :
  (0 < sv_len (str st))%nat ->
  trim_left (S fuel) st = Done (tt, st1) ->
  str_peek st1 = Done (c0, st2) -> char_eqb c0 "}"%char = false ->
  decode_json_string (S fuel) st2 = Done (OkResult (VString key), st3) ->
  str_peek st3 = Done (c, st4) -> char_eqb c ":"%char = false ->
  object_loop (S fuel) properties st = Done (None, st4).
Proof.
  intros Hlen Ht Hp0 Hc0 Hkey Hp Hc.
  cbn [object_loop]. unfold bind at 1. unfold str_len at 1. cbn [obind].
  destruct (sv_len (str st)) as [|n]; [lia|]. cbn [Nat.ltb Nat.leb].
  unfold bind at 1. rewrite Ht. cbn [obind].
  unfold bind at 1. rewrite Hp0. cbn [obind]. rewrite Hc0.
  unfold bind at 1. rewrite Hkey. cbn [obind].
  unfold bind at 1. rewrite Hp. cbn [obind]. rewrite Hc. reflexivity.
Qed.

(** [decode_json_object] returns the failure result when its loop does. *)
Lemma decode_json_object_loop_fails (fuel : nat) (n : nat) (p : list ascii)
    (a : Arena) (o : nat) (q : ArenaPtr) (a1 : Arena) (st' : State) :
  arena_alloc (S fuel) a sizeof_JsonObject = Done (q, a1) ->
  object_loop fuel array_zero (mkState (mkStringView n p) a1 o) = Done (None, st') ->
  decode_json_object (S fuel) (mkState (mkStringView (S n) ("{"%char :: p)) a o)
  = Done (ErrResult, st').
Proof.
  intros Ha Hloop. cbn [decode_json_object].
  unfold bind at 1. unfold str_peek at 1. cbn [str sv_ptr sv_len Nat.eqb obind].
  change (negb (char_eqb "{"%char "{"%char)) with false. cbn beta iota.
  unfold bind at 1. cbn [consume_char str sv_len sv_ptr tl obind DEFAULT_ARENA oob_reads].
  unfold bind at 1. unfold new, arena_alloc_default.
  cbn [DEFAULT_ARENA str oob_reads]. rewrite Ha. cbn [obind].
  unfold bind at 1. rewrite Hloop. reflexivity.
Qed.

(** A top-level object whose first key is followed by anything but [':']:
    the whole parse returns the failure result. *)
Lemma decode_json_key_without_colon (c : Z) (ws1 ws2 key : list ascii)
    (ch : ascii) (rest tail : list ascii) (st : State) :
  c <= 2 ^ 31 -> arena_wf c (DEFAULT_ARENA st) ->
  align sizeof_JsonObject 8 < c ->
  Forall (fun x => is_whitespace x = true) ws1 ->
  Forall (fun x => is_whitespace x = true) ws2 ->
  Forall (fun x => char_eqb x DQUOTE = false) key ->
  growths_ok c array_zero key ->
  char_eqb ch ":"%char = false ->
  exists fuel0 : nat,
    forall fuel : nat,
      (fuel0 <= fuel)%nat ->
      returns (decode_json fuel
                 (view_of (ws1 ++ "{"%char :: ws2 ++ DQUOTE :: key
                               ++ DQUOTE :: ch :: rest) tail) st)
              ErrResult.
Proof.
  intros Hc Hwf Hfit Hws1 Hws2 Hq Hg Hch.
  assert (H24 : 0 <= sizeof_JsonObject < 2 ^ 63)
    by (unfold sizeof_JsonObject; split; [lia | reflexivity]).
  destruct (arena_alloc_returns c (DEFAULT_ARENA st) sizeof_JsonObject Hwf H24 Hfit)
    as (q1 & a1 & Ha1 & _ & _ & _ & _ & Hwf1 & _).
  destruct (new_returns c a1 sizeof_String Hwf1 H24 Hfit)
    as (q2 & a2 & Hwf2 & Hnew2).
  set (after := ch :: rest ++ tail).
  destruct (string_loop_run c Hc key array_zero []
              (length key + S (S (length rest))) after a2
              (oob_reads st) holds_chars_zero ltac:(left; reflexivity) Hwf2 Hg Hq
              ltac:(lia))
    as (a3 & f3 & Hwf3 & Hloop).
  exists (S (S (S (Nat.max (Nat.max (length ws1) (length ws2))
                  (Nat.max f3 (Nat.max (S (length (arena_blocks (DEFAULT_ARENA st))))
                                       (S (length (arena_blocks a1))))))))).
  intros fuel Hfuel.
  destruct fuel as [|[|[|fuel]]]; try lia.
  assert (Hview : view_of (ws1 ++ "{"%char :: ws2 ++ DQUOTE :: key
                               ++ DQUOTE :: ch :: rest) tail
                  = mkStringView
                      (length ws1
                       + S (length ws2 + S (length key + S (S (length rest)))))
                      (ws1 ++ "{"%char :: ws2 ++ DQUOTE :: key ++ DQUOTE :: after)).
  { unfold view_of, sv_from_cstr, after. f_equal.
    - repeat (rewrite length_app; cbn [length]). reflexivity.
    - repeat (rewrite <- app_assoc; cbn [app]). reflexivity. }
  eapply returns_intro.
  rewrite decode_json_unfold, Hview.
  rewrite decode_json_value_unfold. unfold bind at 1.
  rewrite (trim_left_run ws1 Hws1 (S (S (S fuel)))
             (S (length ws2 + S (length key + S (S (length rest)))))
             ("{"%char :: ws2 ++ DQUOTE :: key ++ DQUOTE :: after));
    [| right; exists "{"%char, (ws2 ++ DQUOTE :: key ++ DQUOTE :: after);
       split; reflexivity | lia].
  cbn [obind].
  unfold bind at 1. unfold str_peek at 1. cbn [str sv_ptr sv_len Nat.eqb obind].
  change (value_switch (S (S fuel)) "{"%char)
    with (decode_json_object (S (S fuel))).
  erewrite decode_json_object_loop_fails;
    [cbn [obind]; destruct (negb _); reflexivity
    | exact (arena_alloc_mono _ _ _ _ (S (S fuel)) Ha1 ltac:(lia)) |].
  eapply (object_loop_no_colon fuel array_zero _ _ DQUOTE _ (pushes array_zero key)
            _ ch).
  - cbn [str sv_len]. lia.
  - apply (trim_left_run ws2 Hws2 (S fuel)
             (S (length key + S (S (length rest))))
             (DQUOTE :: key ++ DQUOTE :: after));
      [right; exists DQUOTE, (key ++ DQUOTE :: after); split; reflexivity | lia].
  - unfold str_peek. cbn [str sv_ptr sv_len Nat.eqb]. reflexivity.
  - reflexivity.
  - rewrite decode_json_string_quote.
    rewrite Hnew2 by lia. cbn [obind].
    rewrite Hloop by lia. cbn [obind negb]. reflexivity.
  - unfold str_peek. cbn [str sv_ptr sv_len]. subst after.
    replace (length key + S (S (length rest)) - length key - 1)%nat
      with (S (length rest)) by lia.
    cbn [Nat.eqb]. reflexivity.
  - exact Hch.
Qed.

(** The entry rule when the character after the key is [':']: it is consumed,
    white space is trimmed, and the value decoder starts there. *)
Lemma object_loop_colon (fuel : nat) (properties : Array JsonObjectProperty)
    (st st1 : State) (c0 : ascii) (st2 : State) (key : JsonString)
    (st3 : State) (c : ascii) (st4 st5 st6 : State) :
  (0 < sv_len (str st))%nat ->
  trim_left (S fuel) st = Done (tt, st1) ->
  str_peek st1 = Done (c0, st2) -> char_eqb c0 "}"%char = false ->
  decode_json_string (S fuel) st2 = Done (OkResult (VString key), st3) ->
  str_peek st3 = Done (c, st4) -> char_eqb c ":"%char = true ->
  consume_char st4 = Done (tt, st5) ->
  trim_left (S fuel) st5 = Done (tt, st6) ->
  object_loop (S fuel) properties st
  = bind (decode_json_value fuel) (object_entry_finish fuel properties key) st6.
Proof.
  intros Hlen Ht Hp0 Hc0 Hkey Hp Hc Hcons Ht2.
  cbn [object_loop]. unfold bind at 1. unfold str_len at 1. cbn [obind].
  destruct (sv_len (str st)) as [|n]; [lia|]. cbn [Nat.ltb Nat.leb].
  unfold bind at 1. rewrite Ht. cbn [obind].
  unfold bind at 1. rewrite Hp0. cbn [obind]. rewrite Hc0.
  unfold bind at 1. rewrite Hkey. cbn [obind].
  unfold bind at 1. rewrite Hp. cbn [obind]. rewrite Hc. cbn [negb].
  unfold bind at 1. rewrite Hcons. cbn [obind].
  unfold bind at 1. rewrite Ht2. cbn [obind].
  unfold bind. destruct (decode_json_value fuel st6) as [[[|v] st7]| | | |];
    reflexivity.
Qed.

(** C9.  In the loop of [decode_json_object], once the key of an entry has
    been decoded, the very next character decides: if it is not [':'] (be it
    white space) the loop returns the failure result; if it is [':'] it is
    consumed, white space is trimmed, and the value is decoded from there.
    A text that is an object whose first key is followed by anything but
    [':'] makes [decode_json] return the failure result. *)
Theorem object_key_needs_colon :
  (forall (fuel : nat) (properties : Array JsonObjectProperty)
          (st st1 : State) (c0 : ascii) (st2 : State) (key : JsonString)
          (st3 : State) (c : ascii) (st4 : State),
      (0 < sv_len (str st))%nat ->
      trim_left (S fuel) st = Done (tt, st1) ->
      str_peek st1 = Done (c0, st2) -> char_eqb c0 "}"%char = false ->
      decode_json_string (S fuel) st2 = Done (OkResult (VString key), st3) ->
      str_peek st3 = Done (c, st4) -> char_eqb c ":"%char = false ->
      object_loop (S fuel) properties st = Done (None, st4))
  /\ (forall (fuel : nat) (properties : Array JsonObjectProperty)
             (st st1 : State) (c0 : ascii) (st2 : State) (key : JsonString)
             (st3 : State) (c : ascii) (st4 st5 st6 : State),
        (0 < sv_len (str st))%nat ->
        trim_left (S fuel) st = Done (tt, st1) ->
        str_peek st1 = Done (c0, st2) -> char_eqb c0 "}"%char = false ->
        decode_json_string (S fuel) st2 = Done (OkResult (VString key), st3) ->
        str_peek st3 = Done (c, st4) -> char_eqb c ":"%char = true ->
        consume_char st4 = Done (tt, st5) ->
        trim_left (S fuel) st5 = Done (tt, st6) ->
        object_loop (S fuel) properties st
        = bind (decode_json_value fuel)
               (object_entry_finish fuel properties key) st6)
  /\ (forall (c : Z) (ws1 ws2 key : list ascii) (ch : ascii)
             (rest tail : list ascii) (st : State),
        c <= 2 ^ 31 -> arena_wf c (DEFAULT_ARENA st) ->
        align sizeof_JsonObject 8 < c ->
        Forall (fun x => is_whitespace x = true) ws1 ->
        Forall (fun x => is_whitespace x = true) ws2 ->
        Forall (fun x => char_eqb x DQUOTE = false) key ->
        growths_ok c array_zero key ->
        char_eqb ch ":"%char = false ->
        exists fuel0 : nat,
          forall fuel : nat,
            (fuel0 <= fuel)%nat ->
            returns (decode_json fuel
                       (view_of (ws1 ++ "{"%char :: ws2 ++ DQUOTE :: key
                                     ++ DQUOTE :: ch :: rest) tail) st)
                    ErrResult)
  /\ (forall tail : list ascii,
        returns (decode_json 10 (view_of (qtext "{'a' :1}") tail) init_state)
                ErrResult
        /\ returns (decode_json 10 (view_of (qtext "[{'a' :1}]") tail) init_state)
                   ErrResult
        /\ exists o : Array JsonObjectProperty,
            returns (decode_json 10 (view_of (qtext "{'a':  1}") tail) init_state)
                    (OkResult (VObject o))
            /\ len o = 1).
Proof.
  split; [|split; [|split]].
  - exact object_loop_no_colon.
  - exact object_loop_colon.
  - exact decode_json_key_without_colon.
  - intros tail. split; [|split].
    + eapply returns_intro. vm_compute. reflexivity.
    + eapply returns_intro. vm_compute. reflexivity.
    + eexists. split; [eapply returns_intro; vm_compute; reflexivity|].
      reflexivity.
Qed.

End ObjectEntry.

Lemma object_key_needs_colon_witness :
  (exists st4 : State,
      object_loop 5 array_zero
        (mkState (mkStringView 7 (qtext "'a' :1}")) arena_default_new 0)
      = Done (None, st4))
  /\ (exists st6 : State,
        object_loop 5 array_zero
          (mkState (mkStringView 7 (qtext "'a': 1}")) arena_default_new 0)
        = bind (decode_json_value 4)
               (object_entry_finish 4 array_zero
                  (mkArray 1 10 (Full "a"%char :: repeat Zero 9))) st6
        /\ str st6 = mkStringView 2 (text "1}"))
  /\ (exists fuel0 : nat,
        forall fuel : nat,
          (fuel0 <= fuel)%nat ->
          returns (decode_json fuel
                     (view_of ([] ++ "{"%char :: [] ++ DQUOTE :: text "a"
                                   ++ DQUOTE :: " "%char :: text ":1}") [])
                     init_state)
                  ErrResult).
Proof.
  destruct (@object_key_needs_colon ref_libc) as (Hno & Hyes & Htext & _).
  split; [|split].
  - eexists.
    eapply (Hno 4%nat array_zero _ _ DQUOTE _
                (mkArray 1 10 (Full "a"%char :: repeat Zero 9)) _ " "%char).
    + simpl. lia.
    + vm_compute. reflexivity.
    + vm_compute. reflexivity.
    + reflexivity.
    + vm_compute. reflexivity.
    + vm_compute. reflexivity.
    + reflexivity.
  - eexists. split.
    + eapply (Hyes 4%nat array_zero _ _ DQUOTE _
                (mkArray 1 10 (Full "a"%char :: repeat Zero 9)) _ ":"%char).
      * simpl. lia.
      * vm_compute. reflexivity.
      * vm_compute. reflexivity.
      * reflexivity.
      * vm_compute. reflexivity.
      * vm_compute. reflexivity.
      * reflexivity.
      * vm_compute. reflexivity.
      * vm_compute. reflexivity.
    + reflexivity.
  - apply (Htext ARENA_DEFAULT_CAP [] [] (text "a") " "%char (text ":1}") []
                 init_state).
    + vm_compute. discriminate.
    + exact arena_default_new_wf.
    + reflexivity.
    + constructor.
    + constructor.
    + repeat constructor.
    + vm_compute. repeat split; try discriminate; reflexivity.
    + reflexivity.
Defined.

(** * White space, literals and the lookahead *)

(** X1: [trim_left] on a view that lies inside its memory returns within
    [len + 1] steps; it has consumed white space only, all of it up to the end
    of the view or the first other character, and has touched neither the
    arena nor memory outside the view. *)
Theorem trim_left_total (n : nat) :
  forall (p : list ascii) (a : Arena) (o : nat) (fuel : nat),
    (n <= length p)%nat -> (n < fuel)%nat ->
    exists (ws rest : list ascii),
      p = ws ++ rest
      /\ Forall (fun c => is_whitespace c = true) ws
      /\ (length ws <= n)%nat
      /\ trim_left fuel (mkState (mkStringView n p) a o)
         = Done (tt, mkState (mkStringView (n - length ws) rest) a o)
      /\ ((n - length ws)%nat = 0%nat
          \/ exists (c : ascii) (r : list ascii),
               rest = c :: r /\ is_whitespace c = false).
Proof.
  induction n as [|n IH]; intros p a o fuel Hp Hfuel.
  - destruct fuel as [|fuel]; [lia|].
    exists [], p. cbn [app length Nat.sub]. splits; try reflexivity; try lia.
    constructor.
  - destruct fuel as [|fuel]; [lia|].
    destruct p as [|c p]; [cbn in Hp; lia|]. cbn [length] in Hp.
    destruct (is_whitespace c) eqn:E.
    + destruct (IH p a o fuel ltac:(lia) ltac:(lia))
        as (ws & rest & -> & Hws & Hlen & Hrun & Hend).
      exists (c :: ws), rest. cbn [app length Nat.sub].
      rewrite (trim_left_space _ _ _ _ _ _ E).
      splits; try reflexivity; try lia; try assumption.
      constructor; assumption.
    + exists [], (c :: p). cbn [app length Nat.sub].
      rewrite (trim_left_stop _ _ _ _ _ _ E).
      splits; try reflexivity; try lia; try (constructor; fail).
      right. exists c, p. split; [reflexivity | exact E].
Qed.

Lemma trim_left_total_witness :
  (3 <= length (text "  x"))%nat /\ (3 < 4)%nat
  /\ exists (ws rest : list ascii),
      text "  x" = ws ++ rest
      /\ Forall (fun c => is_whitespace c = true) ws
      /\ (length ws <= 3)%nat
      /\ trim_left 4 (mkState (mkStringView 3 (text "  x")) arena_default_new 0)
         = Done (tt, mkState (mkStringView (3 - length ws) rest)
                             arena_default_new 0)
      /\ ((3 - length ws)%nat = 0%nat
          \/ exists (c : ascii) (r : list ascii),
               rest = c :: r /\ is_whitespace c = false).
Proof.
  split; [simpl; lia|]. split; [lia|].
  apply (trim_left_total 3 (text "  x") arena_default_new 0 4); simpl; lia.
Defined.

(** The loop of [consume_literal] consumes the common prefix of the literal
    and the text, and tells whether that was the whole literal. *)
Lemma consume_literal_loop_spec (literal : list ascii) :
  forall (n : nat) (p : list ascii) (a : Arena) (o : nat),
    (length literal <= n)%nat -> (length literal <= length p)%nat ->
    consume_literal_loop literal (mkState (mkStringView n p) a o)
    = Done (Nat.eqb (length (common_prefix literal p)) (length literal),
            mkState (mkStringView (n - length (common_prefix literal p))
                                  (skipn (length (common_prefix literal p)) p))
                    a o).
Proof.
  induction literal as [|l literal IH]; intros n p a o Hn Hp.
  - cbn [consume_literal_loop common_prefix length Nat.eqb skipn].
    rewrite Nat.sub_0_r. reflexivity.
  - destruct p as [|c p]; [cbn in Hp; lia|].
    destruct n as [|n]; [cbn in Hn; lia|].
    cbn [length] in Hn, Hp.
    cbn [consume_literal_loop common_prefix]. unfold bind at 1.
    unfold str_peek at 1. cbn [str sv_ptr sv_len Nat.eqb obind].
    destruct (char_eqb c l) eqn:E; cbn [negb].
    + unfold bind at 1.
      cbn [consume_char str sv_len sv_ptr tl DEFAULT_ARENA oob_reads obind].
      rewrite IH by lia. cbn [length Nat.eqb Nat.sub skipn]. reflexivity.
    + cbn [length Nat.eqb Nat.sub skipn]. reflexivity.
Qed.

Lemma common_prefix_full (literal p : list ascii) :
  length (common_prefix literal p) = length literal ->
  exists rest : list ascii, p = literal ++ rest.
Proof.
  revert p. induction literal as [|l literal IH]; intros p H.
  - exists p. reflexivity.
  - destruct p as [|c p]; [discriminate H|]. cbn [common_prefix] in H.
    destruct (char_eqb c l) eqn:E; [|discriminate H].
    apply Ascii.eqb_eq in E. subst c. cbn [length] in H.
    destruct (IH p ltac:(lia)) as [rest ->]. exists rest. reflexivity.
Qed.





(** * The lookahead and the keywords *)

Lemma app_split_prefix {A : Type} (ws : list A) :
  forall (p tail rest0 : list A),
    p ++ tail = ws ++ rest0 -> (length ws <= length p)%nat ->
    exists p1 : list A, p = ws ++ p1 /\ rest0 = p1 ++ tail.
Proof.
  induction ws as [|w ws IH]; intros p tail rest0 H Hlen.
  - exists p. split; [reflexivity | symmetry; exact H].
  - destruct p as [|x p]; [cbn in Hlen; lia|].
    cbn [app] in H. inversion H; subst.
    destruct (IH p tail rest0 ltac:(assumption) ltac:(cbn in Hlen; lia))
      as (p1 & -> & ->).
    exists p1. split; reflexivity.
Qed.

Lemma lookahead_literal (c : ascii) (t : JsonType) :
  type_of_lookahead c = Some t ->
  (t = JSON_NULL -> c = "n"%char) /\ (t = JSON_TRUE -> c = "t"%char)
  /\ (t = JSON_FALSE -> c = "f"%char) /\ (t = JSON_STRING -> c = DQUOTE)
  /\ (t = JSON_ARRAY -> c = "["%char) /\ (t = JSON_OBJECT -> c = "{"%char).
Proof.
  destruct c as [[] [] [] [] [] [] [] []]; vm_compute; intros H;
    inversion H; subst; repeat split; intros E; try discriminate E; reflexivity.
Qed.

Section Lookahead.

Context {libc : Libc}.

Lemma value_switch_none (fuel : nat) (c : ascii) :
  type_of_lookahead c = None -> value_switch fuel c = ret ErrResult.
Proof.
  unfold type_of_lookahead, value_switch.
  destruct (char_eqb c "n"%char); [discriminate|].
  destruct (char_eqb c "t"%char); [discriminate|].
  destruct (char_eqb c "f"%char); [discriminate|].
  destruct (existsb (char_eqb c) (text "0123456789-")); [discriminate|].
  destruct (char_eqb c DQUOTE); [discriminate|].
  destruct (char_eqb c "["%char); [discriminate|].
  destruct (char_eqb c "{"%char); [discriminate|].
  reflexivity.
Qed.

(** What a returned [decode_json_value] has looked at. *)
Lemma decode_json_value_inv (fuel : nat) (n : nat) (p : list ascii) (a : Arena)
    (o : nat) (r : JsonResult) (st' : State) :
  decode_json_value fuel (mkState (mkStringView n p) a o) = Done (r, st') ->
  exists (fuel' : nat) (ws : list ascii) (c : ascii) (rest : list ascii) (o' : nat),
    fuel = S fuel' /\ p = ws ++ c :: rest
    /\ Forall (fun x => is_whitespace x = true) ws
    /\ (length ws <= n)%nat
    /\ ((length ws < n)%nat -> is_whitespace c = false /\ o' = o)
    /\ value_switch fuel' c
         (mkState (mkStringView (n - length ws) (c :: rest)) a o')
       = Done (r, st').
Proof.
  intros H. destruct fuel as [|fuel]; [discriminate|].
  rewrite decode_json_value_unfold in H. unfold bind at 1 in H.
  destruct (trim_left (S fuel) _) as [[[] st1]| | | |] eqn:Et; try discriminate.
  apply trim_left_inv in Et.
  destruct Et as (ws & rest0 & -> & Hws & Hlen & -> & Hend).
  cbn [obind] in H. unfold bind at 1 in H. unfold str_peek at 1 in H.
  cbn [str sv_ptr sv_len] in H.
  destruct rest0 as [|c rest]; [discriminate|]. cbn [obind] in H.
  exists fuel, ws, c, rest,
    (if Nat.eqb (n - length ws) 0 then S o else o).
  splits; try reflexivity; try assumption.
  - intros Hlt. assert (E : Nat.eqb (n - length ws) 0 = false)
      by (apply Nat.eqb_neq; lia).
    rewrite E. split; [|reflexivity].
    destruct Hend as [H0|(c' & r' & Hc & Hw)]; [lia|].
    inversion Hc; subst. exact Hw.
  - destruct (Nat.eqb (n - length ws) 0); exact H.
Qed.

(** X3: the type of a decoded value is fixed by the lookahead character, the
    first character of the text after white space: ['n'], ['t'], ['f'], a
    digit or ['-'], a double quote, ['['] and ['{'] give null, true, false,
    number, string, array and object.  Any other lookahead makes
    [decode_json_value] return the failure result at that character, with
    the arena untouched. *)
Theorem decode_json_value_lookahead (fuel : nat) (n : nat) (p : list ascii)
    (a : Arena) (o : nat) (r : JsonResult) (st' : State) :
  decode_json_value fuel (mkState (mkStringView n p) a o) = Done (r, st') ->
  exists (ws : list ascii) (c : ascii) (rest : list ascii),
    p = ws ++ c :: rest
    /\ Forall (fun x => is_whitespace x = true) ws
    /\ (length ws <= n)%nat
    /\ ((length ws < n)%nat -> is_whitespace c = false)
    /\ (forall v : JsonValue,
           r = OkResult v -> type_of_lookahead c = Some (json_type v))
    /\ (type_of_lookahead c = None ->
        r = ErrResult /\ DEFAULT_ARENA st' = a
        /\ str st' = mkStringView (n - length ws) (c :: rest)).
Proof.
  intros H. apply decode_json_value_inv in H.
  destruct H as (fuel' & ws & c & rest & o' & -> & -> & Hws & Hlen & Hc & Hsw).
  exists ws, c, rest. splits; try reflexivity; try assumption.
  - intros Hlt. apply Hc. exact Hlt.
  - intros v ->. exact (value_switch_kind _ _ _ _ _ Hsw).
  - intros Hnone. rewrite (value_switch_none fuel' c Hnone) in Hsw.
    inversion Hsw; subst. splits; reflexivity.
Qed.

End Lookahead.

Lemma decode_json_value_lookahead_witness :
  exists (ws : list ascii) (c : ascii) (rest : list ascii),
    text " x" = ws ++ c :: rest
    /\ Forall (fun x => is_whitespace x = true) ws
    /\ (length ws <= 2)%nat
    /\ ((length ws < 2)%nat -> is_whitespace c = false)
    /\ (forall v : JsonValue,
           ErrResult = OkResult v -> type_of_lookahead c = Some (json_type v))
    /\ (type_of_lookahead c = None ->
        ErrResult = ErrResult
        /\ DEFAULT_ARENA (mkState (mkStringView 1 (text "x")) arena_default_new 0)
           = arena_default_new
        /\ str (mkState (mkStringView 1 (text "x")) arena_default_new 0)
           = mkStringView (2 - length ws) (c :: rest)).
Proof.
  apply (@decode_json_value_lookahead ref_libc 3 2 (text " x")
           arena_default_new 0 ErrResult
           (mkState (mkStringView 1 (text "x")) arena_default_new 0)).
  vm_compute. reflexivity.
Defined.

(** * Keywords *)

Lemma keyword_run (v : JsonValue) (word tail : list ascii) (a : Arena) (o : nat)
    (fuel : nat) :
  keyword_of v = Some word ->
  exists (c : ascii) (w : list ascii),
    word = c :: w /\ is_whitespace c = false
    /\ forall libc : Libc,
        @value_switch libc fuel c
          (mkState (mkStringView (length word) (word ++ tail)) a o)
        = Done (OkResult v, mkState (mkStringView 0 tail) a o).
Proof.
  destruct v; intros H; inversion H; subst; eexists; eexists;
    (split; [reflexivity|]); (split; [reflexivity|]); intros libc; reflexivity.
Qed.

Lemma keyword_inv {libc : Libc} (fuel : nat) (c : ascii) (n : nat)
    (rest : list ascii) (a : Arena) (o : nat) (v : JsonValue)
    (word : list ascii) (st' : State) :
  keyword_of v = Some word -> (n <= length (c :: rest))%nat ->
  value_switch fuel c (mkState (mkStringView n (c :: rest)) a o)
  = Done (OkResult v, st') ->
  exists rest' : list ascii,
    c :: rest = word ++ rest' /\ (length word <= n)%nat
    /\ st' = mkState (mkStringView (n - length word) rest') a o.
Proof.
  intros Hk Hn Hsw.
  pose proof (value_switch_kind _ _ _ _ _ Hsw) as Hkind.
  destruct (lookahead_literal c _ Hkind) as (Hn' & Ht & Hf & _).
  assert (Hlit : forall (lit : list ascii) (v0 : JsonValue),
             bind (consume_literal lit (length lit))
                  (fun ok => if negb ok then ret ErrResult else ret (OkResult v0))
                  (mkState (mkStringView n (c :: rest)) a o)
             = Done (OkResult v, st') ->
             exists rest' : list ascii,
               c :: rest = lit ++ rest' /\ (length lit <= n)%nat
               /\ st' = mkState (mkStringView (n - length lit) rest') a o).
  { intros lit v0 Hrun. unfold bind in Hrun.
    destruct (Nat.ltb n (length lit)) eqn:El.
    - unfold consume_literal, bind, str_len in Hrun.
      cbn [obind str sv_len] in Hrun. rewrite El in Hrun. discriminate.
    - apply Nat.ltb_ge in El.
      pose proof (consume_literal_loop_spec lit n (c :: rest) a o El ltac:(lia))
        as Hloop.
      unfold consume_literal, bind, str_len in Hrun.
      cbn [obind str sv_len] in Hrun.
      assert (E : Nat.ltb n (length lit) = false) by (apply Nat.ltb_ge; lia).
      rewrite E, firstn_all, Hloop in Hrun. cbn [obind] in Hrun.
      destruct (Nat.eqb (length (common_prefix lit (c :: rest))) (length lit))
        eqn:Ek; cbn [negb] in Hrun; [|discriminate].
      apply Nat.eqb_eq in Ek.
      destruct (common_prefix_full lit (c :: rest) Ek) as [rest' Hr].
      inversion Hrun; subst. exists rest'. rewrite Ek.
      splits; try assumption; try lia.
      rewrite Hr, skipn_app, Nat.sub_diag, skipn_all. reflexivity. }
  destruct v; inversion Hk; subst.
  - rewrite (Hn' eq_refl) in *. exact (Hlit (text "null") VNull Hsw).
  - rewrite (Ht eq_refl) in *. exact (Hlit (text "true") VTrue Hsw).
  - rewrite (Hf eq_refl) in *. exact (Hlit (text "false") VFalse Hsw).
Qed.

Section Keywords.

Context {libc : Libc}.

(** X4: the keywords are recognised exactly.  A text made of white space and
    then [null], [true] or [false] decodes to that value, in any arena and
    without allocating; conversely, when [decode_json] returns one of these
    three values the text was white space followed by the keyword and
    nothing else, and the arena is as it was. *)
Theorem decode_json_keywords :
  (forall (v : JsonValue) (word ws tail : list ascii) (st : State) (fuel : nat),
      keyword_of v = Some word ->
      Forall (fun x => is_whitespace x = true) ws ->
      (length ws < fuel)%nat ->
      decode_json fuel (view_of (ws ++ word) tail) st
      = Done (OkResult v,
              mkState (mkStringView 0 tail) (DEFAULT_ARENA st) (oob_reads st)))
  /\ (forall (fuel : nat) (p tail : list ascii) (st : State) (v : JsonValue)
             (word : list ascii) (st' : State),
        keyword_of v = Some word ->
        decode_json fuel (view_of p tail) st = Done (OkResult v, st') ->
        exists ws : list ascii,
          p = ws ++ word
          /\ Forall (fun x => is_whitespace x = true) ws
          /\ st' = mkState (mkStringView 0 tail) (DEFAULT_ARENA st)
                           (oob_reads st)).
Proof.
  split.
  - intros v word ws tail st fuel Hk Hws Hfuel.
    destruct fuel as [|fuel]; [lia|].
    destruct (keyword_run v word tail (DEFAULT_ARENA st) (oob_reads st) fuel Hk)
      as (c & w & Hw & Hc & Hrun).
    rewrite decode_json_unfold. unfold view_of, sv_from_cstr.
    rewrite decode_json_value_unfold. unfold bind at 1.
    rewrite <- app_assoc, length_app.
    rewrite (trim_left_run ws Hws (S fuel) (length word) (word ++ tail))
      by first [lia | right; exists c, (w ++ tail); rewrite Hw; split;
                      [reflexivity | exact Hc]].
    cbn [obind]. unfold bind at 1. unfold str_peek at 1.
    cbn [str sv_ptr sv_len].
    specialize (Hrun libc). subst word. cbn [app length Nat.eqb obind] in *.
    rewrite Hrun. reflexivity.
  - intros fuel p tail st v word st' Hk H.
    rewrite decode_json_unfold in H. unfold view_of, sv_from_cstr in H.
    destruct (decode_json_value fuel _) as [[r st1]| | | |] eqn:Ev;
      try discriminate.
    cbn [obind] in H.
    destruct (Nat.eqb (sv_len (str st1)) 0) eqn:E0; cbn [negb] in H;
      [|discriminate].
    inversion H; subst. clear H. apply Nat.eqb_eq in E0.
    apply decode_json_value_inv in Ev.
    destruct Ev as (fuel' & ws & c & rest & o' & -> & Hp & Hws & Hlen & Hc & Hsw).
    destruct (app_split_prefix ws p tail (c :: rest) Hp Hlen) as (p1 & -> & Hr).
    rewrite length_app in *.
    replace (length ws + length p1 - length ws)%nat with (length p1) in Hsw by lia.
    assert (Hn : (length p1 <= length (c :: rest))%nat)
      by (rewrite Hr, length_app; lia).
    destruct (keyword_inv fuel' c (length p1) rest _ o' v word st' Hk Hn Hsw)
      as (rest' & Hcr & Hwl & ->).
    cbn [str sv_len] in E0.
    assert (Hpl : length p1 = length word) by lia.
    assert (Hp1 : p1 = word /\ rest' = tail).
    { rewrite Hr in Hcr. clear - Hcr Hpl. revert word Hcr Hpl.
      induction p1 as [|x p1 IH]; intros word Hcr Hpl.
      - destruct word; [|discriminate Hpl]. split; [reflexivity|].
        symmetry. exact Hcr.
      - destruct word as [|y word]; [discriminate Hpl|].
        cbn [app] in Hcr. inversion Hcr; subst.
        destruct (IH word ltac:(assumption) ltac:(cbn in Hpl; lia)) as [-> ->].
        split; reflexivity. }
    destruct Hp1 as [-> ->].
    exists ws. splits; try reflexivity; try assumption.
    rewrite Nat.sub_diag.
    assert (Ho : o' = oob_reads st).
    { destruct word as [|y word]; [destruct v; discriminate Hk|].
      apply Hc. cbn [length]. lia. }
    rewrite Ho. reflexivity.
Qed.

End Keywords.

Lemma decode_json_keywords_witness :
  decode_json 2 (view_of (text " " ++ text "true") (text "!")) init_state
  = Done (OkResult VTrue,
          mkState (mkStringView 0 (text "!")) (DEFAULT_ARENA init_state)
                  (oob_reads init_state))
  /\ exists ws : list ascii,
      text "false" = ws ++ text "false"
      /\ Forall (fun x => is_whitespace x = true) ws
      /\ mkState (mkStringView 0 []) arena_default_new 0
         = mkState (mkStringView 0 []) (DEFAULT_ARENA init_state)
                   (oob_reads init_state).
Proof.
  destruct (@decode_json_keywords ref_libc) as [Hrun Hinv].
  split.
  - apply (Hrun VTrue (text "true") (text " ") (text "!") init_state 2%nat).
    + reflexivity.
    + repeat constructor.
    + simpl. lia.
  - apply (Hinv 2%nat (text "false") [] init_state VFalse (text "false")).
    + reflexivity.
    + vm_compute. reflexivity.
Defined.

(** * The string decoder on every text *)

(** A returned run of the loop, whether or not it found the closing quote. *)
Lemma string_loop_done (c : Z) :
  c <= 2 ^ 31 ->
  forall (fuel : nat) (s : JsonString) (cs0 : list ascii) (n : nat)
         (p : list ascii) (a : Arena) (o : nat) (b : bool) (s' : JsonString)
         (st' : State),
    holds_chars s cs0 -> buf_inv c s -> arena_wf c a ->
    string_loop fuel s (mkState (mkStringView n p) a o) = Done ((b, s'), st') ->
    exists (cs rest : list ascii) (a' : Arena) (n' : nat),
      string_loop_stop b n p cs rest n'
      /\ Forall (fun ch => char_eqb ch DQUOTE = false) cs
      /\ s' = pushes s cs
      /\ holds_chars s' (cs0 ++ cs)
      /\ buf_inv c s'
      /\ growths_ok c s cs
      /\ st' = mkState (mkStringView n' rest) a' o
      /\ arena_wf c a'.
Proof.
  intros Hc fuel. induction fuel as [|fuel IH];
    intros s cs0 n p a o b s' st' Hholds Hinv Hwf Hrun; [discriminate|].
  destruct n as [|n].
  { cbn in Hrun. inversion Hrun; subst.
    exists [], p, a, 0%nat. cbn [app length pushes growths_ok string_loop_stop].
    rewrite app_nil_r. splits; try assumption; try reflexivity. constructor. }
  destruct p as [|ch p]; [discriminate|].
  rewrite string_loop_step in Hrun.
  destruct (char_eqb ch DQUOTE) eqn:Eq.
  - inversion Hrun; subst.
    assert (Hch : ch = DQUOTE) by (apply Ascii.eqb_eq; exact Eq). subst ch.
    exists [], p, a, n. cbn [app length pushes growths_ok string_loop_stop].
    rewrite app_nil_r.
    splits; try assumption; try lia; try reflexivity. constructor.
  - destruct (array_append _ _ _ _ _) as [[s1 st1]| | | |] eqn:Eapp;
      try discriminate.
    apply array_append_done in Eapp.
    destruct Eapp as (a1 & -> & Hpush & Hreq).
    cbn [obind consume_char str sv_len sv_ptr tl DEFAULT_ARENA oob_reads] in Hrun.
    destruct (buf_inv_bounds c s Hc Hinv) as (H62 & Hten & _).
    destruct (array_push_chars s cs0 ch Hholds H62 Hten)
      as (s1' & Hpush' & Hholds1 & Hmono & Hten1 & Hgrow).
    rewrite Hpush in Hpush'. inversion Hpush'; subst s1'.
    assert (Hstep : match growth_request sizeof_char s with
                    | None => True
                    | Some size => 0 <= size < 2 ^ 62 /\ align size 8 < c
                    end /\ buf_inv c s1 /\ arena_wf c a1).
    { destruct (growth_request sizeof_char s) as [size|] eqn:Ereq.
      - destruct Hreq as [q Hq]. destruct Hgrow as [Hsz _].
        pose proof (string_growth_request c s cs0 size Hc Hinv Hholds Ereq) as Hb.
        destruct (arena_alloc_done c _ a size q a1 Hwf Hb Hq) as [Hfit Hwf1].
        split; [split; assumption|]. split; [|exact Hwf1].
        right. assert (H63 : 2 ^ 62 < 2 ^ 63) by (vm_compute; reflexivity).
        destruct (align_bounds size ltac:(lia)) as [Hal _]. lia.
      - subst a1. split; [exact I|]. split; [|exact Hwf].
        destruct Hinv as [H0|H]; [|right; lia].
        exfalso. destruct Hholds as (Hl & Hle & _).
        unfold growth_request in Ereq. rewrite H0 in Ereq.
        assert (H64 : 2 ^ 62 < 2 ^ 64) by (vm_compute; reflexivity).
        rewrite size_t_small in Ereq by lia.
        assert (E : (0 <? len s + 1) = true) by (apply Z.ltb_lt; lia).
        rewrite E in Ereq. discriminate. }
    destruct Hstep as (Hreq_ok & Hinv1 & Hwf1).
    destruct (IH s1 (cs0 ++ [ch]) n p a1 o b s' st' Hholds1 Hinv1 Hwf1 Hrun)
      as (cs & rest & a' & n' & Hstop & Hq & -> & Hholds' & Hinv' & Hg & -> & Hwf').
    exists (ch :: cs), rest, a', n'.
    cbn [app length pushes growths_ok]. rewrite Hpush.
    rewrite <- app_assoc in Hholds'. cbn [app] in Hholds'.
    splits; try assumption; try reflexivity.
    + unfold string_loop_stop in *. destruct b.
      * destruct Hstop as (-> & Hl & ->). cbn [app length].
        splits; try reflexivity; lia.
      * destruct Hstop as (-> & Hl & ->). cbn [app length].
        splits; try reflexivity; lia.
    + constructor; assumption.
Qed.

(** The loop on a text with no quote up to the end of the view. *)
Lemma string_loop_run_open (c : Z) :
  c <= 2 ^ 31 ->
  forall (cs : list ascii) (s : JsonString) (cs0 : list ascii)
         (rest : list ascii) (a : Arena) (o : nat),
    holds_chars s cs0 -> buf_inv c s -> arena_wf c a ->
    growths_ok c s cs ->
    Forall (fun ch => char_eqb ch DQUOTE = false) cs ->
    exists (a' : Arena) (fuel0 : nat),
      arena_wf c a'
      /\ forall fuel : nat,
          (fuel0 <= fuel)%nat ->
          string_loop fuel s (mkState (mkStringView (length cs) (cs ++ rest)) a o)
          = Done ((false, pushes s cs), mkState (mkStringView 0 rest) a' o).
Proof.
  intros Hc cs. induction cs as [|ch cs IH];
    intros s cs0 rest a o Hholds Hinv Hwf Hg Hq.
  - exists a, 1%nat. split; [exact Hwf|]. intros fuel Hfuel.
    destruct fuel as [|fuel]; [lia|]. reflexivity.
  - cbn [growths_ok] in Hg.
    destruct (array_push sizeof_char s ch) as [s1|] eqn:Hpush; [|contradiction].
    destruct Hg as [Hreq Hg1].
    inversion Hq as [|? ? Hch Hq1]; subst.
    destruct (buf_inv_bounds c s Hc Hinv) as (H62 & Hten & _).
    destruct (array_push_chars s cs0 ch Hholds H62 Hten)
      as (s1' & Hpush' & Hholds1 & Hmono & Hten1 & Hgrow).
    rewrite Hpush in Hpush'. inversion Hpush'; subst s1'.
    assert (Hstep : exists (a1 : Arena) (f1 : nat),
               arena_wf c a1 /\ buf_inv c s1
               /\ forall fuel : nat, (f1 <= fuel)%nat ->
                  match growth_request sizeof_char s with
                  | None => a1 = a
                  | Some size =>
                    exists p : ArenaPtr, arena_alloc fuel a size = Done (p, a1)
                  end).
    { destruct (growth_request sizeof_char s) as [size|] eqn:Ereq.
      - destruct Hreq as [Hb Hfit]. destruct Hgrow as [Hsz _].
        assert (H63 : 2 ^ 62 < 2 ^ 63) by (vm_compute; reflexivity).
        destruct (arena_alloc_returns c a size Hwf ltac:(lia) Hfit)
          as (p & a1 & Hrun & Hal & _ & _ & _ & Hwf1 & _).
        exists a1, (S (length (arena_blocks a))).
        split; [exact Hwf1|]. split; [right; lia|].
        intros fuel Hfuel. exists p.
        exact (arena_alloc_mono _ _ _ _ fuel Hrun Hfuel).
      - exists a, 0%nat. split; [exact Hwf|]. split; [|intros; reflexivity].
        destruct Hinv as [H0|H]; [|right; lia].
        exfalso. destruct Hholds as (Hl & Hle & _).
        unfold growth_request in Ereq. rewrite H0 in Ereq.
        assert (H64 : 2 ^ 62 < 2 ^ 64) by (vm_compute; reflexivity).
        rewrite size_t_small in Ereq by lia.
        assert (E : (0 <? len s + 1) = true) by (apply Z.ltb_lt; lia).
        rewrite E in Ereq. discriminate. }
    destruct Hstep as (a1 & f1 & Hwf1 & Hinv1 & Halloc).
    destruct (IH s1 (cs0 ++ [ch]) rest a1 o Hholds1 Hinv1 Hwf1 Hg1 Hq1)
      as (a' & f2 & Hwf' & Hrun).
    exists a', (S (Nat.max f1 f2)). split; [exact Hwf'|].
    intros fuel Hfuel. destruct fuel as [|fuel]; [lia|].
    cbn [app length pushes]. rewrite Hpush, string_loop_step, Hch.
    rewrite (array_append_run (S fuel) sizeof_char s s1 ch _ a a1 o Hpush)
      by (apply Halloc; lia).
    cbn [obind consume_char str sv_len sv_ptr tl DEFAULT_ARENA oob_reads].
    rewrite Hrun by lia. reflexivity.
Qed.

Lemma array_push_cap {T : Type} (esz : Z) (s s' : Array T) (item : T) :
  array_push esz s item = Some s' ->
  cap s' = match growth_request esz s with
           | None => cap s
           | Some _ => grown_cap (cap s)
           end.
Proof.
  unfold array_push, array_grow, growth_request.
  destruct (cap s <? size_t (len s + 1)); cbn [ptr len cap];
    destruct (store_slot _ _ item); intros H; inversion H; reflexivity.
Qed.

Lemma listed_align (x : Z) :
  In x [0; 10; 20; 40; 80; 160; 320; 640] -> align x 8 < ARENA_DEFAULT_CAP.
Proof.
  intros H. repeat (destruct H as [<-|H]; [reflexivity|]). contradiction.
Qed.

Lemma listed_grown (x : Z) :
  In x [0; 10; 20; 40; 80; 160; 320; 640] ->
  (x <= 320 /\ In (grown_cap x) [0; 10; 20; 40; 80; 160; 320; 640])
  \/ (x = 640 /\ grown_cap x = 1280).
Proof.
  intros H.
  repeat (destruct H as [<-|H];
          [first [right; split; reflexivity
                 | left; split; [lia | vm_compute; tauto]]|]).
  contradiction.
Qed.

(** With blocks of 1024 bytes the capacity of a string buffer stays among
    10, 20, ..., 640. *)
Lemma pushes_cap_listed (cs : list ascii) :
  forall (s : JsonString) (cs0 : list ascii),
    cap_listed s -> holds_chars s cs0 -> buf_inv ARENA_DEFAULT_CAP s ->
    growths_ok ARENA_DEFAULT_CAP s cs ->
    cap_listed (pushes s cs).
Proof.
  assert (Hc : ARENA_DEFAULT_CAP <= 2 ^ 31) by (vm_compute; discriminate).
  induction cs as [|ch cs IH]; intros s cs0 Hl Hholds Hinv Hg; [exact Hl|].
  cbn [growths_ok pushes] in *.
  destruct (array_push sizeof_char s ch) as [s1|] eqn:Hpush; [|contradiction].
  destruct Hg as [Hreq Hg1].
  destruct (buf_inv_bounds _ s Hc Hinv) as (H62 & Hten & _).
  destruct (array_push_chars s cs0 ch Hholds H62 Hten)
    as (s1' & Hpush' & Hholds1 & Hmono & Hten1 & Hgrow).
  rewrite Hpush in Hpush'. inversion Hpush'; subst s1'.
  pose proof (array_push_cap _ _ _ _ Hpush) as Hcap.
  assert (H63 : 2 ^ 62 < 2 ^ 63) by (vm_compute; reflexivity).
  destruct (growth_request sizeof_char s) as [size|] eqn:Ereq.
  - destruct Hreq as [Hb Hfit]. destruct Hgrow as [Hsz _]. subst size.
    destruct (align_bounds (cap s1) ltac:(lia)) as [Hal _].
    assert (Hl1 : cap_listed s1).
    { unfold cap_listed. rewrite Hcap.
      destruct (listed_grown (cap s) Hl) as [[_ Hin]|[_ Hbig]]; [exact Hin|].
      exfalso. rewrite Hcap, Hbig in Hal, Hfit.
      unfold ARENA_DEFAULT_CAP in Hfit. lia. }
    apply (IH s1 (cs0 ++ [ch]) Hl1 Hholds1); [|exact Hg1].
    right. unfold ARENA_DEFAULT_CAP in *. lia.
  - apply (IH s1 (cs0 ++ [ch])); try assumption.
    + unfold cap_listed. rewrite Hcap. exact Hl.
    + destruct Hinv as [H0|H]; [left; lia | right; lia].
Qed.

(** With blocks of 1024 bytes every growth of a string of at most 640
    characters can be served. *)
Lemma growths_ok_short (cs : list ascii) :
  forall (s : JsonString) (cs0 : list ascii),
    cap_listed s -> holds_chars s cs0 ->
    (length cs0 + length cs <= 640)%nat ->
    growths_ok ARENA_DEFAULT_CAP s cs.
Proof.
  induction cs as [|ch cs IH]; intros s cs0 Hl Hholds Hlen; [exact I|].
  cbn [growths_ok length] in *.
  assert (Hcapb : cap s <= 640).
  { unfold cap_listed in Hl. cbn [In] in Hl. lia. }
  assert (H62 : cap s < 2 ^ 62) by (assert (640 < 2 ^ 62) by reflexivity; lia).
  assert (Hten : cap s = 0 \/ 10 <= cap s).
  { unfold cap_listed in Hl. cbn [In] in Hl. lia. }
  destruct (array_push_chars s cs0 ch Hholds H62 Hten)
    as (s1 & Hpush & Hholds1 & Hmono & Hten1 & Hgrow).
  rewrite Hpush.
  pose proof (array_push_cap _ _ _ _ Hpush) as Hcap.
  destruct (growth_request sizeof_char s) as [size|] eqn:Ereq.
  - destruct Hgrow as [Hsz _]. subst size.
    assert (Hfull : cap s < 640).
    { destruct Hholds as (Hlen0 & Hle & _).
      unfold growth_request in Ereq.
      assert (H64 : 2 ^ 62 < 2 ^ 64) by (vm_compute; reflexivity).
      rewrite size_t_small in Ereq by lia.
      destruct (cap s <? len s + 1) eqn:E; [|discriminate].
      apply Z.ltb_lt in E. lia. }
    assert (Hl1 : cap_listed s1).
    { unfold cap_listed. rewrite Hcap.
      destruct (listed_grown (cap s) Hl) as [[_ Hin]|[Hbig _]]; [exact Hin | lia]. }
    split.
    + split.
      * assert (640 < 2 ^ 62) by reflexivity.
        unfold cap_listed in Hl1. cbn [In] in Hl1. lia.
      * apply listed_align. exact Hl1.
    + apply (IH s1 (cs0 ++ [ch]) Hl1 Hholds1). rewrite length_app. cbn [length]. lia.
  - split; [exact I|].
    apply (IH s1 (cs0 ++ [ch])); [| exact Hholds1 | rewrite length_app; cbn [length]; lia].
    unfold cap_listed. rewrite Hcap. exact Hl.
Qed.

(** * Strings in the default arena *)

Lemma cap_1024 : ARENA_DEFAULT_CAP <= 2 ^ 31.
Proof. vm_compute. discriminate. Qed.

Lemma array_zero_listed : cap_listed (@array_zero ascii).
Proof. left. reflexivity. Qed.

Lemma holds_chars_len (s : JsonString) (cs : list ascii) :
  holds_chars s cs -> len s = Z.of_nat (length cs) /\ Z.of_nat (length cs) <= cap s.
Proof. intros (Hl & Hle & _). split; lia. Qed.

Lemma listed_le (s : JsonString) : cap_listed s -> cap s <= 640.
Proof. unfold cap_listed. cbn [In]. lia. Qed.

(** X5: a string of at most 640 characters is decoded in the default arena
    (blocks of 1024 bytes): [decode_json_string] on an opening quote, the
    characters and a closing quote returns the string and leaves the view
    after the closing quote.  The buffer holds exactly the characters, in
    order, its length is their number and its capacity is one of 0, 10, 20,
    ..., 640.  No escape sequence is interpreted: every character other
    than the double quote is taken as it is. *)
Theorem decode_json_string_short (cs : list ascii) (m : nat) (rest : list ascii)
    (a : Arena) (o : nat) :
  arena_wf ARENA_DEFAULT_CAP a ->
  Forall (fun ch => char_eqb ch DQUOTE = false) cs ->
  (length cs <= 640)%nat ->
  exists (fuel0 : nat) (a' : Arena) (s : JsonString),
    arena_wf ARENA_DEFAULT_CAP a'
    /\ len s = Z.of_nat (length cs)
    /\ string_slots s = map Full cs
    /\ cap_listed s
    /\ forall fuel : nat,
        (fuel0 <= fuel)%nat ->
        decode_json_string fuel
          (mkState (mkStringView (S (length cs + S m))
                                 (DQUOTE :: cs ++ DQUOTE :: rest)) a o)
        = Done (OkResult (VString s), mkState (mkStringView m rest) a' o).
Proof.
  intros Hwf Hq Hlen.
  pose proof cap_1024 as Hc.
  assert (Hg : growths_ok ARENA_DEFAULT_CAP array_zero cs).
  { apply (growths_ok_short cs array_zero []);
      [exact array_zero_listed | exact holds_chars_zero | cbn [length]; lia]. }
  destruct (new_returns _ a sizeof_String Hwf)
    as (q & a1 & Hwf1 & Hnew);
    [unfold sizeof_String; split; [lia | reflexivity] | reflexivity |].
  destruct (string_loop_run _ Hc cs array_zero [] (length cs + S m) rest a1 o
              holds_chars_zero ltac:(left; reflexivity) Hwf1 Hg Hq ltac:(lia))
    as (a' & f0 & Hwf' & Hloop).
  assert (Hinv : exists fuel s' st',
             string_loop fuel array_zero
               (mkState (mkStringView (length cs + S m) (cs ++ DQUOTE :: rest)) a1 o)
             = Done ((true, s'), st') /\ s' = pushes array_zero cs).
  { exists f0, (pushes array_zero cs). eexists. split; [apply Hloop; lia | reflexivity]. }
  destruct Hinv as (f & s' & st' & Hrun & Hs').
  destruct (string_loop_inv _ Hc f array_zero [] _ _ a1 o s' st'
              holds_chars_zero ltac:(left; reflexivity) Hwf1 Hrun)
    as (cs' & rest' & a2 & Hp & Hl' & Hq' & Hs2 & Hholds & _).
  assert (Hcs : cs' = cs).
  { clear - Hp Hq Hq'. revert cs' Hp Hq'.
    induction cs as [|x cs IH]; intros [|y cs'] Hp Hq'; cbn [app] in Hp.
    - reflexivity.
    - inversion Hp; subst. inversion Hq' as [|? ? Hy _]; subst.
      unfold char_eqb in Hy. rewrite Ascii.eqb_refl in Hy. discriminate.
    - inversion Hp; subst. inversion Hq as [|? ? Hx _]; subst.
      unfold char_eqb in Hx. rewrite Ascii.eqb_refl in Hx. discriminate.
    - inversion Hp; subst. inversion Hq; subst. inversion Hq'; subst.
      f_equal. apply IH; assumption. }
  subst cs'. cbn [app] in Hholds.
  exists (S (Nat.max f0 (S (length (arena_blocks a))))), a', (pushes array_zero cs).
  rewrite <- Hs'.
  split; [exact Hwf'|].
  split; [exact (proj1 (holds_chars_len _ _ Hholds))|].
  split; [exact (holds_chars_slots _ _ Hholds)|].
  split.
  { rewrite Hs'. apply (pushes_cap_listed cs array_zero []);
      [exact array_zero_listed | exact holds_chars_zero | left; reflexivity | exact Hg]. }
  intros fuel Hfuel.
  rewrite decode_json_string_quote.
  rewrite Hnew by lia. cbn [obind].
  rewrite Hloop by lia. cbn [obind negb].
  rewrite Hs'.
  replace (length cs + S m - length cs - 1)%nat with m by lia.
  reflexivity.
Qed.

Lemma decode_json_string_short_witness :
  arena_wf ARENA_DEFAULT_CAP arena_default_new
  /\ Forall (fun ch => char_eqb ch DQUOTE = false) (text "a\n")
  /\ (length (text "a\n") <= 640)%nat
  /\ exists (fuel0 : nat) (a' : Arena) (s : JsonString),
      arena_wf ARENA_DEFAULT_CAP a'
      /\ len s = Z.of_nat (length (text "a\n"))
      /\ string_slots s = map Full (text "a\n")
      /\ cap_listed s
      /\ forall fuel : nat,
          (fuel0 <= fuel)%nat ->
          decode_json_string fuel
            (mkState (mkStringView (S (length (text "a\n") + 1))
                                   (DQUOTE :: text "a\n" ++ DQUOTE :: text ",1"))
                     arena_default_new 0)
          = Done (OkResult (VString s),
                  mkState (mkStringView 0 (text ",1")) a' 0).
Proof.
  assert (Hq : Forall (fun ch => char_eqb ch DQUOTE = false) (text "a\n"))
    by (repeat constructor).
  assert (Hl : (length (text "a\n") <= 640)%nat) by (cbn; lia).
  split; [exact arena_default_new_wf|]. split; [exact Hq|]. split; [exact Hl|].
  exact (decode_json_string_short (text "a\n") 0 (text ",1") arena_default_new 0
           arena_default_new_wf Hq Hl).
Defined.

(** X6: [decode_json_string] returns the failure result in two cases only.
    A text that does not start with a double quote is refused with the view
    and the arena untouched.  A text with an opening quote and no closing
    quote inside the view is read up to the end of the view and then
    refused; the characters read so far stay allocated in the arena.  With
    blocks of 1024 bytes the second case returns for up to 640 characters. *)
Theorem decode_json_string_failure :
  (forall (fuel : nat) (n : nat) (p : list ascii) (a : Arena) (o : nat)
          (st' : State),
      arena_wf ARENA_DEFAULT_CAP a -> (0 < n)%nat ->
      decode_json_string fuel (mkState (mkStringView n p) a o)
      = Done (ErrResult, st') ->
      (exists (c : ascii) (r : list ascii),
          p = c :: r /\ char_eqb c DQUOTE = false
          /\ st' = mkState (mkStringView n p) a o)
      \/ (exists (cs rest : list ascii) (a' : Arena),
             p = DQUOTE :: cs ++ rest /\ n = S (length cs)
             /\ Forall (fun ch => char_eqb ch DQUOTE = false) cs
             /\ (length cs <= 640)%nat
             /\ st' = mkState (mkStringView 0 rest) a' o))
  /\ (forall (cs rest : list ascii) (a : Arena) (o : nat),
         arena_wf ARENA_DEFAULT_CAP a ->
         Forall (fun ch => char_eqb ch DQUOTE = false) cs ->
         (length cs <= 640)%nat ->
         exists (fuel0 : nat) (a' : Arena),
           arena_wf ARENA_DEFAULT_CAP a'
           /\ forall fuel : nat,
               (fuel0 <= fuel)%nat ->
               decode_json_string fuel
                 (mkState (mkStringView (S (length cs)) (DQUOTE :: cs ++ rest)) a o)
               = Done (ErrResult, mkState (mkStringView 0 rest) a' o)).
Proof.
  pose proof cap_1024 as Hc.
  split.
  - intros fuel n p a o st' Hwf Hn H.
    destruct n as [|n]; [lia|].
    destruct p as [|c p]; [discriminate|].
    destruct (char_eqb c DQUOTE) eqn:Ec.
    2:{ left. exists c, p.
        unfold decode_json_string, bind, ret, str_peek in H.
        cbn [str sv_ptr sv_len Nat.eqb obind] in H. rewrite Ec in H.
        cbn [negb] in H. inversion H. splits; [reflexivity | exact Ec | reflexivity]. }
    right. apply Ascii.eqb_eq in Ec. subst c.
    rewrite decode_json_string_quote in H.
    destruct (new fuel sizeof_String _) as [[q st1]| | | |] eqn:En; try discriminate.
    apply arena_alloc_default_done in En. destruct En as (a1 & -> & Ha).
    cbn [obind] in H.
    destruct (arena_alloc_done _ fuel a sizeof_String q a1 Hwf
                ltac:(unfold sizeof_String; split; [lia | reflexivity]) Ha)
      as [_ Hwf1].
    destruct (string_loop fuel array_zero _) as [[[[] s] st2]| | | |] eqn:El;
      try discriminate; cbn [obind negb] in H; inversion H; subst.
    destruct (string_loop_done _ Hc fuel array_zero [] n p a1 o false s st'
                holds_chars_zero ltac:(left; reflexivity) Hwf1 El)
      as (cs & rest & a' & n' & Hstop & Hq & Hs & Hholds & Hinv & Hg & Hst & _).
    cbn [string_loop_stop] in Hstop. destruct Hstop as (Hp & Hl & Hn').
    exists cs, rest, a'. subst.
    splits; try reflexivity; try assumption.
    cbn [app] in Hholds.
    pose proof (pushes_cap_listed cs array_zero [] array_zero_listed
                  holds_chars_zero ltac:(left; reflexivity) Hg) as Hlisted.
    apply listed_le in Hlisted.
    destruct (holds_chars_len _ _ Hholds) as [_ Hle]. lia.
  - intros cs rest a o Hwf Hq Hlen.
    assert (Hg : growths_ok ARENA_DEFAULT_CAP array_zero cs).
    { apply (growths_ok_short cs array_zero []);
        [exact array_zero_listed | exact holds_chars_zero | cbn [length]; lia]. }
    destruct (new_returns _ a sizeof_String Hwf)
      as (q & a1 & Hwf1 & Hnew);
      [unfold sizeof_String; split; [lia | reflexivity] | reflexivity |].
    destruct (string_loop_run_open _ Hc cs array_zero [] rest a1 o
                holds_chars_zero ltac:(left; reflexivity) Hwf1 Hg Hq)
      as (a' & f0 & Hwf' & Hloop).
    exists (S (Nat.max f0 (S (length (arena_blocks a))))), a'.
    split; [exact Hwf'|].
    intros fuel Hfuel.
    rewrite decode_json_string_quote.
    rewrite Hnew by lia. cbn [obind].
    rewrite Hloop by lia. reflexivity.
Qed.

Lemma decode_json_string_failure_witness :
  arena_wf ARENA_DEFAULT_CAP arena_default_new
  /\ Forall (fun ch => char_eqb ch DQUOTE = false) (text "ab")
  /\ (length (text "ab") <= 640)%nat
  /\ exists (fuel0 : nat) (a' : Arena),
      arena_wf ARENA_DEFAULT_CAP a'
      /\ forall fuel : nat,
          (fuel0 <= fuel)%nat ->
          decode_json_string fuel
            (mkState (mkStringView (S (length (text "ab")))
                                   (DQUOTE :: text "ab" ++ [NUL]))
                     arena_default_new 0)
          = Done (ErrResult, mkState (mkStringView 0 [NUL]) a' 0).
Proof.
  assert (Hq : Forall (fun ch => char_eqb ch DQUOTE = false) (text "ab"))
    by (repeat constructor).
  assert (Hl : (length (text "ab") <= 640)%nat) by (cbn; lia).
  split; [exact arena_default_new_wf|]. split; [exact Hq|]. split; [exact Hl|].
  exact (proj2 decode_json_string_failure (text "ab") [NUL] arena_default_new 0%nat
           arena_default_new_wf Hq Hl).
Defined.

(** X7: with blocks of 1024 bytes [decode_json_string] returns for no text
    that has more than 640 characters between the opening quote and the
    closing quote or the end of the view: the buffer would have to grow from
    640 to 1280 bytes, which no block can hold, so the allocation never
    comes back, whatever the state of the arena and however much fuel. *)
Theorem decode_json_string_too_long (fuel : nat) (n : nat) (cs rest : list ascii)
    (a : Arena) (o : nat) (r : JsonResult) (st' : State) :
  arena_wf ARENA_DEFAULT_CAP a ->
  Forall (fun ch => char_eqb ch DQUOTE = false) cs ->
  (640 < length cs)%nat -> (length cs < n)%nat ->
  decode_json_string fuel (mkState (mkStringView n (DQUOTE :: cs ++ rest)) a o)
  <> Done (r, st').
Proof.
  intros Hwf Hq Hlong Hn H.
  pose proof cap_1024 as Hc.
  destruct n as [|n]; [lia|].
  rewrite decode_json_string_quote in H.
  destruct (new fuel sizeof_String _) as [[q st1]| | | |] eqn:En; try discriminate.
  apply arena_alloc_default_done in En. destruct En as (a1 & -> & Ha).
  cbn [obind] in H.
  destruct (arena_alloc_done _ fuel a sizeof_String q a1 Hwf
              ltac:(unfold sizeof_String; split; [lia | reflexivity]) Ha)
    as [_ Hwf1].
  destruct (string_loop fuel array_zero _) as [[[b s] st2]| | | |] eqn:El;
    try discriminate.
  destruct (string_loop_done _ Hc fuel array_zero [] n _ a1 o b s st2
              holds_chars_zero ltac:(left; reflexivity) Hwf1 El)
    as (cs' & rest' & a' & n' & Hstop & Hq' & Hs & Hholds & Hinv & Hg & Hst & _).
  cbn [app] in Hholds.
  pose proof (pushes_cap_listed cs' array_zero [] array_zero_listed
                holds_chars_zero ltac:(left; reflexivity) Hg) as Hlisted.
  rewrite <- Hs in Hlisted. apply listed_le in Hlisted.
  destruct (holds_chars_len _ _ Hholds) as [_ Hle].
  assert (Hshort : (length cs' <= 640)%nat) by lia.
  destruct b; cbn [string_loop_stop] in Hstop.
  - destruct Hstop as (Hp & _ & _).
    assert (Hin : In DQUOTE cs).
    { assert (E : nth_error (cs ++ rest) (length cs') = Some DQUOTE).
      { rewrite Hp, nth_error_app2 by lia. rewrite Nat.sub_diag. reflexivity. }
      rewrite nth_error_app1 in E by lia.
      exact (nth_error_In _ _ E). }
    rewrite Forall_forall in Hq. specialize (Hq _ Hin).
    unfold char_eqb in Hq. rewrite Ascii.eqb_refl in Hq. discriminate.
  - destruct Hstop as (_ & Hl & _). lia.
Qed.

Lemma decode_json_string_too_long_witness :
  arena_wf ARENA_DEFAULT_CAP arena_default_new
  /\ Forall (fun ch => char_eqb ch DQUOTE = false) (repeat "a"%char 641)
  /\ (640 < length (repeat "a"%char 641))%nat
  /\ (length (repeat "a"%char 641) < 643)%nat
  /\ forall (fuel : nat) (r : JsonResult) (st' : State),
      decode_json_string fuel
        (mkState (mkStringView 643 (DQUOTE :: repeat "a"%char 641 ++ [DQUOTE]))
                 arena_default_new 0)
      <> Done (r, st').
Proof.
  assert (Hq : Forall (fun ch => char_eqb ch DQUOTE = false) (repeat "a"%char 641)).
  { apply Forall_forall. intros x Hx. apply repeat_spec in Hx. subst x. reflexivity. }
  assert (Hl : (640 < length (repeat "a"%char 641))%nat)
    by (rewrite repeat_length; lia).
  assert (Hn : (length (repeat "a"%char 641) < 643)%nat)
    by (rewrite repeat_length; lia).
  split; [exact arena_default_new_wf|]. split; [exact Hq|]. split; [exact Hl|].
  split; [exact Hn|].
  intros fuel r st'.
  exact (decode_json_string_too_long fuel 643 (repeat "a"%char 641) [DQUOTE]
           arena_default_new 0 r st' arena_default_new_wf Hq Hl Hn).
Defined.
